(** * Kronos: the modelling orchestrator ([kronos/modeler.py]) and the
    earlier split helper ([mlf_project/modeler.py])

    A shallow embedding of the [Modeler] class: the evaluator, the
    train/test split, the training loop, the competition, the deployment
    through the model registry and the prediction with its naive fallback.

    Conventions of the embedding.
    - numpy/pandas numbers are read as exact real numbers ([R]); rounding,
      NaN and infinities of binary64 are not represented, and a division
      by zero has the value that [Rdiv] gives it.  [Binary64] repeats the
      evaluator and the competition over binary64 numbers, where rounding,
      infinities and NaN decide an outcome.
    - dates are day numbers ([Z]); a [timedelta] in days is a [Z].  The
      methods of [Modeler] compute with them as integers; [Dated] repeats
      the prediction with the range of [datetime.date], where a day past
      the last date raises.
    - a Python method that mutates [self], logs or calls a collaborator is
      a computation in the monad [py]: it threads the mutable state and
      either returns a value or raises; what was written before a raise
      stays written, as in Python.
    - collaborators whose code is outside this embedding (the model
      backends, the experiment tracker and the model registry reached
      through [MLFlower]) are records of behaviours. *)

From Stdlib Require Import Floats.
From Stdlib Require Import Reals Lra Lia ZArith Bool Ascii.
From stdpp Require Import base option list strings gmap sorting.

Local Open Scope string_scope.

(** ** Python exceptions, results and log records *)

Module Py.

Inductive exn : Type :=
| Exception_ (msg : string)
| ValueError (msg : string)
| TypeError (msg : string)
| AttributeError (msg : string)
| IndexError (msg : string)
| KeyError (msg : string)
| OverflowError (msg : string).

Inductive result (A : Type) : Type :=
| Ok (a : A)
| Raise (e : exn).
Arguments Ok {A} a.
Arguments Raise {A} e.


Inductive level : Type := WARNING | ERROR.

(** A record of [logger.warning] or [logger.error]: the text of the
    message up to the exception it reports, and that exception.  Of the
    interpolated values only names are kept.  [logger.debug] and
    [logger.info] calls are left out. *)
Record log_record : Type := LogRecord {
  lvl : level;
  text : string;
  cause : option exn
}.

End Py.
Export Py.

(** ** Data model *)

(** One observation of the series: [key_col], [date_col], [metric_col]. *)
Record obs : Type := Obs {
  key : string;
  date : Z;
  metric : R
}.

(** A forecast frame as the backends return it: [date_col], [fcst_col]. *)
Record fcst : Type := Fcst {
  f_date : Z;
  f_value : R
}.

(** A row of the frame returned by [Modeler.prediction]. *)
Record prediction_row : Type := PredictionRow {
  p_date : Z;
  p_value : R;
  p_reference : Z;
  p_creation : Z;
  p_key : string
}.

(** The backend contract ([KRNSProphet], [KRNSPmdarima], [KRNSTensorflow]):
    what each call does when the orchestrator makes it.  [predict] takes
    [n_days], [fcst_first_date] (missing when it is the minimum of an
    empty column) and [future_only]; it may return [None] (the backends
    swallow their own failures). *)
Record krns_model : Type := KrnsModel {
  preprocess : result unit;
  log_params : result unit;
  fit : result unit;
  log_model : result unit;
  predict : Z -> option Z -> bool -> result (option (list fcst))
}.

(** A model configuration: hyper-parameter name to value. *)
Definition model_config : Type := list (string * string).

(** A row of [df_performances]; [model_name] is the index.  The metric
    cells are positional: one per name of [fcst_competition_metrics], the
    labels the table was created with.  [error_avg] is the column that the
    competition adds. *)
Record perf_row : Type := PerfRow {
  model_name : string;
  row_config : option model_config;
  row_model : option krns_model;
  run_id : option string;
  cells : list R;
  error_avg : option R
}.

(** Stages of a model version in the registry. *)
Inductive stage : Type := Unregistered | Staging | Production | Archived.

#[global] Instance stage_eq_dec : EqDecision stage.
Proof. solve_decision. Defined.

(** Events seen by the experiment tracker. *)
Inductive tracking_event : Type :=
| RunStarted (run : string)
| MetricLogged (run : string) (name : string) (value : R)
| RunEnded.

(** The mutable part of a [Modeler] together with what it writes to: the
    log, the experiment tracker, the versions of the registered model. *)
Record state : Type := State {
  train_data : option (list obs);
  test_data : option (list obs);
  df_performances : list perf_row;
  winning_model_name : option string;
  log : list log_record;
  tracking : list tracking_event;
  registry : gmap nat stage
}.

(** ** The monad of Python computations *)

Definition py (A : Type) : Type := state -> result A * state.

#[global] Instance py_ret : MRet py := fun A a s => (Ok a, s).

#[global] Instance py_bind : MBind py := fun A B k m s =>
  match m s with
  | (Ok a, s') => k a s'
  | (Raise e, s') => (Raise e, s')
  end.

Definition raise {A} (e : exn) : py A := fun s => (Raise e, s).

(** A pure step that may raise. *)
Definition lift {A} (r : result A) : py A := fun s => (r, s).

(** [try: body / except Exception as e: handler e]. *)
Definition try_except {A} (body : py A) (handler : exn -> py A) : py A :=
  fun s =>
    match body s with
    | (Ok a, s') => (Ok a, s')
    | (Raise e, s') => handler e s'
    end.

Definition get_state : py state := fun s => (Ok s, s).

Definition with_log (s : state) (l : list log_record) : state :=
  State (train_data s) (test_data s) (df_performances s)
        (winning_model_name s) (log s ++ l) (tracking s) (registry s).

Definition logger (l : level) (t : string) (e : option exn) : py unit := fun s =>
  (Ok tt, with_log s [LogRecord l t e]).

Definition track (ev : tracking_event) : py unit := fun s =>
  (Ok tt,
   State (train_data s) (test_data s) (df_performances s)
         (winning_model_name s) (log s) (tracking s ++ [ev]) (registry s)).

Definition set_split (tr te : list obs) : py unit := fun s =>
  (Ok tt,
   State (Some tr) (Some te) (df_performances s) (winning_model_name s)
         (log s) (tracking s) (registry s)).

Definition set_performances (t : list perf_row) : py unit := fun s =>
  (Ok tt,
   State (train_data s) (test_data s) t (winning_model_name s)
         (log s) (tracking s) (registry s)).

Definition set_winner (w : string) : py unit := fun s =>
  (Ok tt,
   State (train_data s) (test_data s) (df_performances s) (Some w)
         (log s) (tracking s) (registry s)).

Definition set_registry (g : gmap nat stage) : py unit := fun s =>
  (Ok tt,
   State (train_data s) (test_data s) (df_performances s)
         (winning_model_name s) (log s) (tracking s) g).

(** [for x in l: body x]. *)
Fixpoint for_each {A} (l : list A) (body : A -> py unit) : py unit :=
  match l with
  | [] => mret tt
  | x :: l' => body x ;; for_each l' body
  end.

(** A loop that carries a local variable. *)
Fixpoint for_fold {A B} (l : list A) (body : B -> A -> py B) (b : B) : py B :=
  match l with
  | [] => mret b
  | x :: l' => b' ← body b x; for_fold l' body b'
  end.

(** ** numpy and pandas operations used by the orchestrator *)

Module Np.
Local Open Scope R_scope.

(** An arithmetic operator on two one-dimensional arrays: element by
    element when the lengths agree, an array of length one is stretched
    over the other, and any other pair of shapes raises. *)
Definition broadcast (f : R -> R -> R) (xs ys : list R) : result (list R) :=
  if (length xs =? length ys)%nat then Ok (zip_with f xs ys)
  else if (length ys =? 1)%nat then Ok (map (fun x => f x (hd 0 ys)) xs)
  else if (length xs =? 1)%nat then Ok (map (fun y => f (hd 0 xs) y) ys)
  else Raise (ValueError "operands could not be broadcast together").

Definition sub := broadcast Rminus.
Definition div := broadcast Rdiv.
Definition mul := broadcast Rmult.

Definition sum (xs : list R) : R := fold_right Rplus 0 xs.

Definition mean (xs : list R) : R := sum xs / INR (length xs).

Definition square (xs : list R) : list R := map (fun x => x ^ 2) xs.

Definition abs (xs : list R) : list R := map Rabs xs.

End Np.

Module Pd.
Local Open Scope R_scope.

Definition mean (xs : list R) : R := Np.sum xs / INR (length xs).

(** [Series.std()]: the sample standard deviation (one delta degree of
    freedom). *)
Definition std (xs : list R) : R :=
  sqrt (Np.sum (map (fun x => (x - mean xs) ^ 2) xs) / (INR (length xs) - 1)).

(** Position of the first least element, scanning left to right. *)
Fixpoint argmin_from (best : R) (ibest i : nat) (xs : list R) : nat :=
  match xs with
  | [] => ibest
  | x :: xs' =>
      if Rlt_dec x best then argmin_from x i (S i) xs'
      else argmin_from best ibest (S i) xs'
  end.

(** [Series.argmin()]; an empty series raises. *)
Definition argmin (xs : list R) : result nat :=
  match xs with
  | [] => Raise (ValueError "attempt to get argmin of an empty sequence")
  | x :: xs' => Ok (argmin_from x 0 1 xs')
  end.

(** [sort_values(by=[date_col], ascending=False)]: rows by decreasing
    date.  Rows of equal date keep their relative order here; pandas
    does not promise an order among them. *)
Fixpoint insert_desc (r : obs) (l : list obs) : list obs :=
  match l with
  | [] => [r]
  | x :: l' =>
      if (date x <=? date r)%Z then r :: x :: l' else x :: insert_desc r l'
  end.

Fixpoint sort_values_desc (l : list obs) : list obs :=
  match l with
  | [] => []
  | r :: l' => insert_desc r (sort_values_desc l')
  end.

(** [Series.sort_values(ascending=True)] on a column of dates. *)
Fixpoint insert_asc (d : Z) (l : list Z) : list Z :=
  match l with
  | [] => [d]
  | x :: l' => if (d <? x)%Z then d :: x :: l' else x :: insert_asc d l'
  end.

Fixpoint sort_asc (l : list Z) : list Z :=
  match l with
  | [] => []
  | d :: l' => insert_asc d (sort_asc l')
  end.

(** The bound of a slice, as Python normalises it: a negative bound
    counts from the end and the result is clipped to the length. *)
Definition slice_bound (n : Z) (len : nat) : nat :=
  if (n <? 0)%Z then Z.to_nat (Z.max 0 (Z.of_nat len + n))
  else Nat.min (Z.to_nat n) len.

(** [.iloc[n:, :]] *)
Definition iloc_from {A} (n : Z) (l : list A) : list A :=
  drop (slice_bound n (length l)) l.

(** [.iloc[:n, :]] *)
Definition iloc_to {A} (n : Z) (l : list A) : list A :=
  take (slice_bound n (length l)) l.

(** [.iloc[0]] *)
Definition iloc0 {A} (l : list A) : result A :=
  match l with
  | [] => Raise (IndexError "single positional indexer is out-of-bounds")
  | x :: _ => Ok x
  end.

End Pd.

(** ** Python strings and dictionaries *)

Module Str.

(** [str.lower()] on the ASCII letters. *)
Definition lower_ascii (c : ascii) : ascii :=
  let n := nat_of_ascii c in
  if ((65 <=? n) && (n <=? 90))%nat then ascii_of_nat (n + 32) else c.

Fixpoint lower (s : string) : string :=
  match s with
  | EmptyString => EmptyString
  | String c s' => String (lower_ascii c) (lower s')
  end.

(** [s.replace(" ", "")] *)
Fixpoint remove_spaces (s : string) : string :=
  match s with
  | EmptyString => EmptyString
  | String c s' =>
      if Ascii.eqb c " "%char then remove_spaces s'
      else String c (remove_spaces s')
  end.

End Str.

Module Dict.

(** A Python [dict] with string keys: the items in insertion order. *)
Definition t (V : Type) : Type := list (string * V).

(** [d[k] = v]: an existing key keeps its place. *)
Fixpoint set {V} (k : string) (v : V) (d : t V) : t V :=
  match d with
  | [] => [(k, v)]
  | (k', v') :: d' =>
      if String.eqb k' k then (k', v) :: d' else (k', v') :: set k v d'
  end.

Fixpoint get {V} (k : string) (d : t V) : option V :=
  match d with
  | [] => None
  | (k', v') :: d' => if String.eqb k' k then Some v' else get k d'
  end.

Definition keys {V} (d : t V) : list string := map fst d.
Definition values {V} (d : t V) : list V := map snd d.
Definition contains {V} (k : string) (d : t V) : bool :=
  match get k d with Some _ => true | None => false end.

End Dict.

Module StrSplit.

(** [s.split("_")[0]]: the text before the first underscore. *)
Fixpoint before_underscore (s : string) : string :=
  match s with
  | EmptyString => EmptyString
  | String c s' =>
      if Ascii.eqb c "_"%char then EmptyString
      else String c (before_underscore s')
  end.

End StrSplit.

(** [range(lo, hi)] *)
Definition py_range (lo hi : Z) : list Z :=
  map (fun i => (lo + Z.of_nat i)%Z) (seq 0 (Z.to_nat (hi - lo))).

(** ** Collaborators reached through [MLFlower] *)

(** A fitted object as the registry stores it. *)
Definition artifact : Type := nat.

(** What the registry answers for a promoted version. *)
Record model_version : Type := ModelVersion {
  mv_name : string;
  mv_version : nat;
  mv_current_stage : stage;
  mv_status : string
}.

(** The experiment tracker and the registry client.  The tracker's
    answers may depend on the events it has seen, the registry's on the
    stages of the versions.  [register_model_fault] and
    [promote_model_fault] say when the registry refuses a call. *)
Record MLFlower : Type := MkMLFlower {
  get_experiment : string -> result unit;
  start_run : list tracking_event -> result (option string);
  end_run : list tracking_event -> result unit;
  log_metric : list tracking_event -> string -> string -> R -> result unit;
  load_model : gmap nat stage -> string -> result (artifact * string);
  register_model_fault : gmap nat stage -> string -> option exn;
  set_model_tag : nat -> string -> string -> result unit;
  promote_model_fault : gmap nat stage -> nat -> stage -> option exn;
  promote_model_status : gmap nat stage -> nat -> stage -> string
}.

Definition stage_name (st : stage) : string :=
  match st with
  | Unregistered => "None"
  | Staging => "Staging"
  | Production => "Production"
  | Archived => "Archived"
  end.

Module Registry.

(** Modelled from the spec: the version number that
    [MLFlower.register_model] assigns ([kronos/ml_flower.py] is not part
    of the sources at hand): a number that no version carries yet. *)
Definition fresh (g : gmap nat stage) : nat :=
  S (max_list (elements (dom g))).

(** Modelled from the spec: the effect of [MLFlower.register_model] on
    the registry, step 1 of the deployment: the winning run's artifact
    becomes a new version, in no stage yet. *)
Definition register (g : gmap nat stage) : nat * gmap nat stage :=
  (fresh g, <[fresh g := Unregistered]> g).

(** Modelled from the spec: what happens to a version in stage [st] when
    another enters the stage [target]: "any prior version occupying a
    stage being entered is moved to Archived". *)
Definition archive (target : stage) (st : stage) : stage :=
  if decide (st = target) then Archived else st.

(** Modelled from the spec: the effect of [MLFlower.promote_model] on
    the registry: the version enters the stage and, with
    [archive_existing_versions], the occupants of the stage are
    archived by the same call. *)
Definition promote (g : gmap nat stage) (v : nat) (target : stage)
    (archive_existing_versions : bool) : gmap nat stage :=
  <[v := target]>
    (if archive_existing_versions then archive target <$> g else g).

(** The stage of a version; a number that was never registered is
    [Unregistered]. *)
Definition stage_of (g : gmap nat stage) (v : nat) : stage :=
  default Unregistered (g !! v).

End Registry.

(** ** The [Modeler] class *)

(** The attributes set by [__init__] that no method reassigns. *)
Record modeler : Type := MkModeler {
  ml_flower : MLFlower;
  data : list obs;
  models_config : Dict.t model_config;
  current_date : Z;
  fcst_first_date : Z;
  n_test : Z;
  n_unit_test : Z;
  fcst_horizon : Z;
  fcst_competition_metrics : list string;
  fcst_competition_metric_weights : list R;
  future_only : bool;
  key_code : string;
  max_value : R
}.

#[global] Instance result_ret : MRet result := fun A a => Ok a.

#[global] Instance result_bind : MBind result := fun A B k r =>
  match r with
  | Ok a => k a
  | Raise e => Raise e
  end.

Definition new_state (g : gmap nat stage) : state :=
  State None None [] None [] [] g.

Module Pandas.

Definition max_date (l : list Z) : option Z :=
  match l with
  | [] => None
  | d :: l' => Some (fold_right Z.max d l')
  end.

Definition min_date (l : list Z) : option Z :=
  match l with
  | [] => None
  | d :: l' => Some (fold_right Z.min d l')
  end.

(** Position of a column label. *)
Fixpoint label_position (label : string) (labels : list string) : result nat :=
  match labels with
  | [] => Raise (KeyError label)
  | l :: labels' =>
      if String.eqb l label then Ok 0%nat
      else k ← label_position label labels'; Ok (S k)
  end.

Definition cell (k : nat) (r : perf_row) : result R :=
  match cells r !! k with
  | Some x => Ok x
  | None => Raise (KeyError "column")
  end.

(** [df[label]] for the metric column at position [k]. *)
Definition column (k : nat) (t : list perf_row) : result (list R) :=
  mapM (cell k) t.

Definition with_cell (k : nat) (r : perf_row) (x : R) : perf_row :=
  PerfRow (model_name r) (row_config r) (row_model r) (run_id r)
          (<[k := x]> (cells r)) (error_avg r).

(** [df[label] = values] for an existing column. *)
Definition set_column (k : nat) (values : list R) (t : list perf_row)
    : list perf_row :=
  zip_with (with_cell k) t values.

Definition with_error_avg (r : perf_row) (x : R) : perf_row :=
  PerfRow (model_name r) (row_config r) (row_model r) (run_id r)
          (cells r) (Some x).

(** [df.loc[name]] *)
Fixpoint loc (name : string) (t : list perf_row) : result perf_row :=
  match t with
  | [] => Raise (KeyError name)
  | r :: t' => if String.eqb (model_name r) name then Ok r else loc name t'
  end.

(** [df.loc[name] = row]: an existing row is overwritten in place, a
    new one is appended. *)
Fixpoint loc_set (row : perf_row) (t : list perf_row) : list perf_row :=
  match t with
  | [] => [row]
  | r :: t' =>
      if String.eqb (model_name r) (model_name row) then row :: t'
      else r :: loc_set row t'
  end.

(** [df.iloc[k].name] *)
Definition iloc_name (k : nat) (t : list perf_row) : result string :=
  match t !! k with
  | Some r => Ok (model_name r)
  | None => Raise (IndexError "single positional indexer is out-of-bounds")
  end.

End Pandas.

Module Modeler.

Section Methods.

(** The constructors of the backend classes: flavor, orchestrator,
    configuration and, for a model loaded from the registry, the fitted
    object. *)
Variable construct :
  string -> modeler -> model_config -> option artifact -> result krns_model.

(** [datetime.date.today()] *)
Variable today : Z.

(** [np.Inf]; it is the value of a branch of [evaluate_model] that no
    metric reaches. *)
Variable np_Inf : R.

(** [__init__]: [key_code] and [max_value] are read off the data. *)
Definition init (flower : MLFlower) (d : list obs)
    (config : Dict.t model_config) (current first : Z)
    (ntest nunit horizon : Z) (metrics : list string) (weights : list R)
    (fonly : bool) : result modeler :=
  match d with
  | [] => Raise (IndexError "single positional indexer is out-of-bounds")
  | r :: d' =>
      Ok (MkModeler flower d config current first ntest nunit horizon
            metrics weights fonly (key r)
            (fold_right Rmax (metric r) (map metric d')))
  end.

Definition supported_metrics : list string := ["rmse"; "mape"].

Definition str_in (x : string) (l : list string) : bool :=
  existsb (String.eqb x) l.

(** One turn of the loop of [evaluate_model]; [out] is the dictionary
    built so far.  [x ** 0.5] is the square root. *)
Definition evaluate_step (actual pred : list R) (out : Dict.t R)
    (metric : string) : py (Dict.t R) :=
  let metric := Str.remove_spaces (Str.lower metric) in
  if negb (str_in metric supported_metrics) then
    logger ERROR ("### Requested metric " ++ metric ++ " is not supported") None;;
    mret out
  else
    value ←
      (if String.eqb metric "rmse" then
         d ← lift (Np.sub actual pred);
         mret (sqrt (Np.mean (Np.square d)))
       else if String.eqb metric "mape" then
         d ← lift (Np.sub actual pred);
         q ← lift (Np.div d actual);
         mret (Np.mean (Np.abs q) * 100)%R
       else mret np_Inf);
    mret (Dict.set metric value out).

(** The body of the [try] of [evaluate_model]. *)
Definition evaluate_body (actual pred : list R) (metrics : list string)
    : py (Dict.t R) :=
  for_fold metrics (evaluate_step actual pred) [].

(** [evaluate_model(actual, pred, metrics)]: the dictionary, or [None]
    when the [except] clause ran. *)
Definition evaluate_model (actual pred : list R) (metrics : list string)
    : py (option (Dict.t R)) :=
  try_except
    (out ← evaluate_body actual pred metrics;
     mret (Some out))
    (fun e =>
       logger ERROR "### Model evaluation with metrics" (Some e);;
       mret None).

(** [train_test_split(self)] *)
Definition train_test_split (m : modeler) : py unit :=
  try_except
    (if (Z.of_nat (length (data m)) - n_test m <? n_test m)%Z then
       logger WARNING "### Not enough records to perform train/test split" None;;
       raise (Exception_ "### Not enough records to perform train/test split")
     else
       set_split
         (Pd.iloc_from (n_test m) (Pd.sort_values_desc (data m)))
         (Pd.iloc_to (n_test m) (Pd.sort_values_desc (data m))))
    (fun e => logger ERROR "### Train test split failed" (Some e)).

(** [model_generation(self, model_flavor, model_config, trained_model)] *)
Definition model_generation (m : modeler) (model_flavor : string)
    (config : model_config) (trained_model : option artifact)
    : py (option krns_model) :=
  try_except
    (model ←
       (if String.eqb model_flavor "prophet" then
          lift (construct "prophet" m config trained_model)
        else if String.eqb model_flavor "pmdarima" then
          lift (construct "pmdarima" m config trained_model)
        else if String.eqb model_flavor "tensorflow" then
          lift (construct "tensorflow" m config trained_model)
        else raise (ValueError ("Model " ++ model_flavor ++ " not supported.")));
     mret (Some model))
    (fun e =>
       logger ERROR ("### Model generation of model flavor " ++ model_flavor ++ " failed") (Some e);;
       mret None).

(** [create_all_models(self, models_config)] *)
Definition create_all_models (m : modeler) (config : Dict.t model_config)
    : py (option (Dict.t (option krns_model))) :=
  try_except
    (models ← for_fold config
       (fun (models : Dict.t (option krns_model)) '(name, cfg) =>
          let model_flavor := StrSplit.before_underscore name in
          model ← model_generation m model_flavor cfg None;
          mret (Dict.set name model models))
       [];
     mret (Some models))
    (fun e =>
       logger ERROR "### Create all models failed" (Some e);;
       mret None).

(** [self.ml_flower.end_run()] *)
Definition end_run_call (m : modeler) : py unit :=
  s ← get_state;
  lift (end_run (ml_flower m) (tracking s));;
  track RunEnded.

(** The body of the [try] of one iteration of the training loop. *)
Definition train_pipeline (m : modeler) (name : string)
    (model : option krns_model) : py unit :=
  s ← get_state;
  run ← lift (start_run (ml_flower m) (tracking s));
  run_id ←
    match run with
    | Some id => track (RunStarted id);; mret id
    | None => raise (AttributeError "'NoneType' object has no attribute 'info'")
    end;
  mdl ←
    match model with
    | Some k => mret k
    | None => raise (AttributeError "'NoneType' object has no attribute 'preprocess'")
    end;
  lift (preprocess mdl);;
  lift (log_params mdl);;
  lift (fit mdl);;
  lift (log_model mdl);;
  s ← get_state;
  test ←
    match test_data s with
    | Some t => mret t
    | None => raise (TypeError "'NoneType' object is not subscriptable")
    end;
  let test_data_first_date := Pandas.min_date (map date test) in
  pred ← lift (predict mdl (n_test m) test_data_first_date true);
  pred_values ←
    match pred with
    | Some p => mret (map f_value p)
    | None => raise (TypeError "'NoneType' object is not subscriptable")
    end;
  train_evals ←
    evaluate_model (map metric test) pred_values (fcst_competition_metrics m);
  config ←
    match Dict.get name (models_config m) with
    | Some c => mret c
    | None => raise (KeyError name)
    end;
  values ←
    match train_evals with
    | Some d => mret (Dict.values d)
    | None => raise (AttributeError "'NoneType' object has no attribute 'values'")
    end;
  (if (length values =? length (fcst_competition_metrics m))%nat then
     s ← get_state;
     set_performances
       (Pandas.loc_set
          (PerfRow name (Some config) (Some mdl) (Some run_id) values None)
          (df_performances s))
   else raise (ValueError "cannot set a row with mismatched columns"));;
  for_each
    (match train_evals with Some d => d | None => [] end)
    (fun '(k, val) =>
       s ← get_state;
       lift (log_metric (ml_flower m) (tracking s) run_id k val);;
       track (MetricLogged run_id k val));;
  end_run_call m.

(** One iteration of the training loop: the [try] and its [except]. *)
Definition train_one (m : modeler) (name : string)
    (model : option krns_model) : py unit :=
  try_except (train_pipeline m name model)
    (fun e =>
       logger ERROR ("### Model " ++ name ++ " training failed") (Some e);;
       end_run_call m).

(** The [for] loop of [training]. *)
Definition training_loop (m : modeler)
    (models : Dict.t (option krns_model)) : py unit :=
  for_each models (fun '(name, model) => train_one m name model).

(** [training(self)] *)
Definition training (m : modeler) : py unit :=
  try_except
    (lift (get_experiment (ml_flower m) ("/mlflow/experiments/" ++ key_code m));;
     train_test_split m;;
     models ← create_all_models m (models_config m);
     items ←
       match models with
       | Some d => mret d
       | None => raise (AttributeError "'NoneType' object has no attribute 'items'")
       end;
     training_loop m items)
    (fun e => logger ERROR "### Training failed" (Some e)).

(** [prod_model_eval(self)] *)
Definition prod_model_eval (m : modeler) : py unit :=
  try_except
    (s ← get_state;
     '(model, flavor) ← lift (load_model (ml_flower m) (registry s)
        ("models:/" ++ key_code m ++ "/Production"));
     krns_model ← model_generation m flavor [] (Some model);
     s ← get_state;
     test ←
       match test_data s with
       | Some t => mret t
       | None => raise (TypeError "'NoneType' object is not subscriptable")
       end;
     test_data_first_date ← lift (Pd.iloc0 (Pd.sort_asc (map date test)));
     pred ←
       match krns_model with
       | Some k => lift (predict k (n_test m) (Some test_data_first_date) true)
       | None => raise (AttributeError "'NoneType' object has no attribute 'predict'")
       end;
     pred_values ←
       match pred with
       | Some p => mret (map f_value p)
       | None => raise (TypeError "'NoneType' object is not subscriptable")
       end;
     prod_evals ←
       evaluate_model (map metric test) pred_values (fcst_competition_metrics m);
     values ←
       match prod_evals with
       | Some d => mret (Dict.values d)
       | None => raise (AttributeError "'NoneType' object has no attribute 'values'")
       end;
     if (length values =? length (fcst_competition_metrics m))%nat then
       s ← get_state;
       set_performances
         (Pandas.loc_set
            (PerfRow "prod_model" None krns_model None values None)
            (df_performances s))
     else raise (ValueError "cannot set a row with mismatched columns"))
    (fun e => logger WARNING "### Prod model prediction failed" (Some e)).

(** One turn of the standardisation loop of [competition]:
    [df[metric] = df[metric].apply(lambda x: x - mean / std)]. *)
Definition standardize_column (m : modeler) (metric : string) : py unit :=
  s ← get_state;
  k ← lift (Pandas.label_position metric (fcst_competition_metrics m));
  col ← lift (Pandas.column k (df_performances s));
  let mean := Pd.mean col in
  let std := Pd.std col in
  set_performances
    (Pandas.set_column k (map (fun x => x - mean / std)%R col)
       (df_performances s)).

(** The function applied to each row for the [error_avg] column. *)
Definition row_error_avg (m : modeler) (x : perf_row) : result R :=
  xs ← mapM
    (fun _metric =>
       k ← Pandas.label_position _metric (fcst_competition_metrics m);
       Pandas.cell k x)
    (fcst_competition_metrics m);
  prod ← Np.mul xs (fcst_competition_metric_weights m);
  Ok (Np.sum prod / Np.sum (fcst_competition_metric_weights m))%R.

(** [competition(self)] *)
Definition competition (m : modeler) : py unit :=
  try_except
    (for_each (fcst_competition_metrics m) (standardize_column m);;
     s ← get_state;
     scores ← lift (mapM (row_error_avg m) (df_performances s));
     set_performances
       (zip_with Pandas.with_error_avg (df_performances s) scores);;
     k ← lift (Pd.argmin scores);
     s ← get_state;
     name ← lift (Pandas.iloc_name k (df_performances s));
     set_winner name)
    (fun e => logger ERROR "### Competition failed" (Some e)).

(** [unit_test(self, model_version_name, model_version_stage)]: the
    status, or [None] when the [except] clause ran. *)
Definition unit_test (m : modeler) (model_version_name : string)
    (model_version_stage : stage) : py (option string) :=
  try_except
    (s ← get_state;
     '(model, flavor) ← lift (load_model (ml_flower m) (registry s)
        ("models:/" ++ model_version_name ++ "/" ++ stage_name model_version_stage));
     krns_model ← model_generation m flavor [] (Some model);
     let unit_test_fcst_first_date := (today + 1)%Z in
     pred ←
       match krns_model with
       | Some k =>
           lift (predict k (n_unit_test m) (Some unit_test_fcst_first_date) true)
       | None => raise (AttributeError "'NoneType' object has no attribute 'predict'")
       end;
     len ←
       match pred with
       | Some p => mret (Z.of_nat (length p))
       | None => raise (TypeError "object of type 'NoneType' has no len()")
       end;
     let unit_test_status := if (len =? n_unit_test m)%Z then "OK" else "KO" in
     mret (Some unit_test_status))
    (fun e =>
       logger ERROR
         ("### Unit test of model " ++ model_version_name ++ " in stage "
          ++ stage_name model_version_stage ++ " failed") (Some e);;
       mret None).

(** [self.ml_flower.register_model(model_uri, model_name, timeout_s)] *)
Definition register_model_call (m : modeler) (model_uri : string) : py nat :=
  s ← get_state;
  match register_model_fault (ml_flower m) (registry s) model_uri with
  | Some e => raise e
  | None =>
      let '(v, g) := Registry.register (registry s) in
      set_registry g;; mret v
  end.

(** [self.ml_flower.promote_model(model_version_details, stage,
    archive_existing_versions)] *)
Definition promote_model_call (m : modeler) (v : nat) (target : stage)
    (archive_existing_versions : bool) : py model_version :=
  s ← get_state;
  match promote_model_fault (ml_flower m) (registry s) v target with
  | Some e => raise e
  | None =>
      set_registry
        (Registry.promote (registry s) v target archive_existing_versions);;
      mret (ModelVersion (key_code m) v target
              (promote_model_status (ml_flower m) (registry s) v target))
  end.

(** [str(x)] of a name that may be [None]. *)
Definition str_of_name (r : option string) : string :=
  match r with Some id => id | None => "None" end.

(** [deploy(self)] *)
Definition deploy (m : modeler) : py unit :=
  try_except
    (s ← get_state;
     winner ←
       match winning_model_name s with
       | Some w => lift (Pandas.loc w (df_performances s))
       | None => raise (KeyError "None")
       end;
     let winning_model_run_id := run_id winner in
     let winning_model_config := row_config winner in
     let model_uri := "runs:/" ++ str_of_name winning_model_run_id ++ "/model" in
     model_details ← register_model_call m model_uri;
     config ←
       match winning_model_config with
       | Some c => mret c
       | None => raise (TypeError "argument of type 'NoneType' is not iterable")
       end;
     (if Dict.contains "model_flavor" config then
        lift (set_model_tag (ml_flower m) model_details "model_flavor"
                (default "" (Dict.get "model_flavor" config)))
      else mret tt);;
     model_version ← promote_model_call m model_details Staging true;
     unit_test_status ←
       unit_test m (mv_name model_version) (mv_current_stage model_version);
     if bool_decide (unit_test_status = Some "OK") then
       model_version ←
         promote_model_call m (mv_version model_version) Production true;
       let deploy_result :=
         if String.eqb (mv_status model_version) "READY" then "OK" else "KO" in
       mret tt
     else mret tt)
    (fun e =>
       s ← get_state;
       logger ERROR
         ("### Deployment of model " ++ str_of_name (winning_model_name s)
          ++ " failed") (Some e)).

(** The naive forecast built by the [except] clause of [prediction].
    The maximum of an empty date column is a missing value, and the
    subtraction that follows raises on it. *)
Definition fallback (m : modeler) : py (list fcst) :=
  let historic_data :=
    filter (fun r => date r < fcst_first_date m)%Z (data m) in
  last_observed_day ←
    match Pandas.max_date (map date historic_data) with
    | Some d => mret d
    | None => raise (TypeError "unsupported operand type(s) for -")
    end;
  let difference := (fcst_first_date m - last_observed_day)%Z in
  let fcst_horizon := (difference + fcst_horizon m - 1)%Z in
  last_row ← lift (Pd.iloc0 (Pd.sort_values_desc historic_data));
  let last_value := metric last_row in
  let pred :=
    zip_with Fcst
      (map (fun x => last_observed_day + x)%Z
           (py_range 1 (fcst_horizon + 1)))
      (map (fun x => last_value) (py_range 0 fcst_horizon)) in
  mret (if future_only m
        then filter (fun p => fcst_first_date m <= f_date p)%Z pred
        else pred).

(** The columns added to both kinds of forecast, and the clamp. *)
Definition finish (m : modeler) (pred : list fcst) : list prediction_row :=
  map (fun p =>
         PredictionRow (f_date p)
           (if Rle_dec 0 (f_value p) then f_value p else 0%R)
           (fcst_first_date m) (current_date m) (key_code m))
      pred.

(** The body of the [try] of [prediction]: the forecast of the model in
    production, its two relevant columns. *)
Definition primary_forecast (m : modeler) : py (list fcst) :=
  s ← get_state;
  '(model, flavor) ← lift (load_model (ml_flower m) (registry s)
     ("models:/" ++ key_code m ++ "/Production"));
  krns_model ← model_generation m flavor [] (Some model);
  pred ←
    match krns_model with
    | Some k =>
        lift (predict k (fcst_horizon m) (Some (fcst_first_date m))
                (future_only m))
    | None => raise (AttributeError "'NoneType' object has no attribute 'predict'")
    end;
  match pred with
  | Some p => mret p
  | None => raise (TypeError "'NoneType' object is not subscriptable")
  end.

(** [prediction(self)] *)
Definition prediction (m : modeler) : py (list prediction_row) :=
  pred ←
    try_except (primary_forecast m)
      (fun e =>
         logger ERROR "### Prediction failed" (Some e);;
         fallback m);
  mret (finish m pred).

End Methods.

End Modeler.

(** ** The range of [datetime.date] *)

Module Calendar.

(** A [datetime.date] is a day from 0001-01-01 to 9999-12-31; the
    number of a day is its ordinal ([date.toordinal()]). *)
Definition min_day : Z := 1.
Definition max_day : Z := 3652059.

Definition representable (d : Z) : Prop := (min_day <= d <= max_day)%Z.

(** [d + datetime.timedelta(days=x)]: the [timedelta] is built first
    and has its own bound; the sum has to be a date. *)
Definition add_days (d x : Z) : result Z :=
  if (999999999 <? Z.abs x)%Z
  then Raise (OverflowError "days; must have magnitude <= 999999999")
  else if (min_day <=? d + x)%Z && (d + x <=? max_day)%Z then Ok (d + x)%Z
  else Raise (OverflowError "date value out of range").

End Calendar.

(** ** [prediction] over [datetime.date] *)

Module Dated.

Section Methods.

Variable construct :
  string -> modeler -> model_config -> option artifact -> result krns_model.

(** The [except] clause of [prediction], as [Modeler.fallback], with
    the days of the frame computed as dates. *)
Definition fallback (m : modeler) : py (list fcst) :=
  let historic_data :=
    filter (fun r => date r < fcst_first_date m)%Z (data m) in
  last_observed_day ←
    match Pandas.max_date (map date historic_data) with
    | Some d => mret d
    | None => raise (TypeError "unsupported operand type(s) for -")
    end;
  let difference := (fcst_first_date m - last_observed_day)%Z in
  let fcst_horizon := (difference + fcst_horizon m - 1)%Z in
  last_row ← lift (Pd.iloc0 (Pd.sort_values_desc historic_data));
  let last_value := metric last_row in
  days ← lift (mapM (Calendar.add_days last_observed_day)
                 (py_range 1 (fcst_horizon + 1)));
  let pred :=
    zip_with Fcst days
      (map (fun x => last_value) (py_range 0 fcst_horizon)) in
  mret (if future_only m
        then filter (fun p => fcst_first_date m <= f_date p)%Z pred
        else pred).

(** [prediction(self)] *)
Definition prediction (m : modeler) : py (list prediction_row) :=
  pred ←
    try_except (Modeler.primary_forecast construct m)
      (fun e =>
         logger ERROR "### Prediction failed" (Some e);;
         fallback m);
  mret (Modeler.finish m pred).

End Methods.

End Dated.

(** ** [mlf_project/modeler.py] *)

Module MlfProject.

(** The static [train_test_split(data, date_column, n_test)]. *)
Definition train_test_split (data : list obs) (n_test : Z)
    : py (list obs * list obs) :=
  if (Z.of_nat (length data) - n_test <? n_test)%Z then
    logger WARNING "Not enough records to perform train/test split" None;;
    raise (Exception_ "Not enough records to perform train/test split")
  else
    let train_data := Pd.iloc_from n_test (Pd.sort_values_desc data) in
    let test_data := Pd.iloc_to n_test (Pd.sort_values_desc data) in
    mret (train_data, test_data).

(** The static [evaluate_model(data, metric, pred_col, actual_col)]; a
    row of [data] is its actual and its predicted value. *)
Definition evaluate_model (data : list (R * R)) (metric : string)
    : py (option R) :=
  let supported_metrics := ["rmse"] in
  let metric := Str.remove_spaces (Str.lower metric) in
  (if negb (existsb (String.eqb metric) supported_metrics) then
     logger ERROR ("Requested metric " ++ metric ++ " is not supported") None
   else mret tt);;
  mret (if String.eqb metric "rmse"
        then Some (sqrt (Pd.mean (map (fun r => (r.1 - r.2) ^ 2)%R data)))
        else None).

End MlfProject.

(** ** [kronos/models/krns_tensorflow.py] *)

Module Tensorflow.

Section Backend.

(** [astype("float32")] on one value. *)
Variable float32 : R -> R.

(** A [KRNSTensorflow] object: the copy of the orchestrator it holds,
    its attributes, and the fitted network, which maps a window of
    values to the next value or raises; [None] before [fit]. *)
Record t : Type := Make {
  modeler_copy : modeler;
  nn_type : string;
  n_units : Z;
  activation : string;
  epochs : Z;
  n_inputs : Z;
  model : option (list R -> result R)
}.

(** [__init__]: the type of network is checked, the rest is stored. *)
Definition init (m : modeler) (fitted : option (list R -> result R))
    (type : string) (units : Z) (act : string) (eps inputs : Z) : result t :=
  if String.eqb type "rnn" || String.eqb type "lstm" || String.eqb type "gru"
  then Ok (Make m type units act eps inputs fitted)
  else Raise (ValueError ("Neural network type " ++ type ++ " not supported.")).

(** [a.reshape((1, n, 1))] of a one-dimensional array: the size has to
    be [n]; [-1] stands for whatever the size is, and no other negative
    dimension is allowed. *)
Definition reshape (n : Z) (a : list R) : result (list R) :=
  if (n =? -1)%Z then Ok a
  else if (0 <=? n)%Z && (Z.of_nat (length a) =? n)%Z then Ok a
  else Raise (ValueError "cannot reshape array").

(** One call of the network on a window. *)
Definition infer (b : t) (batch : list R) : result R :=
  match model b with
  | Some f => f batch
  | None => Raise (TypeError "'NoneType' object is not callable")
  end.

(** The loop of [predict]: each value forecast is appended to the
    predictions and pushed into the window, whose first value leaves. *)
Fixpoint autoregress (b : t) (steps : nat) (batch predictions : list R)
    : result (list R) :=
  match steps with
  | O => Ok predictions
  | S steps' =>
      pred_val ← infer b batch;
      autoregress b steps' (drop 1 batch ++ [pred_val])
        (predictions ++ [pred_val])
  end.

(** [predict(self, n_days, fcst_first_date, future_only)]: the frame, or
    [None] when the [except] clause ran. *)
Definition predict (b : t) (n_days : Z) (fcst_first_date : Z)
    (future_only : bool) : py (option (list fcst)) :=
  try_except
    (let historic_data :=
       filter (fun r => date r < fcst_first_date)%Z (data (modeler_copy b)) in
     last_observed_day ←
       match Pandas.max_date (map date historic_data) with
       | Some d => mret d
       | None => raise (TypeError "unsupported operand type(s) for -")
       end;
     let difference := (fcst_first_date - last_observed_day)%Z in
     let fcst_horizon := (difference + n_days - 1)%Z in
     let historic_data := map metric historic_data in
     batch ← lift (reshape (n_inputs b)
                     (Pd.iloc_from (- n_inputs b) (map float32 historic_data)));
     predictions ← lift (autoregress b (Z.to_nat fcst_horizon) batch []);
     let pred :=
       zip_with Fcst
         (map (fun x => last_observed_day + x)%Z
              (py_range 1 (fcst_horizon + 1)))
         predictions in
     mret (Some (if future_only
                 then filter (fun p => fcst_first_date <= f_date p)%Z pred
                 else pred)))
    (fun e =>
       logger ERROR "### Predict with model failed" (Some e);;
       mret None).

End Backend.

End Tensorflow.

(** ** The evaluator and the competition over binary64 *)

Module Binary64.

(** [float] is the binary64 format of IEEE 754, the [float64] of numpy. *)
Definition of_nat (n : nat) : float :=
  PrimFloat.of_uint63 (Uint63.of_Z (Z.of_nat n)).

(** As [Np.broadcast]. *)
Definition broadcast (f : float -> float -> float) (xs ys : list float)
    : result (list float) :=
  if (length xs =? length ys)%nat then Ok (zip_with f xs ys)
  else if (length ys =? 1)%nat then Ok (map (fun x => f x (hd 0%float ys)) xs)
  else if (length xs =? 1)%nat then Ok (map (fun y => f (hd 0%float xs) y) ys)
  else Raise (ValueError "operands could not be broadcast together").

Definition sub := broadcast PrimFloat.sub.
Definition div := broadcast PrimFloat.div.
Definition mul := broadcast PrimFloat.mul.

(** [sum()]: numpy's reduction takes the first value and adds to it
    the sum of the others, which it builds from zero, from the left,
    when they are fewer than eight (beyond, it adds in blocks). *)
Definition sum (xs : list float) : float :=
  match xs with
  | [] => 0%float
  | x :: xs' => PrimFloat.add x (fold_left PrimFloat.add xs' 0%float)
  end.

Definition mean (xs : list float) : float :=
  PrimFloat.div (sum xs) (of_nat (length xs)).

(** [x ** 2] is the product of [x] with itself. *)
Definition square (xs : list float) : list float :=
  map (fun x => PrimFloat.mul x x) xs.

Definition abs (xs : list float) : list float := map PrimFloat.abs xs.

(** One turn of the loop of [evaluate_model], as
    [Modeler.evaluate_step]; [x ** 0.5] is the square root. *)
Definition evaluate_step (actual pred : list float) (out : Dict.t float)
    (metric : string) : py (Dict.t float) :=
  let metric := Str.remove_spaces (Str.lower metric) in
  if negb (Modeler.str_in metric Modeler.supported_metrics) then
    logger ERROR ("### Requested metric " ++ metric ++ " is not supported") None;;
    mret out
  else
    value ←
      (if String.eqb metric "rmse" then
         d ← lift (sub actual pred);
         mret (PrimFloat.sqrt (mean (square d)))
       else if String.eqb metric "mape" then
         d ← lift (sub actual pred);
         q ← lift (div d actual);
         mret (PrimFloat.mul (mean (abs q)) 100%float)
       else mret infinity);
    mret (Dict.set metric value out).

(** [evaluate_model(actual, pred, metrics)] *)
Definition evaluate_model (actual pred : list float) (metrics : list string)
    : py (option (Dict.t float)) :=
  try_except
    (out ← for_fold metrics (evaluate_step actual pred) [];
     mret (Some out))
    (fun e =>
       logger ERROR "### Model evaluation with metrics" (Some e);;
       mret None).

(** A row of the performance table: its name, its metric cells in the
    order of the metric labels, and its score once the competition has
    computed it. *)
Record row : Type := Row {
  name : string;
  cells : list float;
  error_avg : option float
}.

(** The values that pandas takes into a mean or a standard deviation:
    those that are not NaN. *)
Definition dropna (xs : list float) : list float :=
  List.filter (fun x => negb (PrimFloat.is_nan x)) xs.

(** [Series.mean()] *)
Definition pd_mean (xs : list float) : float := mean (dropna xs).

(** [Series.std()], one delta degree of freedom: the division is by
    the count less one. *)
Definition pd_std (xs : list float) : float :=
  let v := dropna xs in
  let avg := mean v in
  PrimFloat.sqrt
    (PrimFloat.div
       (sum (map (fun x => PrimFloat.mul (PrimFloat.sub avg x)
                             (PrimFloat.sub avg x)) v))
       (PrimFloat.sub (of_nat (length v)) 1%float)).

(** [df[metric]] for the column at position [k]. *)
Definition column (k : nat) (t : list row) : result (list float) :=
  mapM (fun r => match cells r !! k with
                 | Some x => Ok x
                 | None => Raise (KeyError "column")
                 end) t.

(** One turn of the standardisation loop:
    [df[metric] = df[metric].apply(lambda x: x - mean / std)]. *)
Definition standardize_column (t : list row) (k : nat) : result (list row) :=
  col ← column k t;
  let mean := pd_mean col in
  let std := pd_std col in
  Ok (zip_with
        (fun r x => Row (name r) (<[k := x]> (cells r)) (error_avg r))
        t (map (fun x => PrimFloat.sub x (PrimFloat.div mean std)) col)).

Fixpoint standardize (t : list row) (ks : list nat) : result (list row) :=
  match ks with
  | [] => Ok t
  | k :: ks' => t' ← standardize_column t k; standardize t' ks'
  end.

(** The function applied to each row for the [error_avg] column; the
    labels being distinct, the values taken by label are the cells. *)
Definition row_error_avg (weights : list float) (r : row) : result float :=
  prod ← mul (cells r) weights;
  Ok (PrimFloat.div (sum prod) (sum weights)).

(** Position of the first least value, scanning left to right. *)
Fixpoint argmin_from (best : float) (ibest i : nat) (xs : list float) : nat :=
  match xs with
  | [] => ibest
  | x :: xs' =>
      if PrimFloat.ltb x best then argmin_from x i (S i) xs'
      else argmin_from best ibest (S i) xs'
  end.

(** [Series.argmin()]: the values that are NaN are passed over (they
    count as infinite); a series of nothing but NaN is answered with
    -1 (pandas before 3.0), and an empty series raises. *)
Definition argmin (xs : list float) : result Z :=
  match map (fun x => if PrimFloat.is_nan x then infinity else x) xs with
  | [] => Raise (ValueError "attempt to get argmin of an empty sequence")
  | x :: xs' =>
      if forallb PrimFloat.is_nan xs then Ok (-1)%Z
      else Ok (Z.of_nat (argmin_from x 0 1 xs'))
  end.

(** [df.iloc[k].name]: a negative position counts from the end. *)
Definition iloc_name (k : Z) (t : list row) : result string :=
  let i := if (k <? 0)%Z then (Z.of_nat (length t) + k)%Z else k in
  if (i <? 0)%Z then
    Raise (IndexError "single positional indexer is out-of-bounds")
  else
    match t !! Z.to_nat i with
    | Some r => Ok (name r)
    | None => Raise (IndexError "single positional indexer is out-of-bounds")
    end.

(** The body of the [try] of [competition], for [n] metric labels: the
    table that it leaves and the winner. *)
Definition competition (n : nat) (weights : list float) (t : list row)
    : result (list row * string) :=
  t1 ← standardize t (seq 0 n);
  scores ← mapM (row_error_avg weights) t1;
  let t2 :=
    zip_with (fun r x => Row (name r) (cells r) (Some x)) t1 scores in
  k ← argmin scores;
  winner ← iloc_name k t2;
  Ok (t2, winner).

End Binary64.

(** ** The evaluator's metrics in the words of the specification *)

Module Spec.
Local Open Scope R_scope.

(** rmse = sqrt(mean((actual - pred)^2)) *)
Definition rmse (actual pred : list R) : R :=
  sqrt (Np.sum (zip_with (fun a p => (a - p) ^ 2) actual pred)
        / INR (length actual)).

(** mape = mean(|(actual - pred) / actual|) * 100 *)
Definition mape (actual pred : list R) : R :=
  Np.sum (zip_with (fun a p => Rabs ((a - p) / a)) actual pred)
  / INR (length actual) * 100.

(** A metric name as the evaluator reads it: lower case, no spaces. *)
Definition normalise (metric : string) : string :=
  Str.remove_spaces (Str.lower metric).

Definition supported (metric : string) : bool :=
  Modeler.str_in (normalise metric) Modeler.supported_metrics.

Definition metric_value (actual pred : list R) (k : string) : R :=
  if String.eqb k "rmse" then rmse actual pred else mape actual pred.

(** The mapping the evaluator is to return for the requested names,
    starting from [out]: supported names are entered under their
    normalised spelling, the others are passed over. *)
Fixpoint expected_dict (actual pred : list R) (metrics : list string)
    (out : Dict.t R) : Dict.t R :=
  match metrics with
  | [] => out
  | m :: ms =>
      if supported m
      then expected_dict actual pred ms
             (Dict.set (normalise m) (metric_value actual pred (normalise m)) out)
      else expected_dict actual pred ms out
  end.

(** The error records written for the names that are not supported. *)
Fixpoint unsupported_log (metrics : list string) : list log_record :=
  match metrics with
  | [] => []
  | m :: ms =>
      if supported m then unsupported_log ms
      else LogRecord ERROR
             ("### Requested metric " ++ normalise m ++ " is not supported") None
           :: unsupported_log ms
  end.

(** Shapes that numpy can combine. *)
Definition broadcastable (xs ys : list R) : bool :=
  (length xs =? length ys)%nat || (length ys =? 1)%nat || (length xs =? 1)%nat.

(** The conventional z-score, for comparison with the competition's
    transform. *)
Definition z_score (mean std x : R) : R := (x - mean) / std.

(** Weighted sum of a row's cells, weights paired by position. *)
Fixpoint weighted_sum (xs ws : list R) : R :=
  match xs, ws with
  | x :: xs', w :: ws' => x * w + weighted_sum xs' ws'
  | _, _ => 0
  end.

(** [k] is the first position of a least element of [xs]. *)
Definition first_minimum (xs : list R) (k : nat) : Prop :=
  exists x, xs !! k = Some x
    /\ (forall j y, xs !! j = Some y -> x <= y)
    /\ (forall j y, (j < k)%nat -> xs !! j = Some y -> x < y).

End Spec.

(** ** Vocabulary of the statements *)

(** The states that the methods leave behind. *)
Definition with_split (s : state) (tr te : list obs) : state :=
  (set_split tr te s).2.

Definition with_performances (s : state) (t : list perf_row) : state :=
  (set_performances t s).2.

Definition with_winner (s : state) (w : string) : state :=
  (set_winner w s).2.

(** The records that the [except] clauses write. *)
Definition broadcast_error : exn :=
  ValueError "operands could not be broadcast together".

Definition evaluation_failed : log_record :=
  LogRecord ERROR "### Model evaluation with metrics" (Some broadcast_error).

Definition none_has_no_values : exn :=
  AttributeError "'NoneType' object has no attribute 'values'".

Definition training_failed (name : string) (e : exn) : log_record :=
  LogRecord ERROR ("### Model " ++ name ++ " training failed") (Some e).

Definition not_enough_kronos : exn :=
  Exception_ "### Not enough records to perform train/test split".

Definition not_enough_mlf : exn :=
  Exception_ "Not enough records to perform train/test split".

Definition split_warning_kronos : log_record :=
  LogRecord WARNING "### Not enough records to perform train/test split" None.

Definition split_error_kronos : log_record :=
  LogRecord ERROR "### Train test split failed" (Some not_enough_kronos).

Definition split_warning_mlf : log_record :=
  LogRecord WARNING "Not enough records to perform train/test split" None.

Definition prediction_failed (e : exn) : log_record :=
  LogRecord ERROR "### Prediction failed" (Some e).

Definition no_history_error : exn :=
  TypeError "unsupported operand type(s) for -".

Definition generation_failed (flavor : string) (e : exn) : log_record :=
  LogRecord ERROR ("### Model generation of model flavor " ++ flavor ++ " failed")
    (Some e).


(** Rows by decreasing date. *)
Definition date_desc (a b : obs) : Prop := (date b <= date a)%Z.

(** [best] at position [ibest] is the first least element of [pre]. *)
Definition least_so_far (pre : list R) (best : R) (ibest : nat) : Prop :=
  pre !! ibest = Some best
  /\ (forall j y, pre !! j = Some y -> best <= y)%R
  /\ (forall j y, (j < ibest)%nat -> pre !! j = Some y -> best < y)%R.

(** *** A program logic for [py] *)

(** From a state satisfying [P], [c] ends in [Q] when it returns and in
    [E] when it raises. *)
Definition triple {A} (P : state -> Prop) (c : py A)
    (Q : A -> state -> Prop) (E : exn -> state -> Prop) : Prop :=
  forall s, P s ->
    match c s with
    | (Ok a, s') => Q a s'
    | (Raise e, s') => E e s'
    end.

(** *** The training loop *)

Definition is_run_ended (ev : tracking_event) : bool :=
  match ev with RunEnded => true | _ => false end.

(** The number of runs that the tracker has seen ended. *)
Definition closed_runs (s : state) : nat :=
  length (filter (fun ev => is_run_ended ev = true) (tracking s)).

(** The state after the [except] clause of one iteration: the failure is
    logged under the model's name and the run is ended. *)
Definition after_failure (name : string) (e : exn) (s : state) : state :=
  (track RunEnded (with_log s [training_failed name e])).2.

(** The loop as a relation on states: each model starts from the state
    the previous one left, whether it was trained or failed. *)
Inductive loop_run (np_Inf : R) (m : modeler)
  : Dict.t (option krns_model) -> state -> state -> Prop :=
| loop_done s : loop_run np_Inf m [] s s
| loop_trained name model rest s s1 s' :
    Modeler.train_pipeline np_Inf m name model s = (Ok tt, s1) ->
    loop_run np_Inf m rest s1 s' ->
    loop_run np_Inf m ((name, model) :: rest) s s'
| loop_failed name model rest s e s1 s' :
    Modeler.train_pipeline np_Inf m name model s = (Raise e, s1) ->
    loop_run np_Inf m rest (after_failure name e s1) s' ->
    loop_run np_Inf m ((name, model) :: rest) s s'.

(** *** The performance table *)

Module Table.
Local Open Scope R_scope.

(** The values of the metric column at position [k]. *)
Definition column (k : nat) (t : list perf_row) : list R :=
omap (fun r => cells r !! k) t.

(** The competition's transform of a value of column [k] of [t]. *)
Definition shift (t : list perf_row) (k : nat) (x : R) : R :=
x - Pd.mean (column k t) / Pd.std (column k t).

Definition with_cells (r : perf_row) (cs : list R) : perf_row :=
PerfRow (model_name r) (row_config r) (row_model r) (run_id r) cs
        (error_avg r).

(** A row after the columns before position [j] went through the family
  of transforms [g]. *)
Definition row_upto (g : nat -> R -> R) (j : nat) (r : perf_row) : perf_row :=
with_cells r (imap (fun k x => if (k <? j)%nat then g k x else x) (cells r)).

Definition standardize_upto (j : nat) (t : list perf_row) : list perf_row :=
map (row_upto (shift t) j) t.

(** Every metric column transformed. *)
Definition standardize (t : list perf_row) : list perf_row :=
map (fun r => with_cells r (imap (shift t) (cells r))) t.

(** The composite score of a row. *)
Definition composite (ws : list R) (r : perf_row) : R :=
Spec.weighted_sum (cells r) ws / Np.sum ws.

Definition scored (ws : list R) (t : list perf_row) : list perf_row :=
map (fun r => Pandas.with_error_avg r (composite ws r)) t.

(** Every row has one cell per metric label. *)
Definition well_formed (labels : list string) (t : list perf_row) : Prop :=
Forall (fun r => length (cells r) = length labels) t.

End Table.

(** *** The naive forecast *)

Module Naive.

(** The rows strictly before the first day to forecast. *)
Definition history (m : modeler) : list obs :=
filter (fun r => date r < fcst_first_date m)%Z (data m).

(** [x if x >= 0 else 0] *)
Definition clamp (x : R) : R := if Rle_dec 0 x then x else 0%R.

Definition row (m : modeler) (d : Z) (v : R) : prediction_row :=
PredictionRow d (clamp v) (fcst_first_date m) (current_date m) (key_code m).

End Naive.

(** *** The gate of the deployment *)

Module Gate.

(** The backend that [model_generation] builds, when it builds one. *)
Definition backend
  (construct : string -> modeler -> model_config -> option artifact
               -> result krns_model)
  (m : modeler) (flavor : string) (config : model_config)
  (trained : option artifact) : result krns_model :=
if String.eqb flavor "prophet" then construct "prophet" m config trained
else if String.eqb flavor "pmdarima" then construct "pmdarima" m config trained
else if String.eqb flavor "tensorflow" then construct "tensorflow" m config trained
else Raise (ValueError ("Model " ++ flavor ++ " not supported.")).

(** The number of rows that the version found under [uri] forecasts for
  the unit test, when it can be loaded, wrapped and run. *)
Definition forecast_count
  (construct : string -> modeler -> model_config -> option artifact
               -> result krns_model)
  (today : Z) (m : modeler) (g : gmap nat stage) (uri : string)
  : option nat :=
match load_model (ml_flower m) g uri with
| Ok (model, flavor) =>
    match backend construct m flavor [] (Some model) with
    | Ok k =>
        match predict k (n_unit_test m) (Some (today + 1)%Z) true with
        | Ok (Some p) => Some (length p)
        | _ => None
        end
    | Raise _ => None
    end
| Raise _ => None
end.

(** The registry accepts the calls of a deployment. *)
Definition registry_available (f : MLFlower) : Prop :=
(forall g uri, register_model_fault f g uri = None)
/\ (forall v k x, set_model_tag f v k x = Ok tt)
/\ (forall g v st, promote_model_fault f g v st = None).

Definition with_registry (s : state) (g : gmap nat stage) : state :=
(set_registry g s).2.

(** The registry once the new version is registered and staged. *)
Definition staged (g : gmap nat stage) : gmap nat stage :=
Registry.promote (Registry.register g).2 (Registry.fresh g) Staging true.

End Gate.

(** ** Sample collaborators and orchestrators *)

Module Example.
Local Open Scope R_scope.

(** A tracker that accepts everything and a registry with nothing to
  load. *)
Definition flower : MLFlower :=
MkMLFlower (fun _ => Ok tt) (fun _ => Ok (Some "run")) (fun _ => Ok tt)
  (fun _ _ _ _ => Ok tt) (fun _ _ => Raise (Exception_ "no such model"))
  (fun _ _ => None) (fun _ _ _ => Ok tt) (fun _ _ _ => None)
  (fun _ _ _ => "READY").

Definition series : list obs :=
[Obs "k" 1 4; Obs "k" 2 6; Obs "k" 3 5; Obs "k" 4 7].

Definition orchestrator : modeler :=
MkModeler flower series [("pmdarima_1", [])] 4 5 1 3 5
  ["rmse"; "mape"] [1 / 2; 1 / 2] true "k" 7.

(** A backend whose [fit] raises. *)
Definition failing : krns_model :=
KrnsModel (Ok tt) (Ok tt) (Raise (Exception_ "fit failed")) (Ok tt)
  (fun _ _ _ => Ok None).

(** A backend that forecasts two points whatever is asked for. *)
Definition misshapen : krns_model :=
KrnsModel (Ok tt) (Ok tt) (Ok tt) (Ok tt)
  (fun _ _ _ => Ok (Some [Fcst 4 7; Fcst 5 7])).

(** A state whose test set has three rows. *)
Definition split_state : state :=
State (Some [Obs "k" 1 4; Obs "k" 2 6])
      (Some [Obs "k" 4 7; Obs "k" 3 5; Obs "k" 2 6])
      [] None [] [] ∅.

(** No backend can be built. *)
Definition no_backend (flavor : string) (m : modeler) (c : model_config)
  (trained : option artifact) : result krns_model :=
Raise (Exception_ "backend unavailable").

(** Three observations and a test size of two. *)
Definition short : modeler :=
MkModeler flower [Obs "k" 1 4; Obs "k" 2 6; Obs "k" 3 5]
  [] 3 4 2 3 5 ["rmse"] [1] true "k" 6.

(** The series starts on the first day to forecast: nothing is
  historical. *)
Definition early : modeler :=
MkModeler flower series [] 0 1 1 3 5 ["rmse"] [1] true "k" 7.

(** History ends on day 10 with value 3; the forecast starts on day 13. *)
Definition positive : modeler :=
MkModeler flower [Obs "k" 9 2; Obs "k" 10 3] [] 12 13 1 3 5
  ["rmse"] [1] true "k" 3.

(** The same with a negative last value. *)
Definition negative : modeler :=
MkModeler flower [Obs "k" 9 2; Obs "k" 10 (-1)] [] 12 13 1 3 5
  ["rmse"] [1] true "k" 2.

Definition row (name : string) (x : R) : perf_row :=
PerfRow name (Some []) None (Some name) [x] None.

(** Three candidates scored on one metric. *)
Definition table : list perf_row := [row "a" 0; row "b" 2; row "c" 4].

Definition judge : modeler :=
MkModeler flower series [] 4 5 1 3 5 ["rmse"] [1] true "k" 7.

Definition scored_state : state := State None None table None [] [] ∅.

(** A backend that forecasts three days. *)
Definition three_days : krns_model :=
KrnsModel (Ok tt) (Ok tt) (Ok tt) (Ok tt)
  (fun _ _ _ => Ok (Some [Fcst 1 1; Fcst 2 1; Fcst 3 1])).

Definition backends (flavor : string) (m : modeler) (c : model_config)
  (trained : option artifact) : result krns_model :=
Ok three_days.

(** A registry from which the staged version can be loaded. *)
Definition registry_flower : MLFlower :=
MkMLFlower (fun _ => Ok tt) (fun _ => Ok (Some "run")) (fun _ => Ok tt)
  (fun _ _ _ _ => Ok tt) (fun _ _ => Ok (0%nat, "pmdarima"))
  (fun _ _ => None) (fun _ _ _ => Ok tt) (fun _ _ _ => None)
  (fun _ _ _ => "READY").

Definition deployer : modeler :=
MkModeler registry_flower series [("pmdarima_1", [])] 4 5 1 3 5
  ["rmse"] [1] true "k" 7.

Definition candidate : perf_row :=
PerfRow "pmdarima_1" (Some [("model_flavor", "pmdarima")]) (Some three_days)
  (Some "run") [1] (Some 1).

(** One version is in production; the competition chose the candidate. *)
Definition chosen_state : state :=
State None None [candidate] (Some "pmdarima_1") [] [] {[1%nat := Production]}.

End Example.

(** ** Vocabulary of the further properties *)

(** The number of requested names that the evaluator supports. *)
Definition supported_count (metrics : list string) : nat :=
  length (filter (fun k => Spec.supported k = true) metrics).

Module Sample.
Local Open Scope R_scope.

(** An orchestrator asked for a metric that the evaluator lacks. *)
Definition with_mae : modeler :=
MkModeler Example.flower Example.series [("pmdarima_1", [])] 4 5 1 3 5
  ["rmse"; "mae"] [1 / 2; 1 / 2] true "k" 7.

(** Three observations, a test size of two, one model to train. *)
Definition too_short : modeler :=
MkModeler Example.flower [Obs "k" 1 4; Obs "k" 2 6; Obs "k" 3 5]
  [("pmdarima_1", [])] 3 4 2 3 5 ["rmse"] [1] true "k" 6.

(** Two metrics and three weights. *)
Definition three_weights : modeler :=
MkModeler Example.flower Example.series [] 4 5 1 3 5
  ["rmse"; "mape"] [1; 1; 1] true "k" 7.

(** Two metrics and a single weight. *)
Definition one_weight : modeler :=
MkModeler Example.flower Example.series [] 4 5 1 3 5
  ["rmse"; "mape"] [2] true "k" 7.

Definition two_cells (name : string) (x y : R) : perf_row :=
PerfRow name (Some []) None (Some name) [x; y] None.

Definition two_metric_state : state :=
State None None [two_cells "a" 1 3; two_cells "b" 2 1] None [] [] ∅.

End Sample.

(** The record of a failed competition. *)
Definition competition_failed (e : exn) : log_record :=
  LogRecord ERROR "### Competition failed" (Some e).

Definition empty_argmin : exn :=
  ValueError "attempt to get argmin of an empty sequence".

(** The entry that [create_all_models] makes for a configuration: its
    name, and the backend of the flavor that the name starts with, or
    [None] when none could be built. *)
Definition created_entry
    (construct : string -> modeler -> model_config -> option artifact
                 -> result krns_model)
    (m : modeler) (entry : string * model_config)
    : string * option krns_model :=
  (entry.1,
   match Gate.backend construct m (StrSplit.before_underscore entry.1)
           entry.2 None with
   | Ok k => Some k
   | Raise _ => None
   end).

(** A string without the separator of configuration names. *)
Fixpoint no_underscore (s : string) : bool :=
  match s with
  | EmptyString => true
  | String c s' => negb (Ascii.eqb c "_"%char) && no_underscore s'
  end.

Module Sample2.
Local Open Scope R_scope.

(** A test size below zero. *)
Definition negative_test_size : modeler :=
MkModeler Example.flower Example.series [("pmdarima_1", [])] 4 5 (-1) 3 5
  ["rmse"] [1] true "k" 7.

End Sample2.

(** The observations dated before [first]. *)
Definition observed_before (first : Z) (d : list obs) : list obs :=
  filter (fun r => date r < first)%Z d.

(** The record of a failed forecast of the network backend. *)
Definition predict_failed (e : exn) : log_record :=
  LogRecord ERROR "### Predict with model failed" (Some e).


Module Sample3.
Local Open Scope R_scope.

(** A network that answers the sum of its window. *)
Definition adder : list R -> result R := fun w => Ok (Np.sum w).


(** The same with a window longer than the series. *)
Definition window_of_nine : Tensorflow.t :=
Tensorflow.Make Example.orchestrator "rnn" 128 "relu" 25 9 (Some adder).

End Sample3.

(** The record of a failed deployment. *)
Definition deployment_failed (w : option string) (e : exn) : log_record :=
  LogRecord ERROR
    ("### Deployment of model " ++ Modeler.str_of_name w ++ " failed") (Some e).

Definition no_config_error : exn :=
  TypeError "argument of type 'NoneType' is not iterable".

(** The record of a failed evaluation of the model in production. *)
Definition prod_model_failed (e : exn) : log_record :=
  LogRecord WARNING "### Prod model prediction failed" (Some e).

(** The row that [prod_model_eval] writes: no configuration, no run. *)
Definition baseline_row (k : krns_model) (values : list R) : perf_row :=
  PerfRow "prod_model" None (Some k) None values None.

Module Sample4.
Local Open Scope R_scope.

(** The model in production has won the competition. *)
Definition baseline_won : state :=
State None None [baseline_row Example.three_days [1]] (Some "prod_model")
      [] [] {[1%nat := Production]}.

End Sample4.

(** No test set, the table [t], [n] runs ended. *)
Definition unsplit (t : list perf_row) (n : nat) (s : state) : Prop :=
  test_data s = None /\ df_performances s = t /\ closed_runs s = n.

(** The states that differ from [s] by records added to the log. *)
Definition logged (s : state) (s' : state) : Prop :=
  exists l, s' = with_log s l.

(** The entries that the evaluator computes for the requested names, in
    the order of the request. *)
Definition metric_entries (actual pred : list R) (metrics : list string)
    : Dict.t R :=
  map (fun k => (Spec.normalise k,
                 Spec.metric_value actual pred (Spec.normalise k))) metrics.

(** What the tracker has seen once a model is trained under the run
    [id]: the start of the run, one event per metric, the end. *)
Definition run_events (id : string) (entries : Dict.t R)
    : list tracking_event :=
  RunStarted id :: map (fun e => MetricLogged id e.1 e.2) entries ++ [RunEnded].

(** The record of a failed training. *)
Definition whole_training_failed (e : exn) : log_record :=
  LogRecord ERROR "### Training failed" (Some e).

Module Sample5.
Local Open Scope R_scope.

(** A tracker that can neither start nor end a run. *)
Definition stuck : MLFlower :=
MkMLFlower (fun _ => Ok tt) (fun _ => Raise (Exception_ "no run"))
  (fun _ => Raise (Exception_ "no active run"))
  (fun _ _ _ _ => Ok tt) (fun _ _ => Raise (Exception_ "no such model"))
  (fun _ _ => None) (fun _ _ _ => Ok tt) (fun _ _ _ => None)
  (fun _ _ _ => "READY").

Definition stuck_orchestrator : modeler :=
MkModeler stuck Example.series [("pmdarima_1", []); ("prophet_1", [])]
  4 5 1 3 5 ["rmse"] [1] true "k" 7.

End Sample5.

(** The two ways [prod_model_eval] can end from [s]: with a warning and
    the table as it was, or with the baseline row written. *)
Definition baseline_outcome (m : modeler) (s s' : state) : Prop :=
  exists l,
    (exists e l0, l = (l0 ++ [prod_model_failed e])%list /\ s' = with_log s l)
    \/ (exists k values,
          s' = with_performances (with_log s l)
                 (Pandas.loc_set (baseline_row k values) (df_performances s))
          /\ length values = length (fcst_competition_metrics m)).

(** Every row of the table has one cell per competition metric. *)
Definition shaped (m : modeler) (s : state) : Prop :=
  Table.well_formed (fcst_competition_metrics m) (df_performances s).


(** No row of the table has a score: the competition has not added its
    column to the table. *)
Definition unscored (s : state) : Prop :=
  Forall (fun r => error_avg r = None) (df_performances s).

Module Sample6.
Local Open Scope R_scope.

(** History ends on day 738000 (in the year 2021); three million days
    are asked for, more than there are dates left. *)
Definition distant : modeler :=
  MkModeler Example.flower [Obs "k" 737999 2; Obs "k" 738000 3] []
    738000 738001 1 3 3000000 ["rmse"] [1] true "k" 3.

End Sample6.

Module Sample7.

(** Two candidates with the same value of the first metric, and equal
    weights. *)
Definition tied_first_metric : list Binary64.row :=
  [Binary64.Row "a" [0; 1]%float None; Binary64.Row "b" [0; 3]%float None].

Definition halves : list float := [0.5; 0.5]%float.

End Sample7.

(** * Proofs *)

(** ** Laws of the monad and of dictionaries *)

Lemma bind_ok {A B} (c : py A) (k : A -> py B) s a s' :
  c s = (Ok a, s') -> (c ≫= k) s = k a s'.
Proof. intros H. unfold mbind, py_bind. by rewrite H. Qed.

Lemma bind_raise {A B} (c : py A) (k : A -> py B) s e s' :
  c s = (Raise e, s') -> (c ≫= k) s = (Raise e, s').
Proof. intros H. unfold mbind, py_bind. by rewrite H. Qed.

Lemma try_ok {A} (c : py A) h s a s' :
  c s = (Ok a, s') -> try_except c h s = (Ok a, s').
Proof. intros H. unfold try_except. by rewrite H. Qed.

Lemma try_raise {A} (c : py A) h s e s' :
  c s = (Raise e, s') -> try_except c h s = h e s'.
Proof. intros H. unfold try_except. by rewrite H. Qed.

Lemma with_log_nil s : with_log s [] = s.
Proof. destruct s. unfold with_log. simpl. by rewrite app_nil_r. Qed.

Lemma with_log_app s l1 l2 : with_log (with_log s l1) l2 = with_log s (l1 ++ l2).
Proof. unfold with_log. simpl. by rewrite app_assoc. Qed.

Lemma for_fold_cons {A B} (x : A) l (body : B -> A -> py B) b :
  for_fold (x :: l) body b = body b x ≫= for_fold l body.
Proof. done. Qed.

Ltac py_unfold :=
  unfold mbind, py_bind, mret, py_ret, lift, raise, logger, get_state.

(** ** Dictionaries *)



Section Evaluator.
Variable np_Inf : R.
Local Open Scope R_scope.

Lemma sub_same_length xs ys :
  length xs = length ys -> Np.sub xs ys = Ok (zip_with Rminus xs ys).
Proof.
  intros H. unfold Np.sub, Np.broadcast. rewrite H, Nat.eqb_refl. done.
Qed.

Lemma div_same_length xs ys :
  length xs = length ys -> Np.div xs ys = Ok (zip_with Rdiv xs ys).
Proof.
  intros H. unfold Np.div, Np.broadcast. rewrite H, Nat.eqb_refl. done.
Qed.

Lemma square_sub actual pred :
  Np.square (zip_with Rminus actual pred)
  = zip_with (fun a p => (a - p) ^ 2) actual pred.
Proof.
  revert pred. induction actual as [|a actual IH]; intros [|p pred]; simpl; try done.
  by rewrite IH.
Qed.

Lemma abs_div_sub actual pred :
  Np.abs (zip_with Rdiv (zip_with Rminus actual pred) actual)
  = zip_with (fun a p => Rabs ((a - p) / a)) actual pred.
Proof.
  revert pred. induction actual as [|a actual IH]; intros [|p pred]; simpl; try done.
  by rewrite IH.
Qed.

Lemma length_zip_same {A B C} (f : A -> B -> C) xs ys :
  length xs = length ys -> length (zip_with f xs ys) = length xs.
Proof. intros H. rewrite length_zip_with. lia. Qed.

Lemma supported_cases k :
  Modeler.str_in k Modeler.supported_metrics = true -> k = "rmse" \/ k = "mape".
Proof.
  unfold Modeler.str_in, Modeler.supported_metrics. simpl.
  rewrite !orb_true_iff, !String.eqb_eq. intros [H|[H|H]]; [by left|by right|done].
Qed.

Lemma evaluate_step_unsupported actual pred out metric s :
  Spec.supported metric = false ->
  Modeler.evaluate_step np_Inf actual pred out metric s
  = (Ok out, with_log s [LogRecord ERROR
       ("### Requested metric " ++ Spec.normalise metric ++ " is not supported") None]).
Proof.
  intros H. unfold Modeler.evaluate_step. unfold Spec.supported, Spec.normalise in H.
  rewrite H. done.
Qed.

Lemma evaluate_step_same_length actual pred out metric s :
  length actual = length pred ->
  Spec.supported metric = true ->
  Modeler.evaluate_step np_Inf actual pred out metric s
  = (Ok (Dict.set (Spec.normalise metric)
           (Spec.metric_value actual pred (Spec.normalise metric)) out), s).
Proof.
  intros Hlen H. unfold Modeler.evaluate_step.
  pose proof H as H'. unfold Spec.supported in H.
  fold (Spec.normalise metric). rewrite H.
  apply supported_cases in H. unfold Spec.metric_value.
  destruct H as [-> | ->]; simpl; py_unfold.
  - rewrite sub_same_length by done.
    unfold Spec.rmse, Np.mean. rewrite square_sub, length_zip_same by done. done.
  - rewrite sub_same_length by done.
    rewrite div_same_length by (by rewrite length_zip_same).
    unfold Spec.mape, Np.mean. rewrite abs_div_sub, !length_zip_same; done.
Qed.

Lemma evaluate_loop_same_length actual pred :
  length actual = length pred ->
  forall metrics out s,
    for_fold metrics (Modeler.evaluate_step np_Inf actual pred) out s
    = (Ok (Spec.expected_dict actual pred metrics out),
       with_log s (Spec.unsupported_log metrics)).
Proof.
  intros Hlen. induction metrics as [|m ms IH]; intros out s.
  - simpl. by rewrite with_log_nil.
  - rewrite for_fold_cons. simpl.
    destruct (Spec.supported m) eqn:Hs.
    + erewrite bind_ok by (by apply evaluate_step_same_length). apply IH.
    + erewrite bind_ok by (by apply evaluate_step_unsupported).
      rewrite IH. by rewrite with_log_app.
Qed.





Lemma rmse_example : Spec.rmse [1; 2; 3] [1; 2; 4] = sqrt (1 / 3).
Proof. unfold Spec.rmse. simpl. f_equal. lra. Qed.

Lemma mape_example : Spec.mape [10; 20] [12; 18] = 15.
Proof.
  unfold Spec.mape. simpl.
  replace ((10 - 12) / 10) with (- (1 / 5)) by lra.
  replace ((20 - 18) / 20) with (1 / 10) by lra.
  rewrite Rabs_Ropp, !Rabs_pos_eq by lra. lra.
Qed.



End Evaluator.



(** ** When the evaluator fails *)

Section EvaluatorFailure.
Variable np_Inf : R.

Lemma broadcast_raise f xs ys :
  Spec.broadcastable xs ys = false -> Np.broadcast f xs ys = Raise broadcast_error.
Proof.
  unfold Spec.broadcastable, Np.broadcast. rewrite !orb_false_iff.
  intros [[-> ->] ->]. done.
Qed.

Lemma broadcast_ok f xs ys :
  Spec.broadcastable xs ys = true ->
  exists zs, Np.broadcast f xs ys = Ok zs
             /\ (length zs = length xs \/ length xs = 1%nat).
Proof.
  unfold Spec.broadcastable, Np.broadcast. intros H.
  destruct (length xs =? length ys)%nat eqn:E1.
  { apply Nat.eqb_eq in E1. eexists; split; [reflexivity|].
    left. by apply length_zip_same. }
  destruct (length ys =? 1)%nat eqn:E2.
  { eexists; split; [reflexivity|]. left. by rewrite length_map. }
  destruct (length xs =? 1)%nat eqn:E3; [|done].
  apply Nat.eqb_eq in E3. eexists; split; [reflexivity|]. by right.
Qed.

Lemma broadcastable_again (xs zs : list R) :
  length zs = length xs \/ length xs = 1%nat ->
  Spec.broadcastable zs xs = true.
Proof.
  unfold Spec.broadcastable. rewrite !orb_true_iff, !Nat.eqb_eq. tauto.
Qed.

Lemma evaluate_step_broadcastable actual pred metric :
  Spec.broadcastable actual pred = true ->
  Spec.supported metric = true ->
  exists v, forall out s,
    Modeler.evaluate_step np_Inf actual pred out metric s
    = (Ok (Dict.set (Spec.normalise metric) v out), s).
Proof.
  intros Hb H. unfold Modeler.evaluate_step.
  unfold Spec.supported in H. fold (Spec.normalise metric). rewrite H.
  apply supported_cases in H.
  destruct (broadcast_ok Rminus _ _ Hb) as (d & Hd & Hlen).
  destruct (broadcast_ok Rdiv d actual) as (q & Hq & _).
  { by apply broadcastable_again. }
  destruct H as [-> | ->]; simpl; py_unfold; eexists; intros out s.
  - unfold Np.sub. rewrite Hd. done.
  - unfold Np.sub, Np.div. rewrite Hd, Hq. done.
Qed.

Lemma evaluate_step_not_broadcastable actual pred metric out s :
  Spec.broadcastable actual pred = false ->
  Spec.supported metric = true ->
  Modeler.evaluate_step np_Inf actual pred out metric s
  = (Raise broadcast_error, s).
Proof.
  intros Hb H. unfold Modeler.evaluate_step.
  unfold Spec.supported in H. fold (Spec.normalise metric). rewrite H.
  apply supported_cases in H.
  destruct H as [-> | ->]; simpl; py_unfold; unfold Np.sub;
    by rewrite broadcast_raise.
Qed.

Lemma evaluate_loop_broadcastable actual pred :
  Spec.broadcastable actual pred = true ->
  forall metrics out s, exists out',
    for_fold metrics (Modeler.evaluate_step np_Inf actual pred) out s
    = (Ok out', with_log s (Spec.unsupported_log metrics)).
Proof.
  intros Hb. induction metrics as [|m ms IH]; intros out s.
  - exists out. simpl. by rewrite with_log_nil.
  - rewrite for_fold_cons. simpl. destruct (Spec.supported m) eqn:Hs.
    + destruct (evaluate_step_broadcastable actual pred m Hb Hs) as [v Hv].
      erewrite bind_ok by apply Hv. apply IH.
    + erewrite bind_ok by (by apply evaluate_step_unsupported).
      destruct (IH out (with_log s
        [LogRecord ERROR ("### Requested metric " ++ Spec.normalise m ++ " is not supported") None]))
        as [out' Hout'].
      exists out'. rewrite Hout'. by rewrite with_log_app.
Qed.

Lemma evaluate_loop_unsupported actual pred :
  forall metrics out s,
    Forall (fun m => Spec.supported m = false) metrics ->
    for_fold metrics (Modeler.evaluate_step np_Inf actual pred) out s
    = (Ok out, with_log s (Spec.unsupported_log metrics)).
Proof.
  induction metrics as [|m ms IH]; intros out s Hall.
  - simpl. by rewrite with_log_nil.
  - inversion Hall as [|? ? Hm Hms]; subst.
    rewrite for_fold_cons. simpl. rewrite Hm.
    erewrite bind_ok by (by apply evaluate_step_unsupported).
    rewrite IH by done. by rewrite with_log_app.
Qed.

Lemma evaluate_loop_raises actual pred :
  Spec.broadcastable actual pred = false ->
  forall metrics out s,
    Exists (fun m => Spec.supported m = true) metrics ->
    exists l,
      for_fold metrics (Modeler.evaluate_step np_Inf actual pred) out s
      = (Raise broadcast_error, with_log s l).
Proof.
  intros Hb. induction metrics as [|m ms IH]; intros out s Hex.
  - inversion Hex.
  - rewrite for_fold_cons. destruct (Spec.supported m) eqn:Hs.
    + exists []. erewrite bind_raise by (by apply evaluate_step_not_broadcastable).
      by rewrite with_log_nil.
    + erewrite bind_ok by (by apply evaluate_step_unsupported).
      inversion Hex as [? ? Hm|? ? Hms]; subst; [congruence|].
      destruct (IH out (with_log s
        [LogRecord ERROR ("### Requested metric " ++ Spec.normalise m ++ " is not supported") None]) Hms)
        as [l Hl].
      eexists. rewrite Hl. by rewrite with_log_app.
Qed.

(** What [evaluate_model] does on any input. *)
Lemma evaluate_model_cases actual pred metrics s :
  (Spec.broadcastable actual pred = false
   /\ Exists (fun m => Spec.supported m = true) metrics
   /\ exists l, Modeler.evaluate_model np_Inf actual pred metrics s
                = (Ok None, with_log s (l ++ [evaluation_failed])))
  \/ (~ (Spec.broadcastable actual pred = false
         /\ Exists (fun m => Spec.supported m = true) metrics)
      /\ exists out, Modeler.evaluate_model np_Inf actual pred metrics s
                     = (Ok (Some out), with_log s (Spec.unsupported_log metrics))).
Proof.
  unfold Modeler.evaluate_model, Modeler.evaluate_body.
  destruct (Spec.broadcastable actual pred) eqn:Hb.
  - right. split; [intros [? _]; done|].
    destruct (evaluate_loop_broadcastable actual pred Hb metrics [] s) as [out Hout].
    exists out. apply try_ok. by erewrite bind_ok by apply Hout.
  - destruct (decide (Exists (fun m => Spec.supported m = true) metrics)) as [Hex|Hnex].
    + left. split; [done|]. split; [done|].
      destruct (evaluate_loop_raises actual pred Hb metrics [] s Hex) as [l Hl].
      exists l. erewrite try_raise by (by erewrite bind_raise by apply Hl).
      py_unfold. by rewrite with_log_app.
    + right. split; [intros [_ ?]; done|].
      exists []. apply try_ok.
      erewrite bind_ok; [done|]. apply evaluate_loop_unsupported.
      apply Forall_forall. intros m Hm.
      destruct (Spec.supported m) eqn:Hs; [|done].
      exfalso. apply Hnex. apply Exists_exists. eauto.
Qed.

End EvaluatorFailure.

(** ** Rules of the program logic, and the runs of one pipeline *)

Lemma triple_ret {A} (P : state -> Prop) (a : A) Q E :
  (forall s, P s -> Q a s) -> triple P (mret a) Q E.
Proof. intros H s Hs. by apply H. Qed.

Lemma triple_raise {A} (P : state -> Prop) e (Q : A -> state -> Prop) E :
  (forall s, P s -> E e s) -> triple P (raise e) Q E.
Proof. intros H s Hs. by apply H. Qed.

Lemma triple_lift {A} (P : state -> Prop) (r : result A) Q E :
  (forall s a, P s -> r = Ok a -> Q a s) ->
  (forall s e, P s -> r = Raise e -> E e s) ->
  triple P (lift r) Q E.
Proof. intros H1 H2 s Hs. unfold lift. destruct r; eauto. Qed.

Lemma triple_bind {A B} (P : state -> Prop) (c : py A) (k : A -> py B)
    (R : A -> state -> Prop) Q E :
  triple P c R E -> (forall a, triple (R a) (k a) Q E) ->
  triple P (c ≫= k) Q E.
Proof.
  intros Hc Hk s Hs. specialize (Hc s Hs). unfold mbind, py_bind.
  destruct (c s) as [[a|e] s']; [by apply Hk|done].
Qed.

Lemma triple_get (P : state -> Prop) Q E :
  (forall s, P s -> Q s s) -> triple P get_state Q E.
Proof. intros H s Hs. by apply H. Qed.

Lemma triple_try {A} (P : state -> Prop) (c : py A) h Q E
    (R : exn -> state -> Prop) :
  triple P c Q R -> (forall e, triple (R e) (h e) Q E) ->
  triple P (try_except c h) Q E.
Proof.
  intros Hc Hh s Hs. specialize (Hc s Hs). unfold try_except.
  destruct (c s) as [[a|e] s']; [done|by apply Hh].
Qed.

Lemma triple_weaken {A} (P P' : state -> Prop) (c : py A)
    (Q Q' : A -> state -> Prop) (E E' : exn -> state -> Prop) :
  triple P' c Q' E' ->
  (forall s, P s -> P' s) -> (forall a s, Q' a s -> Q a s) ->
  (forall e s, E' e s -> E e s) ->
  triple P c Q E.
Proof.
  intros Hc HP HQ HE s Hs. specialize (Hc s (HP s Hs)).
  destruct (c s) as [[a|e] s']; auto.
Qed.

Lemma triple_for_each {A} (I : state -> Prop) (l : list A) body E :
  (forall x, triple I (body x) (fun _ => I) E) ->
  triple I (for_each l body) (fun _ => I) E.
Proof.
  intros Hb. induction l as [|x l IH]; simpl.
  - by apply triple_ret.
  - eapply triple_bind; [apply Hb|]. intros ?. apply IH.
Qed.

(** A step that only touches the state through [f], and returns. *)
Lemma triple_update (f : state -> state) (P : state -> Prop) Q E :
  (forall s, P s -> Q tt (f s)) -> triple P (fun s => (Ok tt, f s)) Q E.
Proof. intros H s Hs. by apply H. Qed.

Section Training.
Variable construct :
  string -> modeler -> model_config -> option artifact -> result krns_model.
Variable np_Inf : R.
Variable m : modeler.
Hypothesis end_run_returns : forall h, end_run (ml_flower m) h = Ok tt.

Lemma track_counts ev n E :
  triple (fun s => closed_runs s = n) (track ev)
         (fun _ s => closed_runs s = (n + if is_run_ended ev then 1 else 0)%nat) E.
Proof.
  intros s Hs. unfold closed_runs, track in *. simpl.
  rewrite filter_app, length_app, Hs. f_equal.
  destruct ev; done.
Qed.

Lemma track_keeps ev n E :
  is_run_ended ev = false ->
  triple (fun s => closed_runs s = n) (track ev)
         (fun _ s => closed_runs s = n) E.
Proof.
  intros Hev. eapply triple_weaken; [apply (track_counts ev n E)|..]; simpl; eauto.
  intros _ s ->. rewrite Hev. lia.
Qed.

Lemma end_run_call_closes n :
  triple (fun s => closed_runs s = n) (Modeler.end_run_call m)
         (fun _ s => closed_runs s = S n) (fun _ _ => False).
Proof.
  unfold Modeler.end_run_call.
  eapply triple_bind with (R := fun _ s => closed_runs s = n).
  { by apply triple_get. }
  intros s0.
  eapply triple_bind with (R := fun _ s => closed_runs s = n).
  { apply triple_lift; [done|]. intros s e _. by rewrite end_run_returns. }
  intros ?.
  eapply triple_weaken; [apply (track_counts RunEnded n (fun _ _ => False))|..];
    simpl; eauto.
  intros _ s ->. lia.
Qed.

Lemma evaluate_model_preserves n actual pred metrics :
  triple (fun s => closed_runs s = n)
         (Modeler.evaluate_model np_Inf actual pred metrics)
         (fun _ s => closed_runs s = n) (fun _ _ => False).
Proof.
  intros s Hs.
  destruct (evaluate_model_cases np_Inf actual pred metrics s)
    as [(_ & _ & l & ->)|(_ & out & ->)]; done.
Qed.

Ltac step :=
  first
    [ apply triple_ret; intros; simpl; try done
    | apply triple_raise; intros; simpl; try done
    | apply triple_get; intros; simpl; try done
    | apply triple_lift; intros; simpl; try done
    | apply triple_update; intros; simpl; try done ].

Lemma train_pipeline_runs n name model :
  triple (fun s => closed_runs s = n)
         (Modeler.train_pipeline np_Inf m name model)
         (fun _ s => closed_runs s = S n)
         (fun _ s => closed_runs s = n).
Proof.
  unfold Modeler.train_pipeline.
  eapply triple_bind with (R := fun _ s => closed_runs s = n); [by step|]. intros s0.
  eapply triple_bind with (R := fun _ s => closed_runs s = n); [by step|]. intros run.
  eapply triple_bind with (R := fun _ s => closed_runs s = n).
  { destruct run; [|by step].
    eapply triple_bind with (R := fun _ s => closed_runs s = n); [|intros; by step].
    by apply track_keeps. }
  intros id.
  eapply triple_bind with (R := fun _ s => closed_runs s = n).
  { destruct model; by step. }
  intros mdl.
  do 4 (eapply triple_bind with (R := fun _ s => closed_runs s = n); [by step|]; intros ?).
  eapply triple_bind with (R := fun s1 s => closed_runs s = n); [by step|]. intros s1.
  eapply triple_bind with (R := fun _ s => closed_runs s = n).
  { destruct (test_data s1); by step. }
  intros test.
  eapply triple_bind with (R := fun _ s => closed_runs s = n); [by step|]. intros pred.
  eapply triple_bind with (R := fun _ s => closed_runs s = n).
  { destruct pred; by step. }
  intros pred_values.
  eapply triple_bind with (R := fun _ s => closed_runs s = n).
  { eapply triple_weaken; [apply evaluate_model_preserves|..]; simpl; eauto. done. }
  intros train_evals.
  eapply triple_bind with (R := fun _ s => closed_runs s = n).
  { destruct (Dict.get name (models_config m)); by step. }
  intros config.
  eapply triple_bind with (R := fun _ s => closed_runs s = n).
  { destruct train_evals; by step. }
  intros values.
  eapply triple_bind with (R := fun _ s => closed_runs s = n).
  { destruct (length values =? length (fcst_competition_metrics m))%nat; [|by step].
    eapply triple_bind with (R := fun _ s => closed_runs s = n); [by step|].
    intros s2. by step. }
  intros ?.
  eapply triple_bind with (R := fun _ s => closed_runs s = n).
  { apply triple_for_each. intros [k val].
    eapply triple_bind with (R := fun _ s => closed_runs s = n); [by step|]. intros s2.
    eapply triple_bind with (R := fun _ s => closed_runs s = n); [by step|]. intros ?.
    by apply track_keeps. }
  intros ?.
  eapply triple_weaken; [apply end_run_call_closes|..]; simpl; eauto. done.
Qed.
End Training.

(** ** The training loop isolates failures *)

Section TrainingLoop.
Variable np_Inf : R.
Variable m : modeler.
Hypothesis end_run_returns : forall h, end_run (ml_flower m) h = Ok tt.

Lemma train_one_cases name model s :
  (exists s1, Modeler.train_pipeline np_Inf m name model s = (Ok tt, s1)
              /\ Modeler.train_one np_Inf m name model s = (Ok tt, s1))
  \/ (exists e s1, Modeler.train_pipeline np_Inf m name model s = (Raise e, s1)
              /\ Modeler.train_one np_Inf m name model s
                 = (Ok tt, after_failure name e s1)).
Proof.
  unfold Modeler.train_one, try_except.
  destruct (Modeler.train_pipeline np_Inf m name model s) as [[[]|e] s1] eqn:Hp.
  - left. eauto.
  - right. exists e, s1. split; [done|].
    unfold Modeler.end_run_call. py_unfold. simpl.
    by rewrite end_run_returns.
Qed.

Lemma closed_runs_after_failure name e s :
  closed_runs (after_failure name e s) = S (closed_runs s).
Proof.
  unfold after_failure, closed_runs. simpl.
  rewrite filter_app, length_app. simpl. lia.
Qed.

End TrainingLoop.

(** Claim C6, as amended.  Provided the tracker's [end_run] returns,
  the training loop never raises, whatever the steps of the models'
  pipelines do: it goes through every configured model in turn
  ([loop_run]), a model whose pipeline raised anywhere is logged under
  its name with the exception and its run is ended before the next
  model starts, and the loop ends exactly one run per model. *)
Theorem training_loop_isolates_failures (np_Inf : R) (m : modeler) :
  (forall h, end_run (ml_flower m) h = Ok tt) ->
  forall models s,
  exists s',
    Modeler.training_loop np_Inf m models s = (Ok tt, s')
    /\ loop_run np_Inf m models s s'
    /\ closed_runs s' = (closed_runs s + length models)%nat.
Proof.
  intros end_run_returns models.
  induction models as [|[name model] rest IH]; intros s.
  - exists s. split; [done|]. split; [constructor|]. simpl. lia.
  - unfold Modeler.training_loop in *. simpl for_each.
    destruct (train_one_cases np_Inf m end_run_returns name model s)
      as [(s1 & Hp & H1)|(e & s1 & Hp & H1)].
    + destruct (IH s1) as (s' & Hrun & Hrel & Hcount).
      exists s'. split; [by erewrite bind_ok by apply H1|].
      split; [by eapply loop_trained|].
      pose proof (train_pipeline_runs np_Inf m end_run_returns
                    (closed_runs s) name model s eq_refl) as Hc.
      rewrite Hp in Hc. simpl. lia.
    + destruct (IH (after_failure name e s1)) as (s' & Hrun & Hrel & Hcount).
      exists s'. split; [by erewrite bind_ok by apply H1|].
      split; [by eapply loop_failed|].
      pose proof (train_pipeline_runs np_Inf m end_run_returns
                    (closed_runs s) name model s eq_refl) as Hc.
      rewrite Hp in Hc. rewrite closed_runs_after_failure in Hcount.
      simpl. lia.
Qed.

Lemma training_loop_isolates_failures_witness :
  (forall h, end_run (ml_flower Example.orchestrator) h = Ok tt)
  /\ exists s',
      Modeler.training_loop 0%R Example.orchestrator
        [("pmdarima_1", Some Example.failing); ("prophet_1", None)]
        Example.split_state = (Ok tt, s')
      /\ closed_runs s' = 2%nat.
Proof.
  split; [intros h; reflexivity|].
  destruct (training_loop_isolates_failures 0%R Example.orchestrator
              (fun h => eq_refl)
              [("pmdarima_1", Some Example.failing); ("prophet_1", None)]
              Example.split_state) as (s' & Hrun & _ & Hcount).
  exists s'. split; [exact Hrun|exact Hcount].
Defined.

(** C6 as stated does not hold: the [except] clause of a model calls
    [end_run] without a guard.  With a tracker that can neither start
    nor end a run, the failure of the first model is logged, [end_run]
    raises out of the clause, the loop is left, and the second model is
    not trained. *)
Lemma training_loop_aborted_by_end_run :
  Modeler.training_loop 0%R Sample5.stuck_orchestrator
    [("pmdarima_1", Some Example.three_days);
     ("prophet_1", Some Example.three_days)]
    Example.split_state
  = (Raise (Exception_ "no active run"),
     with_log Example.split_state
       [training_failed "pmdarima_1" (Exception_ "no run")])
  /\ ~ (exists s',
          Modeler.training_loop 0%R Sample5.stuck_orchestrator
            [("pmdarima_1", Some Example.three_days);
             ("prophet_1", Some Example.three_days)]
            Example.split_state = (Ok tt, s')).
Proof.
  assert (H : Modeler.training_loop 0%R Sample5.stuck_orchestrator
    [("pmdarima_1", Some Example.three_days);
     ("prophet_1", Some Example.three_days)]
    Example.split_state
    = (Raise (Exception_ "no active run"),
       with_log Example.split_state
         [training_failed "pmdarima_1" (Exception_ "no run")]))
    by reflexivity.
  split; [exact H|]. intros (s' & Hrun). rewrite H in Hrun. discriminate.
Qed.

(** ** The evaluator never raises *)

Section Caller.
Variable np_Inf : R.

(** The training pipeline uses the evaluator's result as a dictionary:
    when the evaluator returns [None] the pipeline raises. *)
Lemma train_pipeline_none_evaluation m name mdl s id test p config :
  Dict.get name (models_config m) = Some config ->
  start_run (ml_flower m) (tracking s) = Ok (Some id) ->
  preprocess mdl = Ok tt -> log_params mdl = Ok tt ->
  fit mdl = Ok tt -> log_model mdl = Ok tt ->
  test_data s = Some test ->
  predict mdl (n_test m) (Pandas.min_date (map date test)) true = Ok (Some p) ->
  Spec.broadcastable (map metric test) (map f_value p) = false ->
  Exists (fun k => Spec.supported k = true) (fcst_competition_metrics m) ->
  exists s1,
    Modeler.train_pipeline np_Inf m name (Some mdl) s
    = (Raise none_has_no_values, s1).
Proof.
  intros Hconfig Hstart Hpre Hlog Hfit Hmodel Htest Hpred Hshape Hmetrics.
  unfold Modeler.train_pipeline.
  erewrite bind_ok by reflexivity.
  erewrite bind_ok by (unfold lift; by rewrite Hstart).
  erewrite bind_ok by reflexivity.
  erewrite bind_ok by reflexivity.
  erewrite bind_ok by (unfold lift; by rewrite Hpre).
  erewrite bind_ok by (unfold lift; by rewrite Hlog).
  erewrite bind_ok by (unfold lift; by rewrite Hfit).
  erewrite bind_ok by (unfold lift; by rewrite Hmodel).
  erewrite bind_ok by reflexivity.
  simpl test_data. rewrite Htest.
  erewrite bind_ok by reflexivity.
  erewrite bind_ok by (unfold lift; by rewrite Hpred).
  erewrite bind_ok by reflexivity.
  match goal with
  | |- context [mbind _ (Modeler.evaluate_model _ ?a ?b ?c) ?st] =>
      destruct (evaluate_model_cases np_Inf a b c st)
        as [(_ & _ & l & Hev)|(Hno & _)]; [|by destruct Hno]
  end.
  erewrite bind_ok by apply Hev.
  rewrite Hconfig. erewrite bind_ok by reflexivity.
  eexists. by erewrite bind_raise by reflexivity.
Qed.

(** Claim C10.  [evaluate_model] never raises: on every input it
  returns, with nothing changed but the log.  It returns [None] exactly
  when the two arrays cannot be combined and some requested metric is
  supported; the last record of the log is then the error of the
  [except] clause.  A caller that takes the result for a dictionary
  fails in turn: on the sample backend whose forecast has the wrong
  length the training pipeline raises the attribute error of
  [None.values()]. *)
Theorem evaluate_model_never_raises (actual pred : list R)
    (metrics : list string) (s : state) :
  exists r l,
    Modeler.evaluate_model np_Inf actual pred metrics s = (Ok r, with_log s l)
    /\ (r = None <->
        Spec.broadcastable actual pred = false
        /\ Exists (fun k => Spec.supported k = true) metrics)
    /\ (r = None -> exists l', l = (l' ++ [evaluation_failed])%list)
    /\ (exists s1,
          Modeler.train_pipeline np_Inf Example.orchestrator "pmdarima_1"
            (Some Example.misshapen) Example.split_state
          = (Raise none_has_no_values, s1)).
Proof.
  destruct (evaluate_model_cases np_Inf actual pred metrics s)
    as [(Hb & Hex & l & Hev)|(Hno & out & Hev)].
  - exists None, (l ++ [evaluation_failed])%list. split; [done|].
    split; [done|]. split; [by exists l|].
    eapply (train_pipeline_none_evaluation Example.orchestrator "pmdarima_1"
              Example.misshapen Example.split_state "run" _ _ []);
      try reflexivity.
    apply Exists_cons_hd. reflexivity.
  - exists (Some out), (Spec.unsupported_log metrics). split; [done|].
    split; [split; [done|by intros ?]|]. split; [done|].
    eapply (train_pipeline_none_evaluation Example.orchestrator "pmdarima_1"
              Example.misshapen Example.split_state "run" _ _ []);
      try reflexivity.
    apply Exists_cons_hd. reflexivity.
Qed.
End Caller.

(** ** The train/test split *)

Section Split.

Lemma insert_desc_perm r l : Pd.insert_desc r l ≡ₚ r :: l.
Proof.
  induction l as [|x l IH]; simpl; [done|].
  destruct (date x <=? date r)%Z; [done|].
  rewrite IH. apply Permutation_swap.
Qed.

Lemma sort_values_desc_perm l : Pd.sort_values_desc l ≡ₚ l.
Proof.
  induction l as [|r l IH]; simpl; [done|].
  by rewrite insert_desc_perm, IH.
Qed.

Lemma insert_desc_sorted r l :
  StronglySorted date_desc l -> StronglySorted date_desc (Pd.insert_desc r l).
Proof.
  induction 1 as [|x l Hl IH Hx]; simpl.
  - repeat constructor.
  - destruct (date x <=? date r)%Z eqn:E.
    + apply Z.leb_le in E. constructor; [by constructor|].
      constructor; [unfold date_desc; lia|].
      eapply Forall_impl; [apply Hx|]. unfold date_desc. intros y Hy. simpl in *. lia.
    + apply Z.leb_gt in E. constructor; [done|].
      rewrite insert_desc_perm. constructor; [unfold date_desc; lia|done].
Qed.

Lemma sort_values_desc_sorted l : StronglySorted date_desc (Pd.sort_values_desc l).
Proof.
  induction l as [|r l IH]; simpl; [constructor|by apply insert_desc_sorted].
Qed.

Lemma slice_bound_nonneg n len :
  (0 <= n <= Z.of_nat len)%Z -> Pd.slice_bound n len = Z.to_nat n.
Proof.
  intros H. unfold Pd.slice_bound.
  destruct (n <? 0)%Z eqn:E; [apply Z.ltb_lt in E; lia|]. lia.
Qed.

Lemma sorted_split_order (l : list obs) n a b :
  StronglySorted date_desc l -> a ∈ take n l -> b ∈ drop n l -> date_desc a b.
Proof.
  intros Hl. revert n. induction Hl as [|x l Hl IH Hx]; intros n Ha Hb.
  - rewrite take_nil in Ha. by apply elem_of_nil in Ha.
  - destruct n as [|n]; simpl in *; [by apply elem_of_nil in Ha|].
    apply elem_of_cons in Ha as [->|Ha]; [|by eapply IH].
    rewrite Forall_forall in Hx. apply Hx.
    by apply (subseteq_drop n l).
Qed.
End Split.

Section SplitTheorem.

(** Claim C5, as amended.  For a test size that is not negative: when
  the data has at least twice as many rows, both splits sort the rows by
  decreasing date, take the first [n_test] rows as test set and the rest
  as training set; the two parts together are the data (as a
  permutation, hence disjoint when no row is repeated), no test row is
  older than a training row, and their sizes are rows - n_test and
  n_test.  When rows - n_test < n_test no split is made: the function
  of [mlf_project] raises the exception, while the method of [kronos]
  raises it, catches it itself, logs it and returns with the split
  unset. *)
Theorem train_test_split_partition (m : modeler) (s : state) :
  (0 <= n_test m)%Z ->
  let rows := length (data m) in
  let n := Z.to_nat (n_test m) in
  let sorted := Pd.sort_values_desc (data m) in
  let test := take n sorted in
  let train := drop n sorted in
  ((2 * n_test m <= Z.of_nat rows)%Z ->
     Modeler.train_test_split m s = (Ok tt, with_split s train test)
     /\ MlfProject.train_test_split (data m) (n_test m) s = (Ok (train, test), s)
     /\ StronglySorted date_desc sorted
     /\ test ++ train ≡ₚ data m
     /\ (NoDup (data m) -> forall r, r ∈ test -> r ∉ train)
     /\ (forall a b, a ∈ test -> b ∈ train -> (date b <= date a)%Z)
     /\ length train = (rows - n)%nat
     /\ length test = n)
  /\ ((Z.of_nat rows - n_test m < n_test m)%Z ->
     MlfProject.train_test_split (data m) (n_test m) s
     = (Raise not_enough_mlf, with_log s [split_warning_mlf])
     /\ Modeler.train_test_split m s
        = (Ok tt, with_log s [split_warning_kronos; split_error_kronos])).
Proof.
  intros Hn rows n sorted test train.
  assert (Hperm : sorted ≡ₚ data m) by apply sort_values_desc_perm.
  assert (Hlen : length sorted = rows) by (by rewrite Hperm).
  split.
  - intros Hrows.
    assert (Hlt : (Z.of_nat rows - n_test m <? n_test m)%Z = false)
      by (apply Z.ltb_ge; lia).
    assert (Hto : Pd.iloc_to (n_test m) sorted = test).
    { unfold Pd.iloc_to. rewrite slice_bound_nonneg; [done|lia]. }
    assert (Hfrom : Pd.iloc_from (n_test m) sorted = train).
    { unfold Pd.iloc_from. rewrite slice_bound_nonneg; [done|lia]. }
    split; [|split; [|split; [|split; [|split; [|split; [|split]]]]]].
    + unfold Modeler.train_test_split, try_except. fold rows. rewrite Hlt.
      fold sorted. by rewrite Hto, Hfrom.
    + unfold MlfProject.train_test_split. fold rows. rewrite Hlt.
      fold sorted. by rewrite Hto, Hfrom.
    + apply sort_values_desc_sorted.
    + unfold test, train. by rewrite take_drop.
    + intros Hnd. rewrite <- Hperm in Hnd.
      rewrite <- (take_drop n sorted) in Hnd.
      apply NoDup_app in Hnd as (_ & Hdisj & _). apply Hdisj.
    + intros a b Ha Hb.
      apply (sorted_split_order sorted n a b); [apply sort_values_desc_sorted|done..].
    + unfold train. rewrite length_drop. lia.
    + unfold test. rewrite length_take. lia.
  - intros Hrows. apply Z.ltb_lt in Hrows. split.
    + unfold MlfProject.train_test_split. fold rows. by rewrite Hrows.
    + unfold Modeler.train_test_split, try_except. fold rows. rewrite Hrows.
      py_unfold. simpl. by rewrite with_log_app.
Qed.

End SplitTheorem.

Lemma train_test_split_partition_witness :
  (0 <= n_test Example.orchestrator)%Z
  /\ (2 * n_test Example.orchestrator
      <= Z.of_nat (length (data Example.orchestrator)))%Z
  /\ Modeler.train_test_split Example.orchestrator (new_state ∅)
     = (Ok tt,
        with_split (new_state ∅)
          [Obs "k" 3 5; Obs "k" 2 6; Obs "k" 1 4] [Obs "k" 4 7]).
Proof.
  assert (H0 : (0 <= n_test Example.orchestrator)%Z) by (simpl; lia).
  assert (H2 : (2 * n_test Example.orchestrator
                <= Z.of_nat (length (data Example.orchestrator)))%Z)
    by (simpl; lia).
  split; [exact H0|]. split; [exact H2|].
  exact (proj1 (proj1 (train_test_split_partition Example.orchestrator
                         (new_state ∅) H0) H2)).
Defined.

(** C5 as stated does not hold of [Modeler.train_test_split]: with too
    few rows the method logs and returns. *)
Lemma train_test_split_swallows_failure :
  (Z.of_nat (length (data Example.short)) - n_test Example.short
   < n_test Example.short)%Z
  /\ Modeler.train_test_split Example.short (new_state ∅)
     = (Ok tt, with_log (new_state ∅) [split_warning_kronos; split_error_kronos])
  /\ ~ (exists e s', Modeler.train_test_split Example.short (new_state ∅)
                     = (Raise e, s')).
Proof.
  split; [simpl; lia|].
  assert (H : Modeler.train_test_split Example.short (new_state ∅)
     = (Ok tt, with_log (new_state ∅) [split_warning_kronos; split_error_kronos]))
    by reflexivity.
  split; [exact H|]. intros (e & s' & He). rewrite H in He. discriminate.
Qed.

(** ** The standardisation loop of the competition *)

Section Competition.

Lemma label_position_lookup labels : forall j l,
  NoDup labels -> labels !! j = Some l -> Pandas.label_position l labels = Ok j.
Proof.
  induction labels as [|l0 labels IH]; intros j l Hnd Hj; [done|].
  apply NoDup_cons in Hnd as [Hnotin Hnd].
  destruct j as [|j]; simpl in *.
  - injection Hj as ->. by rewrite String.eqb_refl.
  - destruct (String.eqb l0 l) eqn:E.
    + apply String.eqb_eq in E. subst l0.
      exfalso. apply Hnotin. by eapply list_elem_of_lookup_2.
    + by rewrite (IH j l).
Qed.

Lemma mapM_result_cons {A B} (f : A -> result B) x l :
  mapM f (x :: l) = y ← f x; k ← mapM f l; mret (y :: k).
Proof. done. Qed.

Lemma mapM_result_ok {A B} (f : A -> result B) (g : A -> B) l :
  Forall (fun x => f x = Ok (g x)) l -> mapM f l = Ok (map g l).
Proof.
  induction 1 as [|x l Hx Hl IH]; [done|].
  rewrite mapM_result_cons, Hx, IH. done.
Qed.

Lemma column_ok k t :
  Forall (fun r => is_Some (cells r !! k)) t ->
  Pandas.column k t = Ok (Table.column k t).
Proof.
  unfold Pandas.column, Table.column.
  induction 1 as [|r t [x Hx] Ht IH]; [done|].
  rewrite mapM_result_cons, IH. unfold Pandas.cell. simpl. rewrite Hx. done.
Qed.

Lemma row_upto_zero g r : Table.row_upto g 0 r = r.
Proof.
  unfold Table.row_upto, Table.with_cells. destruct r as [? ? ? ? cs ?]. simpl.
  f_equal. apply list_eq. intros i. rewrite list_lookup_imap.
  by destruct (cs !! i).
Qed.

Lemma row_upto_all g r n :
  length (cells r) = n ->
  Table.row_upto g n r = Table.with_cells r (imap g (cells r)).
Proof.
  intros Hn. unfold Table.row_upto. f_equal. apply list_eq. intros i.
  rewrite !list_lookup_imap. destruct (cells r !! i) eqn:E; [|done]. simpl.
  apply lookup_lt_Some in E.
  destruct (i <? n)%nat eqn:Hi; [done|]. apply Nat.ltb_ge in Hi. lia.
Qed.

Lemma row_upto_step g j r x :
  cells r !! j = Some x ->
  Pandas.with_cell j (Table.row_upto g j r) (g j x) = Table.row_upto g (S j) r.
Proof.
  intros Hx. unfold Pandas.with_cell, Table.row_upto, Table.with_cells. simpl.
  f_equal. apply list_eq. intros i.
  destruct (decide (i = j)) as [->|Hne].
  - rewrite list_lookup_insert_eq
      by (rewrite length_imap; by eapply lookup_lt_Some).
    rewrite list_lookup_imap, Hx. simpl.
    destruct (j <? S j)%nat eqn:E; [done|]. apply Nat.ltb_ge in E. lia.
  - rewrite list_lookup_insert_ne by done. rewrite !list_lookup_imap.
    destruct (cells r !! i); [|done]. simpl.
    destruct (i <? j)%nat eqn:E1, (i <? S j)%nat eqn:E2; try done.
    + apply Nat.ltb_lt in E1. apply Nat.ltb_ge in E2. lia.
    + apply Nat.ltb_ge in E1. apply Nat.ltb_lt in E2. lia.
Qed.

Lemma row_upto_cell g j r : cells (Table.row_upto g j r) !! j = cells r !! j.
Proof.
  unfold Table.row_upto. simpl. rewrite list_lookup_imap.
  destruct (cells r !! j); [|done]. simpl.
  destruct (j <? j)%nat eqn:E; [|done]. apply Nat.ltb_lt in E. lia.
Qed.

Lemma column_cons k r t :
  Table.column k (r :: t)
  = match cells r !! k with
    | Some x => x :: Table.column k t
    | None => Table.column k t
    end.
Proof. done. Qed.

Lemma column_upto g j t :
  Table.column j (map (Table.row_upto g j) t) = Table.column j t.
Proof.
  induction t as [|r t IH]; [done|].
  rewrite map_cons, !column_cons, row_upto_cell, IH. done.
Qed.

Lemma set_column_step g j t :
  Forall (fun r => is_Some (cells r !! j)) t ->
  Pandas.set_column j (map (g j) (Table.column j t)) (map (Table.row_upto g j) t)
  = map (Table.row_upto g (S j)) t.
Proof.
  unfold Pandas.set_column.
  induction 1 as [|r t [x Hx] Ht IH]; [done|].
  rewrite column_cons, Hx, !map_cons. simpl zip_with.
  rewrite IH. by erewrite row_upto_step.
Qed.

Lemma has_cell labels t k :
  Table.well_formed labels t -> (k < length labels)%nat ->
  Forall (fun r => is_Some (cells r !! k)) t.
Proof.
  intros Hwf Hk. eapply Forall_impl; [apply Hwf|].
  intros r Hr. simpl in Hr. apply lookup_lt_is_Some. lia.
Qed.

Lemma with_performances_twice s t1 t2 :
  with_performances (with_performances s t1) t2 = with_performances s t2.
Proof. done. Qed.

Lemma with_performances_same s : with_performances s (df_performances s) = s.
Proof. by destruct s. Qed.

Variable m : modeler.
Hypothesis labels_distinct : NoDup (fcst_competition_metrics m).

(** One turn of the loop moves the frontier of transformed columns. *)
Lemma standardize_column_step t j metric s :
  Table.well_formed (fcst_competition_metrics m) t ->
  fcst_competition_metrics m !! j = Some metric ->
  df_performances s = Table.standardize_upto j t ->
  Modeler.standardize_column m metric s
  = (Ok tt, with_performances s (Table.standardize_upto (S j) t)).
Proof.
  intros Hwf Hj Hs. unfold Modeler.standardize_column.
  erewrite bind_ok by reflexivity.
  erewrite bind_ok by (unfold lift; by rewrite (label_position_lookup _ j metric)).
  rewrite Hs. unfold Table.standardize_upto at 1 2.
  assert (Hcells : Forall (fun r => is_Some (cells r !! j)) t).
  { eapply has_cell; [done|]. by eapply lookup_lt_Some. }
  erewrite bind_ok.
  2:{ unfold lift. rewrite column_ok; [done|].
      apply Forall_map. eapply Forall_impl; [apply Hcells|].
      intros r Hr. cbv beta. by rewrite row_upto_cell. }
  rewrite column_upto.
  unfold set_performances, with_performances, set_performances. simpl.
  do 2 f_equal. unfold Table.standardize_upto.
  by rewrite <- (set_column_step (Table.shift t) j t Hcells).
Qed.

Lemma standardize_loop t : forall ms j s,
  Table.well_formed (fcst_competition_metrics m) t ->
  drop j (fcst_competition_metrics m) = ms ->
  df_performances s = Table.standardize_upto j t ->
  for_each ms (Modeler.standardize_column m) s
  = (Ok tt, with_performances s (Table.standardize_upto (j + length ms) t)).
Proof.
  induction ms as [|metric ms IH]; intros j s Hwf Hdrop Hs.
  - simpl. rewrite Nat.add_0_r, <- Hs. by rewrite with_performances_same.
  - simpl for_each.
    assert (Hj : fcst_competition_metrics m !! j = Some metric).
    { assert (H0 : drop j (fcst_competition_metrics m) !! 0%nat = Some metric)
        by (by rewrite Hdrop).
      rewrite lookup_drop, Nat.add_0_r in H0. done. }
    erewrite bind_ok by (by eapply standardize_column_step).
    rewrite (IH (S j)); [|done| |done].
    + rewrite with_performances_twice. simpl length.
      by replace (S j + length ms)%nat with (j + S (length ms))%nat by lia.
    + replace (S j) with (j + 1)%nat by lia. by rewrite <- drop_drop, Hdrop.
Qed.

Lemma standardize_upto_all t :
  Table.well_formed (fcst_competition_metrics m) t ->
  Table.standardize_upto (length (fcst_competition_metrics m)) t
  = Table.standardize t.
Proof.
  intros Hwf. unfold Table.standardize_upto, Table.standardize.
  apply map_ext_Forall. eapply Forall_impl; [apply Hwf|].
  intros r Hr. by apply row_upto_all.
Qed.

Lemma standardize_upto_zero t : Table.standardize_upto 0 t = t.
Proof.
  unfold Table.standardize_upto. rewrite <- (map_id t) at 3.
  apply map_ext. intros r. apply row_upto_zero.
Qed.

(** The standardisation loop of [competition]. *)
Lemma standardize_all s :
  Table.well_formed (fcst_competition_metrics m) (df_performances s) ->
  for_each (fcst_competition_metrics m) (Modeler.standardize_column m) s
  = (Ok tt, with_performances s (Table.standardize (df_performances s))).
Proof.
  intros Hwf.
  rewrite (standardize_loop (df_performances s) _ 0 s); try done.
  - simpl. by rewrite standardize_upto_all.
  - by rewrite standardize_upto_zero.
Qed.

End Competition.

(** ** Scores and the winner *)

Section Scores.
Local Open Scope R_scope.
Local Open Scope list_scope.

Lemma sum_mul_weighted xs ws :
  Np.sum (zip_with Rmult xs ws) = Spec.weighted_sum xs ws.
Proof.
  revert ws. induction xs as [|x xs IH]; intros [|w ws]; simpl; try done.
  by rewrite IH.
Qed.

Lemma least_so_far_first_minimum pre best ibest :
  least_so_far pre best ibest -> Spec.first_minimum pre ibest.
Proof. intros H. by exists best. Qed.

Lemma argmin_from_spec xs : forall pre best ibest,
  least_so_far pre best ibest ->
  Spec.first_minimum (pre ++ xs)
    (Pd.argmin_from best ibest (length pre) xs).
Proof.
  induction xs as [|x xs IH]; intros pre best ibest (Hb & Hle & Hlt); simpl.
  - rewrite app_nil_r. by exists best.
  - assert (Hi : (ibest < length pre)%nat) by (by eapply lookup_lt_Some).
    replace (pre ++ x :: xs) with ((pre ++ [x]) ++ xs) by (by rewrite <- app_assoc).
    replace (S (length pre)) with (length (pre ++ [x]))
      by (rewrite length_app; simpl; lia).
    destruct (Rlt_dec x best) as [Hx|Hx]; apply IH; repeat split.
    + by rewrite lookup_app_r, Nat.sub_diag.
    + intros j y Hj. apply lookup_app_Some in Hj as [Hj|[_ Hj]].
      * apply Hle in Hj. lra.
      * apply list_lookup_singleton_Some in Hj as [_ <-]. lra.
    + intros j y Hjlt Hj. rewrite lookup_app_l in Hj by done.
      apply Hle in Hj. lra.
    + by rewrite lookup_app_l.
    + intros j y Hj. apply lookup_app_Some in Hj as [Hj|[_ Hj]].
      * by eapply Hle.
      * apply list_lookup_singleton_Some in Hj as [_ <-]. lra.
    + intros j y Hjlt Hj. rewrite lookup_app_l in Hj by lia. by eapply Hlt.
Qed.

Lemma argmin_spec xs :
  xs <> [] -> exists k, Pd.argmin xs = Ok k /\ Spec.first_minimum xs k.
Proof.
  destruct xs as [|x xs]; [done|]. intros _. eexists. split; [done|].
  apply (argmin_from_spec xs [x] x 0). repeat split.
  - intros j y Hj. apply list_lookup_singleton_Some in Hj as [_ <-]. lra.
  - intros j y Hj. lia.
Qed.

End Scores.

Section Winner.
Variable m : modeler.
Hypothesis labels_distinct : NoDup (fcst_competition_metrics m).
Hypothesis one_weight_per_metric :
  length (fcst_competition_metric_weights m)
  = length (fcst_competition_metrics m).

Lemma row_cells_by_label r : forall ms j,
  length (cells r) = length (fcst_competition_metrics m) ->
  drop j (fcst_competition_metrics m) = ms ->
  mapM (fun _metric =>
          k ← Pandas.label_position _metric (fcst_competition_metrics m);
          Pandas.cell k r) ms
  = Ok (drop j (cells r)).
Proof.
  induction ms as [|metric ms IH]; intros j Hlen Hdrop.
  - assert (Hj : (length (fcst_competition_metrics m) <= j)%nat).
    { apply (f_equal length) in Hdrop. rewrite length_drop in Hdrop. simpl in Hdrop. lia. }
    rewrite drop_ge by lia. done.
  - assert (Hj : fcst_competition_metrics m !! j = Some metric).
    { assert (H0 : drop j (fcst_competition_metrics m) !! 0%nat = Some metric)
        by (by rewrite Hdrop).
      rewrite lookup_drop, Nat.add_0_r in H0. done. }
    destruct (lookup_lt_is_Some_2 (cells r) j) as [x Hx].
    { rewrite Hlen. by eapply lookup_lt_Some. }
    rewrite mapM_result_cons, (label_position_lookup _ j metric) by done.
    rewrite (IH (S j)); [|done|].
    + unfold Pandas.cell. simpl. rewrite Hx. simpl.
      by rewrite (drop_S _ x j).
    + replace (S j) with (j + 1)%nat by lia. by rewrite <- drop_drop, Hdrop.
Qed.

Lemma row_error_avg_ok r :
  length (cells r) = length (fcst_competition_metrics m) ->
  Modeler.row_error_avg m r
  = Ok (Table.composite (fcst_competition_metric_weights m) r).
Proof.
  intros Hlen. unfold Modeler.row_error_avg.
  rewrite (row_cells_by_label r _ 0) by done. rewrite drop_0. simpl.
  unfold Np.mul, Np.broadcast.
  rewrite Hlen, <- one_weight_per_metric, Nat.eqb_refl. simpl.
  by rewrite sum_mul_weighted.
Qed.

Lemma standardize_well_formed t :
  Table.well_formed (fcst_competition_metrics m) t ->
  Table.well_formed (fcst_competition_metrics m) (Table.standardize t).
Proof.
  intros Hwf. unfold Table.standardize. apply Forall_map.
  eapply Forall_impl; [apply Hwf|]. intros r Hr. simpl.
  by rewrite length_imap.
Qed.

Lemma zip_with_scores ws t :
  zip_with Pandas.with_error_avg t (map (Table.composite ws) t)
  = Table.scored ws t.
Proof. induction t as [|r t IH]; simpl; [done|]. by rewrite IH. Qed.

(** What [competition] computes on a table with a row. *)
Lemma competition_runs s :
  Table.well_formed (fcst_competition_metrics m) (df_performances s) ->
  df_performances s <> [] ->
  let ws := fcst_competition_metric_weights m in
  let t' := Table.scored ws (Table.standardize (df_performances s)) in
  exists k winner,
    Spec.first_minimum (map (Table.composite ws) t') k
    /\ t' !! k = Some winner
    /\ Modeler.competition m s
       = (Ok tt, with_winner (with_performances s t') (model_name winner)).
Proof.
  intros Hwf Hne ws t'.
  set (t1 := Table.standardize (df_performances s)).
  assert (Hscores : map (Table.composite ws) t' = map (Table.composite ws) t1).
  { unfold t', Table.scored. fold t1. rewrite map_map. done. }
  destruct (argmin_spec (map (Table.composite ws) t1)) as (k & Hk & Hmin).
  { unfold t1, Table.standardize. destruct (df_performances s); done. }
  pose proof Hmin as (x & Hx & _).
  apply list_lookup_fmap_Some in Hx as (r1 & _ & Hr1).
  exists k, (Pandas.with_error_avg r1 (Table.composite ws r1)).
  assert (Hwin : Table.scored ws t1 !! k
                 = Some (Pandas.with_error_avg r1 (Table.composite ws r1))).
  { unfold Table.scored. by rewrite list_lookup_fmap, Hr1. }
  split; [by rewrite Hscores|]. split; [exact Hwin|].
  unfold Modeler.competition. apply try_ok.
  erewrite bind_ok by (by apply standardize_all).
  erewrite bind_ok by reflexivity.
  erewrite bind_ok.
  2:{ unfold lift. simpl df_performances. fold t1.
      rewrite (mapM_result_ok _ (Table.composite ws)); [done|].
      eapply Forall_impl; [by apply standardize_well_formed|].
      intros r Hr. by apply row_error_avg_ok. }
  erewrite bind_ok by reflexivity.
  erewrite bind_ok by (unfold lift; by rewrite Hk).
  erewrite bind_ok by reflexivity.
  erewrite bind_ok.
  2:{ unfold lift, Pandas.iloc_name. simpl df_performances.
      rewrite zip_with_scores. by rewrite Hwin. }
  done.
Qed.
End Winner.

(** ** The transform of the competition *)

Section Standardization.
Variable m : modeler.
Hypothesis labels_distinct : NoDup (fcst_competition_metrics m).

Lemma mapM_result_length {A B} (f : A -> result B) l : forall k,
  mapM f l = Ok k -> length k = length l.
Proof.
  induction l as [|x l IH]; intros k; [by intros [= <-]|].
  rewrite mapM_result_cons. destruct (f x) as [y|e]; [|done]. simpl.
  destruct (mapM f l) as [k'|e]; [|done]. simpl. intros [= <-]. simpl.
  by rewrite (IH k').
Qed.

Lemma zip_error_avg_cells t : forall scores,
  length scores = length t ->
  map cells (zip_with Pandas.with_error_avg t scores) = map cells t
  /\ map model_name (zip_with Pandas.with_error_avg t scores) = map model_name t.
Proof.
  induction t as [|r t IH]; intros [|x scores] Hlen; simpl in *; try done.
  destruct (IH scores) as [-> ->]; [lia|done].
Qed.

(** Whatever becomes of the scoring, [competition] returns and leaves
    the table with every metric column transformed. *)
Lemma competition_table s :
  Table.well_formed (fcst_competition_metrics m) (df_performances s) ->
  exists s',
    Modeler.competition m s = (Ok tt, s')
    /\ map cells (df_performances s')
       = map cells (Table.standardize (df_performances s))
    /\ map model_name (df_performances s')
       = map model_name (Table.standardize (df_performances s)).
Proof.
  intros Hwf. unfold Modeler.competition, try_except.
  erewrite bind_ok by (by apply standardize_all).
  erewrite bind_ok by reflexivity.
  set (t1 := Table.standardize (df_performances s)).
  simpl df_performances.
  destruct (mapM (Modeler.row_error_avg m) t1) as [scores|e] eqn:Hscores.
  2:{ erewrite bind_raise by reflexivity.
      eexists. split; [reflexivity|]. done. }
  erewrite bind_ok by reflexivity.
  erewrite bind_ok by reflexivity.
  apply mapM_result_length in Hscores.
  destruct (zip_error_avg_cells t1 scores Hscores) as [Hc Hn].
  destruct (Pd.argmin scores) as [k|e] eqn:Hk.
  2:{ erewrite bind_raise by reflexivity.
      eexists. split; [reflexivity|]. done. }
  erewrite bind_ok by reflexivity.
  erewrite bind_ok by reflexivity.
  simpl df_performances.
  destruct (Pandas.iloc_name k (zip_with Pandas.with_error_avg t1 scores))
    as [name|e] eqn:Hname.
  2:{ erewrite bind_raise by reflexivity.
      eexists. split; [reflexivity|]. done. }
  erewrite bind_ok by reflexivity.
  eexists. split; [reflexivity|]. done.
Qed.

Lemma standardize_lookup t i r k x :
  t !! i = Some r -> cells r !! k = Some x ->
  exists r', Table.standardize t !! i = Some r'
    /\ model_name r' = model_name r
    /\ cells r' !! k = Some (Table.shift t k x).
Proof.
  intros Hr Hx. eexists. split.
  - unfold Table.standardize. by rewrite list_lookup_fmap, Hr.
  - split; [done|]. simpl. by rewrite list_lookup_imap, Hx.
Qed.

Lemma example_column :
  Table.column 0 Example.table = [0; 2; 4]%R.
Proof. done. Qed.

Lemma example_mean : Pd.mean [0; 2; 4]%R = 2%R.
Proof. unfold Pd.mean. simpl. lra. Qed.

Lemma example_std : Pd.std [0; 2; 4]%R = 2%R.
Proof.
  unfold Pd.std. rewrite example_mean. simpl.
  replace ((0 - 2) * ((0 - 2) * 1) + ((2 - 2) * ((2 - 2) * 1) + ((4 - 2) * ((4 - 2) * 1) + 0)))%R
    with 8%R by lra.
  replace (8 / (1 + 1 + 1 - 1))%R with (2 * 2)%R by lra.
  apply sqrt_square. lra.
Qed.

(** Claim C1.  On a table with one cell per metric label (labels
  distinct), [competition] returns and every cell [x] of every row has
  become [x - mean / std], mean and std being those of the cell's column
  over all rows before the step; the rows keep their order and names.
  The transform is not the z-score: in the sample column 0, 2, 4 (mean
  2, std 2) the value 2 becomes 1, where (x - mean) / std gives 0. *)
Theorem competition_standardization (s : state) :
  Table.well_formed (fcst_competition_metrics m) (df_performances s) ->
  (exists s',
     Modeler.competition m s = (Ok tt, s')
     /\ length (df_performances s') = length (df_performances s)
     /\ forall i r k x,
         df_performances s !! i = Some r -> cells r !! k = Some x ->
         exists r', df_performances s' !! i = Some r'
           /\ model_name r' = model_name r
           /\ cells r' !! k
              = Some (x - Pd.mean (Table.column k (df_performances s))
                          / Pd.std (Table.column k (df_performances s)))%R)
  /\ (Table.shift Example.table 0 2 = 1
      /\ Spec.z_score (Pd.mean (Table.column 0 Example.table))
           (Pd.std (Table.column 0 Example.table)) 2 = 0)%R.
Proof.
  intros Hwf. split.
  - destruct (competition_table s Hwf) as (s' & Hrun & Hcells & Hnames).
    exists s'. split; [done|]. split.
    { apply (f_equal length) in Hcells. rewrite !length_map in Hcells.
      rewrite Hcells. unfold Table.standardize. by rewrite length_map. }
    intros i r k x Hr Hx.
    destruct (standardize_lookup _ i r k x Hr Hx) as (r1 & Hr1 & Hn1 & Hc1).
    assert (Hi : map cells (df_performances s') !! i = Some (cells r1))
      by (by rewrite Hcells, list_lookup_fmap, Hr1).
    apply list_lookup_fmap_Some in Hi as (r' & Hcr' & Hr').
    exists r'. split; [done|]. split.
    + assert (Hni : map model_name (df_performances s') !! i = Some (model_name r1))
        by (by rewrite Hnames, list_lookup_fmap, Hr1).
      rewrite list_lookup_fmap, Hr' in Hni. simpl in Hni. congruence.
    + by rewrite <- Hcr', Hc1.
  - unfold Table.shift, Spec.z_score.
    rewrite example_column, example_mean, example_std. split; lra.
Qed.
End Standardization.

Lemma competition_standardization_witness :
  Table.well_formed (fcst_competition_metrics Example.judge)
    (df_performances Example.scored_state)
  /\ exists s' r',
      Modeler.competition Example.judge Example.scored_state
      = (Ok tt, s')
      /\ df_performances s' !! 1%nat = Some r'
      /\ cells r' !! 0%nat
         = Some (2 - Pd.mean (Table.column 0 Example.table)
                     / Pd.std (Table.column 0 Example.table))%R.
Proof.
  assert (Hwf : Table.well_formed
            (fcst_competition_metrics Example.judge)
            (df_performances Example.scored_state))
    by (repeat constructor).
  assert (Hnd : NoDup (fcst_competition_metrics Example.judge))
    by (apply NoDup_singleton).
  split; [exact Hwf|].
  destruct (competition_standardization Example.judge Hnd
              Example.scored_state Hwf) as [(s' & Hrun & _ & Hcell) _].
  destruct (Hcell 1%nat (Example.row "b" 2) 0%nat 2%R eq_refl eq_refl)
    as (r' & Hr' & _ & Hc).
  exists s', r'. split; [exact Hrun|]. split; [exact Hr'|exact Hc].
Defined.

(** ** The composite score and the winner *)

Section WinnerTheorem.
Variable m : modeler.
Hypothesis labels_distinct : NoDup (fcst_competition_metrics m).
Hypothesis one_weight_per_metric :
  length (fcst_competition_metric_weights m)
  = length (fcst_competition_metrics m).

(** The competition in exact arithmetic, away from the divisions by
  zero.  On a non-empty table none of whose metric columns has a zero
  standard deviation, with one weight per metric and weights that do not
  add up to zero, [competition] leaves in every row the composite
  score: the sum of the row's standardized cells each times the weight
  at the same position, divided by the sum of the weights.  The winner
  is the row at the first position whose score is least. *)
Theorem competition_winner (s : state) :
  Table.well_formed (fcst_competition_metrics m) (df_performances s) ->
  df_performances s <> [] ->
  (forall k, (k < length (fcst_competition_metrics m))%nat ->
     Pd.std (Table.column k (df_performances s)) <> 0%R) ->
  Np.sum (fcst_competition_metric_weights m) <> 0%R ->
  let ws := fcst_competition_metric_weights m in
  exists s' k winner,
    Modeler.competition m s = (Ok tt, s')
    /\ df_performances s'
       = Table.scored ws (Table.standardize (df_performances s))
    /\ (forall i r, df_performances s' !! i = Some r ->
          error_avg r = Some (Spec.weighted_sum (cells r) ws / Np.sum ws)%R)
    /\ Spec.first_minimum
         (map (fun r => Spec.weighted_sum (cells r) ws / Np.sum ws)%R
              (df_performances s')) k
    /\ df_performances s' !! k = Some winner
    /\ winning_model_name s' = Some (model_name winner).
Proof.
  intros Hwf Hne _ _ ws.
  destruct (competition_runs m labels_distinct one_weight_per_metric s Hwf Hne)
    as (k & winner & Hmin & Hwinner & Hrun).
  eexists _, k, winner. split; [exact Hrun|].
  split; [done|]. split; [|split; [exact Hmin|split; [exact Hwinner|done]]].
  intros i r Hr. simpl in Hr. unfold Table.scored in Hr.
  apply list_lookup_fmap_Some in Hr as (r0 & -> & _). done.
Qed.
End WinnerTheorem.

Lemma competition_winner_witness :
  NoDup (fcst_competition_metrics Example.judge)
  /\ length (fcst_competition_metric_weights Example.judge)
     = length (fcst_competition_metrics Example.judge)
  /\ Table.well_formed (fcst_competition_metrics Example.judge)
       (df_performances Example.scored_state)
  /\ df_performances Example.scored_state <> []
  /\ exists s' winner,
       Modeler.competition Example.judge Example.scored_state
       = (Ok tt, s')
       /\ winning_model_name s' = Some (model_name winner).
Proof.
  assert (Hnd : NoDup (fcst_competition_metrics Example.judge))
    by (apply NoDup_singleton).
  assert (Hws : length (fcst_competition_metric_weights Example.judge)
                = length (fcst_competition_metrics Example.judge))
    by reflexivity.
  assert (Hwf : Table.well_formed
            (fcst_competition_metrics Example.judge)
            (df_performances Example.scored_state))
    by (repeat constructor).
  assert (Hne : df_performances Example.scored_state <> []) by discriminate.
  split; [exact Hnd|]. split; [exact Hws|]. split; [exact Hwf|]. split; [exact Hne|].
  destruct (competition_winner Example.judge Hnd Hws
              Example.scored_state Hwf Hne)
    as (s' & k & winner & Hrun & _ & _ & _ & _ & Hname).
  - intros k Hk. simpl in Hk. assert (k = 0%nat) as -> by lia.
    simpl df_performances. rewrite example_column, example_std. lra.
  - simpl. lra.
  - exists s', winner. split; [exact Hrun|exact Hname].
Defined.

(** Claim C7: where the code departs from it.  Two candidates, a and b
  in this order, have the same value of the first metric, so the
  standard deviation of that column is zero and the standardisation
  divides zero by zero: every cell of the column is NaN, and so is the
  score of both rows.  The argmin of a column of nothing but NaN is
  answered with -1, and position -1 is the last row: b is the winner,
  not the first row of the least score. *)
Theorem competition_winner_degenerate :
  exists t',
    Binary64.competition 2 Sample7.halves Sample7.tied_first_metric
    = Ok (t', "b")
    /\ map Binary64.name t' = ["a"; "b"]
    /\ map Binary64.error_avg t' = [Some nan; Some nan]
    /\ Binary64.argmin [nan; nan] = Ok (-1)%Z.
Proof.
  eexists. split; [vm_compute; reflexivity|].
  split; [reflexivity|]. split; reflexivity.
Qed.

(** In the sample table the first row has the least score and wins. *)
Lemma example_winner :
  exists s', Modeler.competition Example.judge Example.scored_state
             = (Ok tt, s')
             /\ winning_model_name s' = Some "a".
Proof.
  destruct (competition_runs Example.judge
              (NoDup_singleton _) eq_refl Example.scored_state)
    as (k & winner & Hmin & Hwinner & Hrun).
  { repeat constructor. }
  { discriminate. }
  eexists. split; [exact Hrun|]. simpl winning_model_name. f_equal.
  destruct Hmin as (x & Hx & Hle & Hlt).
  assert (Hshift : forall v, Table.shift Example.table 0 v = (v - 1)%R).
  { intros v. unfold Table.shift. rewrite example_column, example_mean, example_std. lra. }
  destruct k as [|[|[|k]]]; simpl in *.
  - by injection Hwinner as <-.
  - exfalso. injection Hx as <-.
    specialize (Hlt 0%nat _ (Nat.lt_0_succ _) eq_refl).
    rewrite !Hshift in Hlt. unfold Table.composite in Hlt. simpl in Hlt. lra.
  - exfalso. injection Hx as <-.
    specialize (Hlt 0%nat _ (Nat.lt_0_succ _) eq_refl).
    rewrite !Hshift in Hlt. unfold Table.composite in Hlt. simpl in Hlt. lra.
  - done.
Qed.

(** ** Prediction and its fallback *)

Section Prediction.
Variable construct :
  string -> modeler -> model_config -> option artifact -> result krns_model.

Lemma fallback_no_history m s :
  Naive.history m = [] ->
  Modeler.fallback m s = (Raise no_history_error, s).
Proof.
  intros H. unfold Modeler.fallback. fold (Naive.history m). rewrite H. done.
Qed.

Lemma sort_values_desc_nil l : Pd.sort_values_desc l = [] -> l = [].
Proof.
  intros H. apply Permutation_nil_r. rewrite <- H.
  by rewrite sort_values_desc_perm.
Qed.

Lemma fallback_with_history m s :
  Naive.history m <> [] -> exists p, Modeler.fallback m s = (Ok p, s).
Proof.
  intros H. unfold Modeler.fallback. fold (Naive.history m).
  destruct (Naive.history m) as [|r h] eqn:Hh; [done|].
  destruct (Pd.sort_values_desc (r :: h)) as [|r0 sorted] eqn:Hs.
  { by apply sort_values_desc_nil in Hs. }
  simpl Pandas.max_date. py_unfold. simpl. eauto.
Qed.

Lemma finish_nonnegative m p :
  Forall (fun r => (0 <= p_value r)%R) (Modeler.finish m p).
Proof.
  unfold Modeler.finish. apply Forall_map, Forall_forall. intros x _. simpl.
  destruct (Rle_dec 0 (f_value x)); lra.
Qed.

(** What [prediction] does, by the outcome of the primary path and the
    presence of history. *)
Lemma prediction_cases m s :
  (exists p s1, Modeler.primary_forecast construct m s = (Ok p, s1)
      /\ Modeler.prediction construct m s = (Ok (Modeler.finish m p), s1))
  \/ (exists e s1 p, Modeler.primary_forecast construct m s = (Raise e, s1)
      /\ Naive.history m <> []
      /\ Modeler.fallback m (with_log s1 [prediction_failed e])
         = (Ok p, with_log s1 [prediction_failed e])
      /\ Modeler.prediction construct m s
         = (Ok (Modeler.finish m p), with_log s1 [prediction_failed e]))
  \/ (exists e s1, Modeler.primary_forecast construct m s = (Raise e, s1)
      /\ Naive.history m = []
      /\ Modeler.prediction construct m s
         = (Raise no_history_error, with_log s1 [prediction_failed e])).
Proof.
  unfold Modeler.prediction.
  destruct (Modeler.primary_forecast construct m s) as [[p|e] s1] eqn:Hp.
  - left. exists p, s1. split; [done|].
    by erewrite bind_ok by (by apply try_ok).
  - right. destruct (Naive.history m) as [|r h] eqn:Hh.
    + right. exists e, s1. split; [done|]. split; [done|].
      erewrite bind_raise; [done|]. erewrite try_raise by done.
      erewrite bind_ok by reflexivity. by apply fallback_no_history.
    + left.
      destruct (fallback_with_history m (with_log s1 [prediction_failed e]))
        as [p Hf]; [by rewrite Hh|].
      exists e, s1, p. split; [done|]. split; [done|]. split; [done|].
      erewrite bind_ok; [done|]. erewrite try_raise by done.
      by erewrite bind_ok by reflexivity.
Qed.

End Prediction.

(** ** The fallback scenario *)

Section Fallback.
Variable construct :
  string -> modeler -> model_config -> option artifact -> result krns_model.
Local Open Scope Z_scope.

Lemma fold_max_bounds d l :
  let mx := fold_right Z.max d l in
  (mx = d \/ mx ∈ l) /\ d <= mx /\ forall x, x ∈ l -> x <= mx.
Proof.
  induction l as [|y l IH]; simpl.
  - split; [by left|]. split; [lia|]. intros x Hx. by apply elem_of_nil in Hx.
  - destruct IH as ([Hd|Hin] & Hle & Hall).
    + split; [|split; [lia|]].
      * destruct (Z.max_spec y (fold_right Z.max d l)) as [[_ ->]|[_ ->]].
        -- by left.
        -- right. apply list_elem_of_here.
      * intros x [->|Hx]%elem_of_cons; [lia|]. apply Hall in Hx. lia.
    + split; [|split; [lia|]].
      * right. destruct (Z.max_spec y (fold_right Z.max d l)) as [[_ ->]|[_ ->]].
        -- by apply list_elem_of_further.
        -- apply list_elem_of_here.
      * intros x [->|Hx]%elem_of_cons; [lia|]. apply Hall in Hx. lia.
Qed.





End Fallback.



(** ** Prediction over the range of dates *)

Section DatedPrediction.
Variable construct :
  string -> modeler -> model_config -> option artifact -> result krns_model.
Local Open Scope Z_scope.

Lemma elem_of_py_range lo hi x : x ∈ py_range lo hi <-> lo <= x < hi.
Proof.
  unfold py_range. rewrite list_elem_of_fmap. split.
  - intros (i & -> & Hi). apply elem_of_seq in Hi. lia.
  - intros Hx. exists (Z.to_nat (x - lo)). split; [lia|].
    apply elem_of_seq. lia.
Qed.

Lemma add_days_in_range D x :
  Calendar.min_day <= D + x <= Calendar.max_day -> 0 <= x <= Calendar.max_day ->
  Calendar.add_days D x = Ok (D + x).
Proof.
  intros HD Hx. unfold Calendar.add_days, Calendar.max_day in *.
  destruct (999999999 <? Z.abs x) eqn:E; [apply Z.ltb_lt in E; lia|].
  destruct (Calendar.min_day <=? D + x) eqn:E1; [|apply Z.leb_gt in E1; lia].
  destruct (D + x <=? 3652059) eqn:E2; [done|apply Z.leb_gt in E2; lia].
Qed.

Lemma days_in_range D h :
  Calendar.min_day <= D -> D + h <= Calendar.max_day ->
  mapM (Calendar.add_days D) (py_range 1 (h + 1))
  = Ok (map (fun x => D + x) (py_range 1 (h + 1))).
Proof.
  intros HD Hh. apply mapM_result_ok, Forall_forall. intros x Hx.
  apply elem_of_py_range in Hx. unfold Calendar.min_day in *.
  apply add_days_in_range; unfold Calendar.min_day; lia.
Qed.

Lemma py_range_step lo hi :
  lo < hi -> py_range lo hi = lo :: py_range (lo + 1) hi.
Proof.
  intros H. unfold py_range.
  replace (Z.to_nat (hi - lo)) with (S (Z.to_nat (hi - (lo + 1)))) by lia.
  simpl. f_equal; [lia|].
  rewrite <- seq_shift, map_map. apply map_ext. intros i. lia.
Qed.

(** The first day past the last date stops the list of days. *)
Lemma days_out_of_range D h :
  Calendar.min_day <= D <= Calendar.max_day -> Calendar.max_day < D + h ->
  mapM (Calendar.add_days D) (py_range 1 (h + 1))
  = Raise (OverflowError "date value out of range").
Proof.
  intros HD Hh.
  assert (Hsplit : forall k lo, Z.to_nat (Calendar.max_day + 1 - D - lo) = k ->
            1 <= lo -> lo <= Calendar.max_day + 1 - D ->
            mapM (Calendar.add_days D) (py_range lo (h + 1))
            = Raise (OverflowError "date value out of range")).
  { unfold Calendar.min_day, Calendar.max_day in *.
    induction k as [|k IH]; intros lo Hk Hlo Hle.
    - rewrite py_range_step, mapM_result_cons by lia.
      assert (Hhead : Calendar.add_days D lo
                      = Raise (OverflowError "date value out of range")).
      { unfold Calendar.add_days.
        destruct (999999999 <? Z.abs lo) eqn:E; [apply Z.ltb_lt in E; lia|].
        unfold Calendar.min_day, Calendar.max_day.
        destruct (D + lo <=? 3652059) eqn:E2; [apply Z.leb_le in E2; lia|].
        by rewrite andb_false_r. }
      by rewrite Hhead.
    - rewrite py_range_step, mapM_result_cons by lia.
      rewrite add_days_in_range
        by (unfold Calendar.min_day, Calendar.max_day; lia).
      by rewrite (IH (lo + 1)) by lia. }
  apply (Hsplit (Z.to_nat (Calendar.max_day + 1 - D - 1)) 1);
    unfold Calendar.min_day, Calendar.max_day in *; lia.
Qed.

Lemma max_date_elem l D : Pandas.max_date l = Some D -> D ∈ l.
Proof.
  destruct l as [|d l]; [done|]. simpl. intros [= <-].
  destruct (fold_max_bounds d l) as ([->|Hin] & _).
  - apply list_elem_of_here.
  - by apply list_elem_of_further.
Qed.

(** Within the range of dates the two readings of the fallback agree. *)
Lemma dated_fallback_agrees m s :
  Forall (fun r => Calendar.representable (date r)) (data m) ->
  fcst_first_date m + fcst_horizon m - 1 <= Calendar.max_day ->
  Dated.fallback m s = Modeler.fallback m s.
Proof.
  intros Hdata Hlast. unfold Dated.fallback, Modeler.fallback.
  destruct (Pandas.max_date _) as [D|] eqn:Hmax; [|done].
  erewrite !bind_ok by reflexivity.
  destruct (Pd.iloc0 _) as [r0|e]; [|done].
  erewrite !bind_ok by reflexivity.
  assert (HD : Calendar.representable D).
  { apply max_date_elem, list_elem_of_fmap in Hmax as (r & -> & Hr).
    apply list_elem_of_filter in Hr as [_ Hr].
    rewrite Forall_forall in Hdata. by apply Hdata. }
  erewrite bind_ok; [reflexivity|].
  unfold lift. rewrite days_in_range; [done|apply HD|lia].
Qed.

Lemma dated_fallback_overflows m s :
  Naive.history m <> [] ->
  Forall (fun r => Calendar.representable (date r)) (data m) ->
  Calendar.max_day < fcst_first_date m + fcst_horizon m - 1 ->
  Dated.fallback m s = (Raise (OverflowError "date value out of range"), s).
Proof.
  intros Hh Hdata Hlast. unfold Dated.fallback. fold (Naive.history m).
  destruct (Pandas.max_date (map date (Naive.history m))) as [D|] eqn:Hmax.
  2:{ destruct (Naive.history m); [done|discriminate Hmax]. }
  erewrite bind_ok by reflexivity.
  destruct (Pd.sort_values_desc (Naive.history m)) as [|r0 sorted] eqn:Hs.
  { by apply sort_values_desc_nil in Hs. }
  erewrite bind_ok by reflexivity.
  assert (HD : Calendar.representable D).
  { apply max_date_elem, list_elem_of_fmap in Hmax as (r & -> & Hr).
    apply list_elem_of_filter in Hr as [_ Hr].
    rewrite Forall_forall in Hdata. by apply Hdata. }
  erewrite bind_raise; [reflexivity|].
  unfold lift. rewrite days_out_of_range; [done|apply HD|lia].
Qed.

(** What [prediction] does, by the outcome of the primary path and of
    the fallback. *)
Lemma dated_prediction_cases m s :
  (exists p s1, Modeler.primary_forecast construct m s = (Ok p, s1)
      /\ Dated.prediction construct m s = (Ok (Modeler.finish m p), s1))
  \/ (exists e s1 p, Modeler.primary_forecast construct m s = (Raise e, s1)
      /\ Dated.fallback m (with_log s1 [prediction_failed e])
         = (Ok p, with_log s1 [prediction_failed e])
      /\ Dated.prediction construct m s
         = (Ok (Modeler.finish m p), with_log s1 [prediction_failed e]))
  \/ (exists e s1 e', Modeler.primary_forecast construct m s = (Raise e, s1)
      /\ Dated.fallback m (with_log s1 [prediction_failed e])
         = (Raise e', with_log s1 [prediction_failed e])
      /\ Dated.prediction construct m s
         = (Raise e', with_log s1 [prediction_failed e])).
Proof.
  unfold Dated.prediction.
  destruct (Modeler.primary_forecast construct m s) as [[p|e] s1] eqn:Hp.
  - left. exists p, s1. split; [done|].
    by erewrite bind_ok by (by apply try_ok).
  - right.
    assert (Hstate : forall s0, (Dated.fallback m s0).2 = s0).
    { intros s0. unfold Dated.fallback.
      destruct (Pandas.max_date _) as [D|]; [|done].
      erewrite bind_ok by reflexivity.
      destruct (Pd.iloc0 _) as [r0|e0]; [|done].
      erewrite bind_ok by reflexivity. unfold lift, mbind, py_bind.
      by destruct (mapM _ _). }
    specialize (Hstate (with_log s1 [prediction_failed e])).
    destruct (Dated.fallback m (with_log s1 [prediction_failed e]))
      as [[p|e'] s2] eqn:Hf; simpl in Hstate; subst s2.
    + left. exists e, s1, p. split; [done|]. split; [done|].
      erewrite bind_ok; [done|]. erewrite try_raise by done.
      by erewrite bind_ok by reflexivity.
    + right. exists e, s1, e'. split; [done|]. split; [done|].
      erewrite bind_raise; [done|]. erewrite try_raise by done.
      by erewrite bind_ok by reflexivity.
Qed.

(** Claim C3, as amended.  When some row of the data is dated before
  [fcst_first_date] and the last day of the horizon,
  [fcst_first_date + fcst_horizon - 1], is still a date, [prediction]
  returns a frame and raises nothing: either the primary path returned
  and the frame is its forecast, or it raised, the failure is logged,
  and the frame is the naive forecast of the fallback. *)
Theorem prediction_returns (m : modeler) (s : state) :
  (exists r, r ∈ data m /\ date r < fcst_first_date m) ->
  Forall (fun r => Calendar.representable (date r)) (data m) ->
  fcst_first_date m + fcst_horizon m - 1 <= Calendar.max_day ->
  exists rows s',
    Dated.prediction construct m s = (Ok rows, s')
    /\ ((exists p, Modeler.primary_forecast construct m s = (Ok p, s')
                   /\ rows = Modeler.finish m p)
        \/ (exists e s1 p,
              Modeler.primary_forecast construct m s = (Raise e, s1)
              /\ s' = with_log s1 [prediction_failed e]
              /\ Dated.fallback m s' = (Ok p, s')
              /\ rows = Modeler.finish m p)).
Proof.
  intros (r & Hr & Hdate) Hdata Hlast.
  assert (Hh : Naive.history m <> []).
  { intros Hnil. assert (Hin : r ∈ Naive.history m).
    { unfold Naive.history. apply list_elem_of_filter. done. }
    rewrite Hnil in Hin. by apply elem_of_nil in Hin. }
  destruct (dated_prediction_cases m s)
    as [(p & s1 & Hp & Hrun)|[(e & s1 & p & Hp & Hf & Hrun)
                             |(e & s1 & e' & Hp & Hf & _)]].
  - exists (Modeler.finish m p), s1. split; [done|]. left. eauto.
  - eexists _, _. split; [exact Hrun|]. right. exists e, s1, p. done.
  - rewrite dated_fallback_agrees in Hf by done.
    destruct (fallback_with_history m (with_log s1 [prediction_failed e]) Hh)
      as [p Hok].
    rewrite Hok in Hf. discriminate Hf.
Qed.

(** Claim C9.  The frame that [prediction] returns is made row by row
  from the forecast of the path taken, the primary one or the fallback:
  the rows carry the dates of the forecast in its order, and the value
  of each row is the forecast value when that is not negative and zero
  when it is negative.  So no row is lost or added, and every value
  returned is at least zero. *)
Theorem prediction_nonnegative (m : modeler) (s : state)
    (rows : list prediction_row) (s' : state) :
  Dated.prediction construct m s = (Ok rows, s') ->
  exists pred,
    (Modeler.primary_forecast construct m s = (Ok pred, s')
     \/ exists e s1,
          Modeler.primary_forecast construct m s = (Raise e, s1)
          /\ s' = with_log s1 [prediction_failed e]
          /\ Dated.fallback m s' = (Ok pred, s'))
    /\ map p_date rows = map f_date pred
    /\ map p_value rows = map (fun p => Naive.clamp (f_value p)) pred
    /\ Forall (fun r => (0 <= p_value r)%R) rows
    /\ (forall x, (x < 0)%R -> Naive.clamp x = 0%R)
    /\ (forall x, (0 <= x)%R -> Naive.clamp x = x).
Proof.
  intros Hrun.
  assert (Hfinish : forall p,
    map p_date (Modeler.finish m p) = map f_date p
    /\ map p_value (Modeler.finish m p) = map (fun p => Naive.clamp (f_value p)) p
    /\ Forall (fun r => (0 <= p_value r)%R) (Modeler.finish m p)).
  { intros p. unfold Modeler.finish. rewrite !map_map. split; [done|].
    split; [done|]. apply finish_nonnegative. }
  assert (Hclamp : (forall x, (x < 0)%R -> Naive.clamp x = 0%R)
                   /\ (forall x, (0 <= x)%R -> Naive.clamp x = x)).
  { unfold Naive.clamp. split; intros x Hx; destruct (Rle_dec 0 x); lra. }
  destruct (dated_prediction_cases m s)
    as [(p & s1 & Hp & Hrun')|[(e & s1 & p & Hp & Hf & Hrun')
                              |(e & s1 & e' & _ & _ & Hrun')]];
    rewrite Hrun in Hrun'; [| |done].
  - injection Hrun' as -> ->. destruct (Hfinish p) as (H1 & H2 & H3).
    exists p. split; [by left|]. done.
  - injection Hrun' as -> ->. destruct (Hfinish p) as (H1 & H2 & H3).
    exists p. split; [right; eauto|]. done.
Qed.
End DatedPrediction.

Lemma prediction_returns_witness :
  exists rows s',
    Dated.prediction Example.no_backend Example.orchestrator (new_state ∅)
    = (Ok rows, s').
Proof.
  destruct (prediction_returns Example.no_backend Example.orchestrator
              (new_state ∅)) as (rows & s' & Hrun & _).
  - exists (Obs "k" 1 4). split; [apply list_elem_of_here|simpl; lia].
  - repeat constructor; unfold Calendar.min_day, Calendar.max_day; simpl; lia.
  - unfold Calendar.max_day. simpl. lia.
  - exists rows, s'. exact Hrun.
Defined.

Lemma prediction_nonnegative_witness :
  exists rows s',
    Dated.prediction Example.no_backend Example.negative (new_state ∅)
    = (Ok rows, s')
    /\ map p_value rows = [0; 0; 0; 0; 0]%R.
Proof.
  destruct (Dated.prediction Example.no_backend Example.negative (new_state ∅))
    as [[rows|e] s'] eqn:Hrun; [|discriminate Hrun].
  exists rows, s'. split; [reflexivity|].
  destruct (prediction_nonnegative Example.no_backend Example.negative
              (new_state ∅) rows s' Hrun)
    as (pred & Hpath & _ & Hvalues & _ & Hneg & _).
  destruct Hpath as [Hp|(e & s1 & Hp & -> & Hf)]; [discriminate Hp|].
  rewrite Hvalues. injection Hf as <-.
  simpl. rewrite !Hneg by lra. reflexivity.
Defined.

(** C3 as stated does not hold, in two ways.  With nothing historical
    the date arithmetic of the fallback raises; with history and a
    horizon that runs past the last date the sum of a date and a
    [timedelta] raises.  Both exceptions come from the [except] clause
    and reach the caller. *)
Lemma prediction_propagates_exception :
  Dated.prediction Example.no_backend Example.early (new_state ∅)
  = (Raise no_history_error,
     with_log (new_state ∅) [prediction_failed (Exception_ "no such model")])
  /\ Dated.prediction Example.no_backend Sample6.distant (new_state ∅)
     = (Raise (OverflowError "date value out of range"),
        with_log (new_state ∅) [prediction_failed (Exception_ "no such model")])
  /\ ~ (exists rows s',
          Dated.prediction Example.no_backend Example.early (new_state ∅)
          = (Ok rows, s'))
  /\ ~ (exists rows s',
          Dated.prediction Example.no_backend Sample6.distant (new_state ∅)
          = (Ok rows, s')).
Proof.
  assert (H1 : Dated.prediction Example.no_backend Example.early (new_state ∅)
    = (Raise no_history_error,
       with_log (new_state ∅) [prediction_failed (Exception_ "no such model")]))
    by reflexivity.
  assert (H2 : Dated.prediction Example.no_backend Sample6.distant (new_state ∅)
    = (Raise (OverflowError "date value out of range"),
       with_log (new_state ∅) [prediction_failed (Exception_ "no such model")])).
  { destruct (dated_prediction_cases Example.no_backend Sample6.distant
                (new_state ∅))
      as [(p & s1 & Hp & _)|[(e & s1 & p & Hp & Hf & _)
                            |(e & s1 & e' & Hp & Hf & Hrun)]];
      [discriminate Hp| |].
    - injection Hp as <- <-.
      rewrite dated_fallback_overflows in Hf; [discriminate Hf| | |].
      + discriminate.
      + repeat constructor; unfold Calendar.min_day, Calendar.max_day; simpl; lia.
      + unfold Calendar.max_day. simpl. lia.
    - injection Hp as <- <-.
      rewrite dated_fallback_overflows in Hf.
      + injection Hf as <-. exact Hrun.
      + discriminate.
      + repeat constructor; unfold Calendar.min_day, Calendar.max_day; simpl; lia.
      + unfold Calendar.max_day. simpl. lia. }
  split; [exact H1|]. split; [exact H2|]. split.
  - intros (rows & s' & Hrun). rewrite H1 in Hrun. discriminate.
  - intros (rows & s' & Hrun). rewrite H2 in Hrun. discriminate.
Qed.

(** ** Deployment through the registry *)

Section Deploy.
Variable construct :
  string -> modeler -> model_config -> option artifact -> result krns_model.
Variable today : Z.

Lemma model_generation_backend m flavor config trained s :
  Modeler.model_generation construct m flavor config trained s
  = match Gate.backend construct m flavor config trained with
    | Ok k => (Ok (Some k), s)
    | Raise e => (Ok None, with_log s [generation_failed flavor e])
    end.
Proof.
  unfold Modeler.model_generation, Gate.backend, try_except.
  py_unfold.
  destruct (String.eqb flavor "prophet");
    [by destruct (construct "prophet" m config trained)|].
  destruct (String.eqb flavor "pmdarima");
    [by destruct (construct "pmdarima" m config trained)|].
  destruct (String.eqb flavor "tensorflow");
    [by destruct (construct "tensorflow" m config trained)|].
  done.
Qed.

(** [unit_test] never raises, touches nothing but the log, and answers
    by the number of rows forecast. *)
Lemma unit_test_cases m name stg s :
  let uri := "models:/" ++ name ++ "/" ++ stage_name stg in
  exists status l,
    Modeler.unit_test construct today m name stg s = (Ok status, with_log s l)
    /\ status
       = match Gate.forecast_count construct today m (registry s) uri with
         | Some n =>
             if (Z.of_nat n =? n_unit_test m)%Z then Some "OK" else Some "KO"
         | None => None
         end.
Proof.
  intros uri. unfold Modeler.unit_test, Gate.forecast_count, try_except.
  erewrite bind_ok by reflexivity. fold uri.
  destruct (load_model (ml_flower m) (registry s) uri) as [[model flavor]|e] eqn:Hload.
  2:{ erewrite bind_raise by reflexivity.
      eexists _, _. split; [reflexivity|done]. }
  erewrite bind_ok by reflexivity.
  pose proof (model_generation_backend m flavor [] (Some model) s) as Hgen.
  destruct (Gate.backend construct m flavor [] (Some model)) as [k|e].
  2:{ erewrite bind_ok by apply Hgen.
      erewrite bind_raise by reflexivity.
      eexists _, _. split; [|done]. py_unfold. by rewrite with_log_app. }
  erewrite bind_ok by apply Hgen.
  destruct (predict k (n_unit_test m) (Some (today + 1)%Z) true) as [[p|]|e] eqn:Hpred.
  - erewrite bind_ok by (unfold lift; simpl; by rewrite ?Hpred).
    erewrite bind_ok by reflexivity.
    exists (Some (if (Z.of_nat (length p) =? n_unit_test m)%Z then "OK" else "KO")), [].
    rewrite with_log_nil. split; [done|].
    by destruct (Z.of_nat (length p) =? n_unit_test m)%Z.
  - erewrite bind_ok by (unfold lift; simpl; by rewrite ?Hpred).
    erewrite bind_raise by reflexivity.
    eexists _, _. split; [reflexivity|done].
  - erewrite bind_raise by (unfold lift; simpl; by rewrite ?Hpred).
    eexists _, _. split; [reflexivity|done].
Qed.

Lemma stage_of_promote_same g v target archive :
  Registry.stage_of (Registry.promote g v target archive) v = target.
Proof. unfold Registry.stage_of, Registry.promote. by rewrite lookup_insert_eq. Qed.

Lemma stage_of_promote_other g v u target :
  u <> v -> target <> Unregistered ->
  Registry.stage_of (Registry.promote g v target true) u
  = Registry.archive target (Registry.stage_of g u).
Proof.
  intros Hne Ht. unfold Registry.stage_of, Registry.promote.
  rewrite lookup_insert_ne by done. rewrite lookup_fmap.
  destruct (g !! u) as [st|]; simpl; [done|].
  unfold Registry.archive. by destruct (decide (Unregistered = target)).
Qed.

Lemma fresh_unregistered g : g !! Registry.fresh g = None.
Proof.
  apply not_elem_of_dom. intros Hin. unfold Registry.fresh in Hin.
  apply elem_of_elements in Hin. apply max_list_elem_of_le in Hin. lia.
Qed.

Lemma stage_of_register g u :
  Registry.stage_of (Registry.register g).2 u = Registry.stage_of g u.
Proof.
  unfold Registry.stage_of, Registry.register. simpl.
  destruct (decide (u = Registry.fresh g)) as [->|Hne].
  - by rewrite lookup_insert_eq, fresh_unregistered.
  - by rewrite lookup_insert_ne.
Qed.

(** Staging the new version leaves the versions in production alone. *)
Lemma staged_production g u :
  Registry.stage_of (Gate.staged g) u = Production
  <-> Registry.stage_of g u = Production.
Proof.
  unfold Gate.staged. destruct (decide (u = Registry.fresh g)) as [->|Hne].
  - rewrite stage_of_promote_same. unfold Registry.stage_of.
    rewrite fresh_unregistered. simpl. split; discriminate.
  - rewrite stage_of_promote_other by done. rewrite stage_of_register.
    unfold Registry.archive.
    destruct (decide (Registry.stage_of g u = Staging)) as [->|]; [|done].
    split; discriminate.
Qed.

Variable m : modeler.
Hypothesis registry_answers : Gate.registry_available (ml_flower m).

(** [deploy] up to and past the unit test. *)
Lemma deploy_runs s w winner config :
  winning_model_name s = Some w ->
  Pandas.loc w (df_performances s) = Ok winner ->
  row_config winner = Some config ->
  let v := Registry.fresh (registry s) in
  let s1 := Gate.with_registry s (Gate.staged (registry s)) in
  exists status l,
    Modeler.unit_test construct today m (key_code m) Staging s1
    = (Ok status, with_log s1 l)
    /\ Modeler.deploy construct today m s
       = (Ok tt,
          if bool_decide (status = Some "OK")
          then Gate.with_registry (with_log s1 l)
                 (Registry.promote (Gate.staged (registry s)) v Production true)
          else with_log s1 l).
Proof.
  intros Hw Hrow Hconfig v s1.
  destruct registry_answers as (Hregister & Htag & Hpromote).
  destruct (unit_test_cases m (key_code m) Staging s1) as (status & l & Hunit & _).
  exists status, l. split; [exact Hunit|].
  unfold Modeler.deploy. apply try_ok.
  erewrite bind_ok by reflexivity. rewrite Hw.
  erewrite bind_ok by (unfold lift; by rewrite Hrow).
  erewrite bind_ok.
  2:{ unfold Modeler.register_model_call.
      erewrite bind_ok by reflexivity. rewrite Hregister.
      unfold Registry.register. by erewrite bind_ok by reflexivity. }
  rewrite Hconfig. erewrite bind_ok by reflexivity.
  erewrite bind_ok.
  2:{ destruct (Dict.contains "model_flavor" config); [|reflexivity].
      unfold lift. by rewrite Htag. }
  erewrite bind_ok.
  2:{ unfold Modeler.promote_model_call.
      erewrite bind_ok by reflexivity. rewrite Hpromote.
      by erewrite bind_ok by reflexivity. }
  simpl mv_name. simpl mv_current_stage. simpl mv_version.
  erewrite bind_ok by apply Hunit.
  destruct (bool_decide (status = Some "OK")); [|done].
  erewrite bind_ok; [reflexivity|].
  unfold Modeler.promote_model_call.
  erewrite bind_ok by reflexivity. rewrite Hpromote.
  by erewrite bind_ok by reflexivity.
Qed.

(** Claim C2.  With a registry that accepts the calls, [deploy]
  registers the winner as a new version and stages it, runs the unit
  test on the staged version and returns.  The unit test answers OK
  exactly when the staged model forecasts [n_unit_test] rows; the new
  version ends in Production exactly when it answered OK, and then the
  versions that were in production are archived; on any other answer
  the new version stays in Staging and the versions in production are
  the same as before. *)
Theorem deploy_promotes_iff_unit_test_ok (s : state) (w : string)
    (winner : perf_row) (config : model_config) :
  winning_model_name s = Some w ->
  Pandas.loc w (df_performances s) = Ok winner ->
  row_config winner = Some config ->
  let v := Registry.fresh (registry s) in
  let staged := Gate.staged (registry s) in
  exists status l s',
    Modeler.unit_test construct today m (key_code m) Staging
      (Gate.with_registry s staged)
    = (Ok status, with_log (Gate.with_registry s staged) l)
    /\ Modeler.deploy construct today m s = (Ok tt, s')
    /\ Registry.stage_of staged v = Staging
    /\ (status = Some "OK" <->
        exists n, Gate.forecast_count construct today m staged
                    ("models:/" ++ key_code m ++ "/Staging") = Some n
                  /\ Z.of_nat n = n_unit_test m)
    /\ (status = Some "OK" <-> Registry.stage_of (registry s') v = Production)
    /\ (status = Some "OK" ->
        forall u, u <> v -> Registry.stage_of (registry s) u = Production ->
                  Registry.stage_of (registry s') u = Archived)
    /\ (status <> Some "OK" ->
        Registry.stage_of (registry s') v = Staging
        /\ forall u, Registry.stage_of (registry s') u = Production
                     <-> Registry.stage_of (registry s) u = Production).
Proof.
  intros Hw Hrow Hconfig v staged.
  destruct (deploy_runs s w winner config Hw Hrow Hconfig)
    as (status & l & Hunit & Hdeploy).
  fold staged in Hunit, Hdeploy. fold v in Hdeploy.
  assert (Hv : Registry.stage_of staged v = Staging)
    by apply stage_of_promote_same.
  eexists status, l, _. split; [exact Hunit|]. split; [exact Hdeploy|].
  split; [exact Hv|]. split.
  { destruct (unit_test_cases m (key_code m) Staging (Gate.with_registry s staged))
      as (status' & l' & Hunit' & Hstatus).
    rewrite Hunit in Hunit'. injection Hunit' as <- _.
    simpl registry in Hstatus. simpl stage_name in Hstatus. rewrite Hstatus.
    destruct (Gate.forecast_count _ _ _ _ _) as [n|].
    - destruct (Z.of_nat n =? n_unit_test m)%Z eqn:E.
      + apply Z.eqb_eq in E. split; [eauto|done].
      + apply Z.eqb_neq in E. split; [done|]. intros (n' & [= <-] & Hn). done.
    - split; [done|]. intros (n' & Hn & _). done. }
  destruct (bool_decide (status = Some "OK")) eqn:Hok.
  - apply bool_decide_eq_true in Hok. simpl registry.
    split; [split; [intros _; apply stage_of_promote_same|done]|].
    split; [|done].
    intros _ u Hu Hprod. rewrite stage_of_promote_other by done.
    apply staged_production in Hprod. fold staged in Hprod. rewrite Hprod.
    unfold Registry.archive. by destruct (decide (Production = Production)).
  - apply bool_decide_eq_false in Hok. simpl registry.
    split; [split; [done|intros Hp; rewrite Hv in Hp; discriminate]|].
    split; [done|]. intros _. split; [exact Hv|].
    intros u. apply staged_production.
Qed.
End Deploy.

Lemma deploy_promotes_iff_unit_test_ok_witness :
  Gate.registry_available (ml_flower Example.deployer)
  /\ winning_model_name Example.chosen_state = Some "pmdarima_1"
  /\ Pandas.loc "pmdarima_1" (df_performances Example.chosen_state)
     = Ok Example.candidate
  /\ row_config Example.candidate = Some [("model_flavor", "pmdarima")]
  /\ exists s',
       Modeler.deploy Example.backends 0 Example.deployer
         Example.chosen_state = (Ok tt, s')
       /\ Registry.stage_of (registry s')
            (Registry.fresh (registry Example.chosen_state)) = Production.
Proof.
  assert (Ha : Gate.registry_available (ml_flower Example.deployer))
    by (repeat split; intros; reflexivity).
  split; [exact Ha|]. split; [reflexivity|]. split; [reflexivity|].
  split; [reflexivity|].
  destruct (deploy_promotes_iff_unit_test_ok Example.backends 0
              Example.deployer Ha Example.chosen_state "pmdarima_1"
              Example.candidate [("model_flavor", "pmdarima")]
              eq_refl eq_refl eq_refl)
    as (status & l & s' & _ & Hdeploy & _ & Hcount & Hprod & _).
  exists s'. split; [exact Hdeploy|]. apply Hprod, Hcount.
  exists 3%nat. split; reflexivity.
Defined.

Section Normalisation.
Variable np_Inf : R.

Lemma lower_ascii_idempotent c :
  Str.lower_ascii (Str.lower_ascii c) = Str.lower_ascii c.
Proof. destruct c as [[] [] [] [] [] [] [] []]; reflexivity. Qed.

Lemma lower_ascii_space c :
  Ascii.eqb (Str.lower_ascii c) " "%char = Ascii.eqb c " "%char.
Proof. destruct c as [[] [] [] [] [] [] [] []]; reflexivity. Qed.

Lemma lower_idempotent s : Str.lower (Str.lower s) = Str.lower s.
Proof.
  induction s as [|c s IH]; simpl; [done|].
  by rewrite lower_ascii_idempotent, IH.
Qed.

Lemma remove_spaces_idempotent s :
  Str.remove_spaces (Str.remove_spaces s) = Str.remove_spaces s.
Proof.
  induction s as [|c s IH]; simpl; [done|].
  destruct (Ascii.eqb c " "%char) eqn:E; [done|]. simpl. by rewrite E, IH.
Qed.

Lemma lower_remove_spaces s :
  Str.lower (Str.remove_spaces s) = Str.remove_spaces (Str.lower s).
Proof.
  induction s as [|c s IH]; simpl; [done|].
  rewrite lower_ascii_space.
  destruct (Ascii.eqb c " "%char); [done|]. simpl. by rewrite IH.
Qed.

Lemma normalise_idempotent metric :
  Spec.normalise (Spec.normalise metric) = Spec.normalise metric.
Proof.
  unfold Spec.normalise.
  by rewrite lower_remove_spaces, lower_idempotent, remove_spaces_idempotent.
Qed.

Lemma evaluate_step_normalise actual pred out metric :
  Modeler.evaluate_step np_Inf actual pred out (Spec.normalise metric)
  = Modeler.evaluate_step np_Inf actual pred out metric.
Proof.
  unfold Modeler.evaluate_step. fold (Spec.normalise (Spec.normalise metric)).
  fold (Spec.normalise metric). by rewrite normalise_idempotent.
Qed.

Lemma supported_normalise metric :
  Spec.supported (Spec.normalise metric) = Spec.supported metric.
Proof. unfold Spec.supported. by rewrite normalise_idempotent. Qed.

Lemma unsupported_log_normalise metrics :
  Spec.unsupported_log (map Spec.normalise metrics)
  = Spec.unsupported_log metrics.
Proof.
  induction metrics as [|k ms IH]; [done|]. simpl.
  rewrite supported_normalise, normalise_idempotent, IH. done.
Qed.

(** Property X1.  [evaluate_model] reads a metric name through
[lower()] and [replace(" ", "")] only: asking for the names already
in lower case and without spaces returns what asking for the names as
written returns, the same dictionary or the same [None]; the errors
logged for the names that are not supported quote the normalised name
and are the same too; and normalising a name twice changes nothing
more.  (The records that quote the names as written, the debug record
of each turn and the error of the [except] clause, are not compared.) *)
Theorem evaluate_model_ignores_case_and_spaces (actual pred : list R)
    (metrics : list string) (s : state) :
  (Modeler.evaluate_model np_Inf actual pred (map Spec.normalise metrics) s).1
  = (Modeler.evaluate_model np_Inf actual pred metrics s).1
  /\ Spec.unsupported_log (map Spec.normalise metrics)
     = Spec.unsupported_log metrics
  /\ (forall metric,
        Spec.normalise (Spec.normalise metric) = Spec.normalise metric).
Proof.
  split; [|split; [apply unsupported_log_normalise|apply normalise_idempotent]].
  assert (H : forall out s0,
    for_fold (map Spec.normalise metrics) (Modeler.evaluate_step np_Inf actual pred) out s0
    = for_fold metrics (Modeler.evaluate_step np_Inf actual pred) out s0).
  { induction metrics as [|k ms IH]; intros out s0; [done|].
    rewrite map_cons, !for_fold_cons, evaluate_step_normalise.
    unfold mbind, py_bind.
    destruct (Modeler.evaluate_step np_Inf actual pred out k s0) as [[out'|e] s1];
      [by rewrite IH|done]. }
  unfold Modeler.evaluate_model, Modeler.evaluate_body, try_except.
  unfold mbind at 1 3, py_bind at 1 3. by rewrite H.
Qed.
End Normalisation.

Section Recording.
Variable np_Inf : R.

Lemma dict_set_length {V} k (v : V) d :
  (length (Dict.set k v d) <= S (length d))%nat.
Proof.
  induction d as [|[k' v'] d IH]; simpl; [lia|].
  destruct (String.eqb k' k); simpl; lia.
Qed.

Lemma triple_assume {A} (P : state -> Prop) (c : py A) Q E :
  (forall s0, P s0 -> triple (fun s => s = s0) c Q E) -> triple P c Q E.
Proof. intros H s Hs. by apply (H s Hs). Qed.

Lemma supported_count_cons k ms :
  supported_count (k :: ms)
  = ((if Spec.supported k then 1 else 0) + supported_count ms)%nat.
Proof.
  unfold supported_count. destruct (Spec.supported k) eqn:E.
  - by rewrite filter_cons_True.
  - rewrite filter_cons_False; [done|]. by rewrite E.
Qed.

Lemma supported_count_bound ms : (supported_count ms <= length ms)%nat.
Proof. unfold supported_count. apply length_filter. Qed.

Lemma supported_count_unsupported ms k :
  k ∈ ms -> Spec.supported k = false ->
  (supported_count ms < length ms)%nat.
Proof.
  induction ms as [|k' ms IH]; intros Hin Hk; [by apply elem_of_nil in Hin|].
  rewrite supported_count_cons. simpl.
  apply elem_of_cons in Hin as [<-|Hin].
  - rewrite Hk. pose proof (supported_count_bound ms). lia.
  - specialize (IH Hin Hk). destruct (Spec.supported k'); lia.
Qed.

(** The loop of the evaluator writes nothing but log records and adds at
    most one entry per supported name. *)
Lemma evaluate_loop_shape actual pred : forall metrics out s,
  exists r l,
    for_fold metrics (Modeler.evaluate_step np_Inf actual pred) out s
    = (r, with_log s l)
    /\ forall out', r = Ok out' ->
         (length out' <= length out + supported_count metrics)%nat.
Proof.
  induction metrics as [|k ms IH]; intros out s.
  - exists (Ok out), []. rewrite with_log_nil. split; [done|].
    intros out' [= <-]. lia.
  - rewrite for_fold_cons, supported_count_cons.
    destruct (Spec.supported k) eqn:Hk.
    + destruct (Spec.broadcastable actual pred) eqn:Hb.
      * destruct (evaluate_step_broadcastable np_Inf actual pred k Hb Hk) as [v Hv].
        erewrite bind_ok by apply Hv.
        destruct (IH (Dict.set (Spec.normalise k) v out) s) as (r & l & Hrun & Hlen).
        exists r, l. split; [done|]. intros out' Hr. apply Hlen in Hr.
        pose proof (dict_set_length (Spec.normalise k) v out). lia.
      * erewrite bind_raise by (by apply evaluate_step_not_broadcastable).
        exists (Raise broadcast_error), []. rewrite with_log_nil. split; done.
    + erewrite bind_ok by (by apply evaluate_step_unsupported).
      destruct (IH out (with_log s [LogRecord ERROR
        ("### Requested metric " ++ Spec.normalise k ++ " is not supported") None]))
        as (r & l & Hrun & Hlen).
      eexists r, _. rewrite Hrun, with_log_app. split; [done|].
      intros out' Hr. apply Hlen in Hr. lia.
Qed.

Lemma evaluate_model_shape actual pred metrics s :
  exists r l,
    Modeler.evaluate_model np_Inf actual pred metrics s = (Ok r, with_log s l)
    /\ forall d, r = Some d ->
         (length (Dict.values d) <= supported_count metrics)%nat.
Proof.
  destruct (evaluate_loop_shape actual pred metrics [] s) as (r & l & Hrun & Hlen).
  unfold Modeler.evaluate_model, Modeler.evaluate_body, try_except.
  destruct r as [out|e].
  - erewrite bind_ok by apply Hrun. exists (Some out), l. split; [done|].
    intros d [= <-]. unfold Dict.values. rewrite length_map.
    specialize (Hlen out eq_refl). simpl in Hlen. lia.
  - erewrite bind_raise by apply Hrun. eexists None, _. split.
    + py_unfold. by rewrite with_log_app.
    + done.
Qed.

Ltac step :=
  first
    [ apply triple_ret; intros; simpl; try done
    | apply triple_raise; intros; simpl; try done
    | apply triple_get; intros; simpl; try done
    | apply triple_lift; intros; simpl; try done
    | apply triple_update; intros; simpl; try done ].

Lemma triple_track_table ev t E :
  triple (fun s => df_performances s = t) (track ev)
         (fun _ s => df_performances s = t) E.
Proof. intros s Hs. done. Qed.

(** With a requested name that the evaluator does not support, the
    pipeline of a model cannot get past the assignment of its row. *)
Lemma train_pipeline_blocked m name model t :
  (supported_count (fcst_competition_metrics m)
   < length (fcst_competition_metrics m))%nat ->
  triple (fun s => df_performances s = t)
         (Modeler.train_pipeline np_Inf m name model)
         (fun _ _ => False)
         (fun _ s => df_performances s = t).
Proof.
  intros Hcount. unfold Modeler.train_pipeline.
  eapply triple_bind with (R := fun _ s => df_performances s = t); [by step|]. intros s0.
  eapply triple_bind with (R := fun _ s => df_performances s = t); [by step|]. intros run.
  eapply triple_bind with (R := fun _ s => df_performances s = t).
  { destruct run; [|by step].
    eapply triple_bind with (R := fun _ s => df_performances s = t); [|intros; by step].
    apply triple_track_table. }
  intros id.
  eapply triple_bind with (R := fun _ s => df_performances s = t).
  { destruct model; by step. }
  intros mdl.
  do 4 (eapply triple_bind with (R := fun _ s => df_performances s = t); [by step|]; intros ?).
  eapply triple_bind with (R := fun s1 s => df_performances s = t); [by step|]. intros s1.
  eapply triple_bind with (R := fun _ s => df_performances s = t).
  { destruct (test_data s1); by step. }
  intros test.
  eapply triple_bind with (R := fun _ s => df_performances s = t); [by step|]. intros pred.
  eapply triple_bind with (R := fun _ s => df_performances s = t).
  { destruct pred; by step. }
  intros pred_values.
  eapply triple_bind with
    (R := fun r s => df_performances s = t
                     /\ forall d, r = Some d ->
                          (length (Dict.values d)
                           <= supported_count (fcst_competition_metrics m))%nat).
  { intros s Hs.
    destruct (evaluate_model_shape (map metric test) pred_values
                (fcst_competition_metrics m) s) as (r & l & -> & Hlen).
    split; [done|exact Hlen]. }
  intros train_evals.
  eapply triple_bind with
    (R := fun _ s => df_performances s = t
                     /\ forall d, train_evals = Some d ->
                          (length (Dict.values d)
                           <= supported_count (fcst_competition_metrics m))%nat).
  { destruct (Dict.get name (models_config m)); step; tauto. }
  intros config.
  eapply triple_bind with
    (R := fun values s => df_performances s = t
            /\ (length values <= supported_count (fcst_competition_metrics m))%nat).
  { destruct train_evals as [d|].
    - apply triple_ret. intros s [Hs Hlen]. split; [done|]. by apply Hlen.
    - apply triple_raise. intros s [Hs _]. done. }
  intros values.
  eapply triple_bind with (R := fun _ _ => False).
  { destruct (length values =? length (fcst_competition_metrics m))%nat eqn:E.
    - apply Nat.eqb_eq in E. intros s [_ Hlen]. lia.
    - apply triple_raise. intros s [Hs _]. done. }
  intros ? s [].
Qed.

(** Property X2.  When one of the competition metrics is a
name that the evaluator does not support, the pipeline of no model
gets past the assignment of its row: the evaluator returns fewer
values than the table has metric columns, the assignment raises, and
the performance table is left as it was. *)
Theorem unsupported_metric_blocks_recording (m : modeler) (name : string)
    (model : option krns_model) (s : state) :
  (exists k, k ∈ fcst_competition_metrics m /\ Spec.supported k = false) ->
  exists e s',
    Modeler.train_pipeline np_Inf m name model s = (Raise e, s')
    /\ df_performances s' = df_performances s.
Proof.
  intros (k & Hin & Hk).
  pose proof (train_pipeline_blocked m name model (df_performances s)
                (supported_count_unsupported _ k Hin Hk) s eq_refl) as H.
  destruct (Modeler.train_pipeline np_Inf m name model s) as [[[]|e] s'];
    [done|eauto].
Qed.
End Recording.

Lemma unsupported_metric_blocks_recording_witness :
  (exists k, k ∈ fcst_competition_metrics Sample.with_mae
             /\ Spec.supported k = false)
  /\ exists e s',
       Modeler.train_pipeline 0%R Sample.with_mae "pmdarima_1"
         (Some Example.three_days) Example.split_state = (Raise e, s')
       /\ df_performances s' = df_performances Example.split_state.
Proof.
  assert (H : exists k, k ∈ fcst_competition_metrics Sample.with_mae
                        /\ Spec.supported k = false).
  { exists "mae". split; [|reflexivity].
    apply list_elem_of_further, list_elem_of_here. }
  split; [exact H|].
  exact (unsupported_metric_blocks_recording 0%R Sample.with_mae "pmdarima_1"
           (Some Example.three_days) Example.split_state H).
Defined.

Section Factory.
Variable construct :
  string -> modeler -> model_config -> option artifact -> result krns_model.
Local Open Scope list_scope.

Lemma dict_set_fresh {V} k (v : V) d :
  k ∉ Dict.keys d -> Dict.set k v d = d ++ [(k, v)].
Proof.
  induction d as [|[k' v'] d IH]; intros Hk; simpl; [done|].
  unfold Dict.keys in Hk. simpl in Hk. apply not_elem_of_cons in Hk as [Hne Hk].
  destruct (String.eqb k' k) eqn:E.
  - apply String.eqb_eq in E. by subst.
  - by rewrite IH.
Qed.

Lemma created_loop (m : modeler) : forall config acc s,
  NoDup (Dict.keys acc ++ map fst config) ->
  exists l,
    for_fold config
      (fun (models : Dict.t (option krns_model)) '(name, cfg) =>
         let model_flavor := StrSplit.before_underscore name in
         model ← Modeler.model_generation construct m model_flavor cfg None;
         mret (Dict.set name model models))
      acc s
    = (Ok (acc ++ map (created_entry construct m) config), with_log s l).
Proof.
  remember (fun (models : Dict.t (option krns_model)) '(name, cfg) =>
         let model_flavor := StrSplit.before_underscore name in
         model ← Modeler.model_generation construct m model_flavor cfg None;
         mret (Dict.set name model models)) as body eqn:Hbody.
  induction config as [|[name cfg] config IH]; intros acc s Hnd.
  - exists []. simpl. by rewrite app_nil_r, with_log_nil.
  - rewrite for_fold_cons.
    pose proof (model_generation_backend construct m
                  (StrSplit.before_underscore name) cfg None s) as Hgen.
    assert (Hfresh : name ∉ Dict.keys acc).
    { apply NoDup_app in Hnd as (_ & Hdisj & _). intros Hin.
      apply (Hdisj name Hin). simpl. apply list_elem_of_here. }
    assert (Hnd' : forall v, NoDup (Dict.keys (acc ++ [(name, v)]) ++ map fst config)).
    { intros v. unfold Dict.keys. rewrite map_app. simpl.
      rewrite <- app_assoc. done. }
    unfold created_entry at 1. simpl.
    destruct (Gate.backend construct m (StrSplit.before_underscore name) cfg None)
      as [k|e].
    + erewrite bind_ok
        by (rewrite Hbody; cbv beta iota zeta;
            erewrite bind_ok by apply Hgen; reflexivity).
      rewrite dict_set_fresh by done.
      destruct (IH (acc ++ [(name, Some k)]) s (Hnd' _)) as [l Hl].
      exists l. rewrite Hl. by rewrite <- app_assoc.
    + erewrite bind_ok
        by (rewrite Hbody; cbv beta iota zeta;
            erewrite bind_ok by apply Hgen; reflexivity).
      rewrite dict_set_fresh by done.
      destruct (IH (acc ++ [(name, None)])
                  (with_log s [generation_failed (StrSplit.before_underscore name) e])
                  (Hnd' _)) as [l Hl].
      eexists. rewrite Hl, with_log_app. by rewrite <- app_assoc.
Qed.

Lemma create_all_models_runs (m : modeler) (config : Dict.t model_config)
    (s : state) :
  NoDup (Dict.keys config) ->
  exists l,
    Modeler.create_all_models construct m config s
    = (Ok (Some (map (created_entry construct m) config)), with_log s l).
Proof.
  intros Hnd. unfold Modeler.create_all_models.
  destruct (created_loop m config [] s Hnd) as [l Hl].
  exists l. apply try_ok. by erewrite bind_ok by apply Hl.
Qed.

(** Property X3.  [create_all_models] returns a dictionary with
the configuration names as keys, in their order; the entry of a name
is the backend built by [model_generation] for the flavor that the
name starts with and for the configuration of that name, or [None]
when none could be built.  It does not raise and writes only log
records. *)
Theorem create_all_models_entries (m : modeler) (config : Dict.t model_config)
    (s : state) :
  NoDup (Dict.keys config) ->
  exists models l,
    Modeler.create_all_models construct m config s
    = (Ok (Some models), with_log s l)
    /\ Dict.keys models = Dict.keys config
    /\ forall name cfg, (name, cfg) ∈ config ->
         Dict.get name models
         = Some (match Gate.backend construct m
                         (StrSplit.before_underscore name) cfg None with
                 | Ok k => Some k
                 | Raise _ => None
                 end).
Proof.
  intros Hnd.
  destruct (create_all_models_runs m config s Hnd) as [l Hl].
  exists (map (created_entry construct m) config), l. split; [exact Hl|].
  split.
  { unfold Dict.keys. rewrite map_map. by apply map_ext. }
  clear Hl. induction config as [|[n c] config IH]; intros name cfg Hin;
    [by apply elem_of_nil in Hin|].
  unfold Dict.keys in Hnd. simpl in Hnd. apply NoDup_cons in Hnd as [Hn Hnd].
  apply elem_of_cons in Hin as [[= <- <-]|Hin]; simpl.
  - by rewrite String.eqb_refl.
  - destruct (String.eqb n name) eqn:E; [|by apply IH].
    apply String.eqb_eq in E. subst n. exfalso. apply Hn.
    apply list_elem_of_fmap. by exists (name, cfg).
Qed.

Lemma before_underscore_app flavor rest :
  no_underscore flavor = true ->
  StrSplit.before_underscore (flavor +:+ "_" +:+ rest) = flavor.
Proof.
  induction flavor as [|c flavor IH]; simpl; [done|].
  intros [Hc Hrest]%andb_true_iff. apply negb_true_iff in Hc.
  rewrite Hc. by rewrite IH.
Qed.

Lemma before_underscore_clean name :
  no_underscore (StrSplit.before_underscore name) = true.
Proof.
  induction name as [|c name IH]; simpl; [done|].
  destruct (Ascii.eqb c "_"%char) eqn:E; [done|]. simpl. by rewrite E.
Qed.

Lemma before_underscore_whole name :
  no_underscore name = true -> StrSplit.before_underscore name = name.
Proof.
  induction name as [|c name IH]; simpl; [done|].
  intros [Hc Hrest]%andb_true_iff. apply negb_true_iff in Hc.
  rewrite Hc. by rewrite IH.
Qed.

(** Property X4.  The flavor of a configuration is the part
of its name before the first underscore ([split("_")[0]]): for a name
[flavor_rest] whose flavor has no underscore it is [flavor], whatever
the rest and whatever the configuration holds, and a name without
underscore is its own flavor; [create_all_models] builds the entry of
the name with the backend of that flavor. *)
Theorem flavor_of_configuration_name (m : modeler) (flavor rest : string)
    (cfg : model_config) (s : state) :
  no_underscore flavor = true ->
  let name := flavor +:+ "_" +:+ rest in
  StrSplit.before_underscore name = flavor
  /\ StrSplit.before_underscore flavor = flavor
  /\ exists l,
       Modeler.create_all_models construct m [(name, cfg)] s
       = (Ok (Some [(name,
                     match Gate.backend construct m flavor cfg None with
                     | Ok k => Some k
                     | Raise _ => None
                     end)]), with_log s l).
Proof.
  intros Hf name. split; [by apply before_underscore_app|].
  split; [by apply before_underscore_whole|].
  destruct (create_all_models_runs m [(name, cfg)] s) as [l Hl].
  { apply NoDup_singleton. }
  exists l. rewrite Hl. unfold created_entry, name. simpl.
  by rewrite before_underscore_app.
Qed.
End Factory.

Lemma create_all_models_entries_witness :
  NoDup (Dict.keys (models_config Example.orchestrator))
  /\ exists models l,
       Modeler.create_all_models Example.backends Example.orchestrator
         (models_config Example.orchestrator) (new_state ∅)
       = (Ok (Some models), with_log (new_state ∅) l)
       /\ Dict.get "pmdarima_1" models = Some (Some Example.three_days).
Proof.
  assert (H : NoDup (Dict.keys (models_config Example.orchestrator)))
    by apply NoDup_singleton.
  split; [exact H|].
  destruct (create_all_models_entries Example.backends Example.orchestrator
              (models_config Example.orchestrator) (new_state ∅) H)
    as (models & l & Hrun & _ & Hget).
  exists models, l. split; [exact Hrun|].
  apply (Hget "pmdarima_1" []). apply list_elem_of_here.
Defined.

Lemma flavor_of_configuration_name_witness :
  no_underscore "tensorflow" = true
  /\ StrSplit.before_underscore "tensorflow_1" = "tensorflow".
Proof.
  split; [reflexivity|].
  exact (proj1 (flavor_of_configuration_name Example.backends Example.orchestrator
                  "tensorflow" "1" [] (new_state ∅) eq_refl)).
Defined.

Section NegativeTestSize.

Lemma slice_bound_negative n len :
  (n < 0)%Z -> Pd.slice_bound n len = (len - Z.to_nat (- n))%nat.
Proof.
  intros Hn. unfold Pd.slice_bound.
  destruct (n <? 0)%Z eqn:E; [|apply Z.ltb_ge in E; lia]. lia.
Qed.

(** Property X5.  With a negative test size the guard
[rows - n_test < n_test] never fires, and the slices count from the
end: of the rows sorted by decreasing date, the last [|n_test|] become
the training set and all the rows before them the test set, in
[Modeler.train_test_split] as in the function of [mlf_project]. *)
Theorem train_test_split_negative_size (m : modeler) (s : state) :
  (n_test m < 0)%Z ->
  let rows := length (data m) in
  let k := (rows - Z.to_nat (- n_test m))%nat in
  let sorted := Pd.sort_values_desc (data m) in
  Modeler.train_test_split m s
  = (Ok tt, with_split s (drop k sorted) (take k sorted))
  /\ MlfProject.train_test_split (data m) (n_test m) s
     = (Ok (drop k sorted, take k sorted), s)
  /\ length (drop k sorted) = Nat.min rows (Z.to_nat (- n_test m))
  /\ length (take k sorted) = k.
Proof.
  intros Hn rows k sorted.
  assert (Hlen : length sorted = rows).
  { unfold sorted, rows. by rewrite sort_values_desc_perm. }
  assert (Hlt : (Z.of_nat rows - n_test m <? n_test m)%Z = false)
    by (apply Z.ltb_ge; lia).
  assert (Hto : Pd.iloc_to (n_test m) sorted = take k sorted).
  { unfold Pd.iloc_to. by rewrite slice_bound_negative, Hlen. }
  assert (Hfrom : Pd.iloc_from (n_test m) sorted = drop k sorted).
  { unfold Pd.iloc_from. by rewrite slice_bound_negative, Hlen. }
  split; [|split; [|split]].
  - unfold Modeler.train_test_split, try_except. fold rows. rewrite Hlt.
    fold sorted. by rewrite Hto, Hfrom.
  - unfold MlfProject.train_test_split. fold rows. rewrite Hlt.
    fold sorted. by rewrite Hto, Hfrom.
  - rewrite length_drop, Hlen. unfold k. lia.
  - rewrite length_take, Hlen. unfold k. lia.
Qed.
End NegativeTestSize.

Lemma train_test_split_negative_size_witness :
  (n_test Sample2.negative_test_size < 0)%Z
  /\ Modeler.train_test_split Sample2.negative_test_size (new_state ∅)
     = (Ok tt,
        with_split (new_state ∅) [Obs "k" 1 4]
          [Obs "k" 4 7; Obs "k" 3 5; Obs "k" 2 6]).
Proof.
  assert (H : (n_test Sample2.negative_test_size < 0)%Z) by (simpl; lia).
  split; [exact H|].
  exact (proj1 (train_test_split_negative_size Sample2.negative_test_size
                  (new_state ∅) H)).
Defined.

Section WithoutSplit.
Variable construct :
  string -> modeler -> model_config -> option artifact -> result krns_model.
Variable np_Inf : R.
Variable m : modeler.
Hypothesis end_run_returns : forall h, end_run (ml_flower m) h = Ok tt.

Ltac step :=
  first
    [ apply triple_ret; intros; simpl; try done
    | apply triple_raise; intros; simpl; try done
    | apply triple_get; intros; simpl; try done
    | apply triple_lift; intros; simpl; try done
    | apply triple_update; intros; simpl; try done ].

Lemma train_pipeline_without_test_data t n name model :
  triple (unsplit t n) (Modeler.train_pipeline np_Inf m name model)
         (fun _ _ => False) (fun _ => unsplit t n).
Proof.
  unfold Modeler.train_pipeline.
  eapply triple_bind with (R := fun _ => unsplit t n); [by step|]. intros s0.
  eapply triple_bind with (R := fun _ => unsplit t n); [by step|]. intros run.
  eapply triple_bind with (R := fun _ => unsplit t n).
  { destruct run; [|by step].
    eapply triple_bind with (R := fun _ => unsplit t n); [|intros; by step].
    intros st (Ht & Hd & Hc). repeat split; try done.
    unfold closed_runs, track in *. simpl.
    rewrite filter_app, length_app, Hc. simpl. lia. }
  intros id.
  eapply triple_bind with (R := fun _ => unsplit t n).
  { destruct model; by step. }
  intros mdl.
  do 4 (eapply triple_bind with (R := fun _ => unsplit t n); [by step|]; intros ?).
  eapply triple_bind with (R := fun s1 s => unsplit t n s /\ test_data s1 = None).
  { apply triple_get. intros st Hst. split; [done|]. apply Hst. }
  intros s1.
  eapply triple_bind with (R := fun _ _ => False).
  { intros st [Hst Hnone]. rewrite Hnone. exact Hst. }
  intros ? st [].
Qed.

Lemma train_one_without_test_data t n name model s :
  unsplit t n s ->
  exists s', Modeler.train_one np_Inf m name model s = (Ok tt, s')
             /\ unsplit t (S n) s'.
Proof.
  intros Hs.
  pose proof (train_pipeline_without_test_data t n name model s Hs) as Hp.
  destruct (train_one_cases np_Inf m end_run_returns name model s)
    as [(s1 & Hrun & _)|(e & s1 & Hrun & Hone)]; rewrite Hrun in Hp; [done|].
  exists (after_failure name e s1). split; [done|].
  destruct Hp as (Ht & Hd & Hc). repeat split; try done.
  by rewrite closed_runs_after_failure, Hc.
Qed.

Lemma training_loop_without_test_data t : forall models n s,
  unsplit t n s ->
  exists s', Modeler.training_loop np_Inf m models s = (Ok tt, s')
             /\ unsplit t (n + length models) s'.
Proof.
  induction models as [|[name model] models IH]; intros n s Hs.
  - exists s. split; [done|]. by rewrite Nat.add_0_r.
  - unfold Modeler.training_loop in *. simpl for_each.
    destruct (train_one_without_test_data t n name model s Hs) as (s1 & Hone & H1).
    destruct (IH (S n) s1 H1) as (s' & Hloop & H').
    exists s'. split; [by erewrite bind_ok by apply Hone|].
    simpl length. by replace (n + S (length models))%nat
      with (S n + length models)%nat by lia.
Qed.

(** Property X6.  When the data is too short for the
split, [training] does not stop: the split logs its failure and leaves
the test set unset, every configured model is still started, fails at
the evaluation on the missing test set, and has its run ended; the
performance table is left as it was and [training] returns. *)
Theorem training_goes_on_without_split (s : state) :
  NoDup (Dict.keys (models_config m)) ->
  get_experiment (ml_flower m) ("/mlflow/experiments/" ++ key_code m) = Ok tt ->
  (Z.of_nat (length (data m)) - n_test m < n_test m)%Z ->
  test_data s = None ->
  exists s',
    Modeler.training construct np_Inf m s = (Ok tt, s')
    /\ df_performances s' = df_performances s
    /\ test_data s' = None
    /\ closed_runs s' = (closed_runs s + length (models_config m))%nat.
Proof.
  intros Hnd Hexp Hrows Hnone. apply Z.ltb_lt in Hrows.
  set (s1 := with_log s [split_warning_kronos; split_error_kronos]).
  assert (Hsplit : Modeler.train_test_split m s = (Ok tt, s1)).
  { unfold Modeler.train_test_split, try_except. rewrite Hrows.
    py_unfold. simpl. by rewrite with_log_app. }
  destruct (create_all_models_runs construct m (models_config m) s1 Hnd)
    as [l Hcreate].
  destruct (training_loop_without_test_data (df_performances s)
              (map (created_entry construct m) (models_config m))
              (closed_runs s) (with_log s1 l))
    as (s' & Hloop & Ht & Hd & Hc); [done|].
  exists s'. split; [|split; [done|split; [done|]]].
  - unfold Modeler.training. apply try_ok.
    erewrite bind_ok by (unfold lift; by rewrite Hexp).
    erewrite bind_ok by apply Hsplit.
    erewrite bind_ok by apply Hcreate.
    by erewrite bind_ok by reflexivity.
  - by rewrite Hc, length_map.
Qed.
End WithoutSplit.

Lemma training_goes_on_without_split_witness :
  (forall h, end_run (ml_flower Sample.too_short) h = Ok tt)
  /\ NoDup (Dict.keys (models_config Sample.too_short))
  /\ (Z.of_nat (length (data Sample.too_short)) - n_test Sample.too_short
      < n_test Sample.too_short)%Z
  /\ exists s',
       Modeler.training Example.backends 0%R Sample.too_short (new_state ∅)
       = (Ok tt, s')
       /\ df_performances s' = []
       /\ closed_runs s' = 1%nat.
Proof.
  assert (Hnd : NoDup (Dict.keys (models_config Sample.too_short)))
    by apply NoDup_singleton.
  assert (Hrows : (Z.of_nat (length (data Sample.too_short))
                   - n_test Sample.too_short < n_test Sample.too_short)%Z)
    by (simpl; lia).
  split; [intros h; reflexivity|]. split; [exact Hnd|]. split; [exact Hrows|].
  destruct (training_goes_on_without_split Example.backends 0%R Sample.too_short
              (fun h => eq_refl) (new_state ∅) Hnd eq_refl Hrows eq_refl)
    as (s' & Hrun & Hdf & _ & Hclosed).
  exists s'. split; [exact Hrun|]. split; [exact Hdf|exact Hclosed].
Defined.

Section CompetitionEdges.
Variable m : modeler.

Lemma label_position_elem label labels :
  label ∈ labels -> exists k, Pandas.label_position label labels = Ok k.
Proof.
  induction labels as [|l labels IH]; intros Hin; [by apply elem_of_nil in Hin|].
  simpl. destruct (String.eqb l label) eqn:E; [by exists 0%nat|].
  apply elem_of_cons in Hin as [->|Hin].
  - by rewrite String.eqb_refl in E.
  - destruct (IH Hin) as [k ->]. by exists (S k).
Qed.

Lemma standardize_loop_empty : forall ms s,
  (forall x, x ∈ ms -> x ∈ fcst_competition_metrics m) ->
  df_performances s = [] ->
  for_each ms (Modeler.standardize_column m) s = (Ok tt, s).
Proof.
  induction ms as [|metric ms IH]; intros s Hsub Hs; [done|].
  simpl for_each.
  destruct (label_position_elem metric (fcst_competition_metrics m)) as [k Hk].
  { apply Hsub, list_elem_of_here. }
  erewrite bind_ok.
  2:{ unfold Modeler.standardize_column.
      erewrite bind_ok by reflexivity.
      erewrite bind_ok by (unfold lift; by rewrite Hk).
      rewrite Hs. erewrite bind_ok by reflexivity.
      simpl. unfold set_performances. rewrite <- Hs.
      change (State (train_data s) (test_data s) (df_performances s)
                (winning_model_name s) (log s) (tracking s) (registry s))
        with (with_performances s (df_performances s)).
      by rewrite with_performances_same. }
  apply IH; [|done]. intros x Hx. by apply Hsub, list_elem_of_further.
Qed.

Lemma competition_empty_runs (s : state) :
  df_performances s = [] ->
  Modeler.competition m s
  = (Ok tt, with_log s [competition_failed empty_argmin]).
Proof.
  intros Hs. unfold Modeler.competition.
  erewrite try_raise; [reflexivity|].
  erewrite bind_ok by (by apply standardize_loop_empty).
  erewrite bind_ok by reflexivity. rewrite Hs.
  erewrite bind_ok by reflexivity.
  erewrite bind_ok.
  2:{ simpl. unfold set_performances. rewrite <- Hs.
      change (State (train_data s) (test_data s) (df_performances s)
                (winning_model_name s) (log s) (tracking s) (registry s))
        with (with_performances s (df_performances s)).
      by rewrite with_performances_same. }
  by erewrite bind_raise by reflexivity.
Qed.

(** Property X7.  On a performance table without rows [competition]
returns without choosing a winner: an empty score column has no
argmin, so the body raises and the failure is logged.  The winner is
what it was, the table still has no row (whether the score column was
added to it is not said), and the split, the tracker and the registry
are untouched. *)
Theorem competition_on_empty_table (s : state) :
  df_performances s = [] ->
  exists e s',
    Modeler.competition m s = (Ok tt, s')
    /\ winning_model_name s' = winning_model_name s
    /\ df_performances s' = []
    /\ log s' = (log s ++ [competition_failed e])%list
    /\ train_data s' = train_data s /\ test_data s' = test_data s
    /\ tracking s' = tracking s /\ registry s' = registry s.
Proof.
  intros Hs. exists empty_argmin. eexists.
  split; [by apply competition_empty_runs|]. simpl. by rewrite Hs.
Qed.

Hypothesis labels_distinct : NoDup (fcst_competition_metrics m).

(** A row read by its labels is the row. *)
Lemma row_by_label r : forall ms j,
  length (cells r) = length (fcst_competition_metrics m) ->
  drop j (fcst_competition_metrics m) = ms ->
  mapM (fun _metric =>
          k ← Pandas.label_position _metric (fcst_competition_metrics m);
          Pandas.cell k r) ms
  = Ok (drop j (cells r)).
Proof.
  induction ms as [|metric ms IH]; intros j Hlen Hdrop.
  - assert (Hj : (length (fcst_competition_metrics m) <= j)%nat).
    { apply (f_equal length) in Hdrop. rewrite length_drop in Hdrop.
      simpl in Hdrop. lia. }
    rewrite drop_ge by lia. done.
  - assert (Hj : fcst_competition_metrics m !! j = Some metric).
    { assert (H0 : drop j (fcst_competition_metrics m) !! 0%nat = Some metric)
        by (by rewrite Hdrop).
      rewrite lookup_drop, Nat.add_0_r in H0. done. }
    destruct (lookup_lt_is_Some_2 (cells r) j) as [x Hx].
    { rewrite Hlen. by eapply lookup_lt_Some. }
    rewrite mapM_result_cons, (label_position_lookup _ j metric) by done.
    rewrite (IH (S j)); [|done|].
    + unfold Pandas.cell. simpl. rewrite Hx. simpl.
      by rewrite (drop_S _ x j).
    + replace (S j) with (j + 1)%nat by lia. by rewrite <- drop_drop, Hdrop.
Qed.

Lemma mapM_result_raise {A B} (f : A -> result B) x l e :
  f x = Raise e -> mapM f (x :: l) = Raise e.
Proof. intros H. rewrite mapM_result_cons, H. done. Qed.

Lemma row_error_avg_mismatch r :
  length (cells r) = length (fcst_competition_metrics m) ->
  Spec.broadcastable (cells r) (fcst_competition_metric_weights m) = false ->
  Modeler.row_error_avg m r = Raise broadcast_error.
Proof.
  intros Hlen Hb. unfold Modeler.row_error_avg.
  rewrite (row_by_label r _ 0) by done.
  rewrite drop_0. simpl. unfold Np.mul. by rewrite broadcast_raise.
Qed.

(** Property X8.  When the weights cannot be
combined with the metric values of a row (neither as many weights as
metrics, nor a single weight, nor a single metric), [competition]
fails after the standardisation: the table is left standardised, no
score is written, no winner is chosen and the failure is logged. *)
Theorem competition_with_mismatched_weights (s : state) :
  Table.well_formed (fcst_competition_metrics m) (df_performances s) ->
  df_performances s <> [] ->
  length (fcst_competition_metric_weights m)
    <> length (fcst_competition_metrics m) ->
  length (fcst_competition_metric_weights m) <> 1%nat ->
  length (fcst_competition_metrics m) <> 1%nat ->
  Modeler.competition m s
  = (Ok tt,
     with_log (with_performances s (Table.standardize (df_performances s)))
       [competition_failed broadcast_error]).
Proof.
  intros Hwf Hne Hw Hw1 Hm1. unfold Modeler.competition.
  erewrite try_raise; [reflexivity|].
  erewrite bind_ok by (by apply standardize_all).
  erewrite bind_ok by reflexivity.
  erewrite bind_raise; [reflexivity|].
  unfold lift. simpl df_performances.
  pose proof (standardize_well_formed m _ Hwf) as Hwf'.
  destruct (Table.standardize (df_performances s)) as [|r t1] eqn:Ht1.
  { unfold Table.standardize in Ht1. by destruct (df_performances s). }
  apply Forall_cons in Hwf' as [Hr _].
  erewrite mapM_result_raise; [reflexivity|].
  apply row_error_avg_mismatch; [done|].
  unfold Spec.broadcastable. rewrite Hr.
  rewrite !orb_false_iff, !Nat.eqb_neq. split; [split|]; congruence.
Qed.

Lemma sum_scaled (xs : list R) (w : R) :
  Np.sum (map (fun x => x * w)%R xs) = (Np.sum xs * w)%R.
Proof. induction xs as [|x xs IH]; simpl; [lra|]. rewrite IH. lra. Qed.

(** Property X9.  With a single weight [w] that is not zero
and any number of metrics, the weight is stretched over the metrics:
the score of a row is the plain sum of its metric values (the sum of
the products [x * w] over the sum of the weights, which is [w]), not
their mean. *)
Theorem single_weight_is_stretched (r : perf_row) (w : R) :
  fcst_competition_metric_weights m = [w] ->
  w <> 0%R ->
  length (cells r) = length (fcst_competition_metrics m) ->
  Modeler.row_error_avg m r = Ok (Np.sum (cells r)).
Proof.
  intros Hw Hw0 Hlen. unfold Modeler.row_error_avg.
  rewrite (row_by_label r _ 0) by done.
  rewrite drop_0, Hw. simpl.
  assert (Hmul : Np.mul (cells r) [w] = Ok (map (fun x => x * w)%R (cells r))).
  { unfold Np.mul, Np.broadcast. simpl.
    destruct (length (cells r) =? 1)%nat eqn:E; [|done].
    apply Nat.eqb_eq in E. destruct (cells r) as [|x [|y l]]; done. }
  rewrite Hmul. simpl. rewrite sum_scaled. f_equal. field. lra.
Qed.
End CompetitionEdges.

Lemma competition_on_empty_table_witness :
  df_performances (new_state ∅) = []
  /\ exists s',
       Modeler.competition Example.judge (new_state ∅) = (Ok tt, s')
       /\ winning_model_name s' = None.
Proof.
  split; [reflexivity|].
  destruct (competition_on_empty_table Example.judge (new_state ∅) eq_refl)
    as (e & s' & Hrun & Hwinner & _).
  exists s'. split; [exact Hrun|exact Hwinner].
Defined.

Lemma competition_with_mismatched_weights_witness :
  NoDup (fcst_competition_metrics Sample.three_weights)
  /\ Table.well_formed (fcst_competition_metrics Sample.three_weights)
       (df_performances Sample.two_metric_state)
  /\ Modeler.competition Sample.three_weights Sample.two_metric_state
     = (Ok tt,
        with_log
          (with_performances Sample.two_metric_state
             (Table.standardize (df_performances Sample.two_metric_state)))
          [competition_failed broadcast_error]).
Proof.
  assert (Hnd : NoDup (fcst_competition_metrics Sample.three_weights)).
  { apply NoDup_cons. split; [|apply NoDup_singleton].
    intros H. apply list_elem_of_singleton in H. discriminate H. }
  assert (Hwf : Table.well_formed (fcst_competition_metrics Sample.three_weights)
                  (df_performances Sample.two_metric_state))
    by (repeat constructor).
  split; [exact Hnd|]. split; [exact Hwf|].
  apply (competition_with_mismatched_weights Sample.three_weights Hnd
           Sample.two_metric_state Hwf); simpl; discriminate.
Defined.

Lemma single_weight_is_stretched_witness :
  Modeler.row_error_avg Sample.one_weight (Sample.two_cells "a" 1 3)
  = Ok (Np.sum [1; 3]%R).
Proof.
  apply (single_weight_is_stretched Sample.one_weight) with (w := 2%R).
  - apply NoDup_cons. split; [|apply NoDup_singleton].
    intros H. apply list_elem_of_singleton in H. discriminate H.
  - reflexivity.
  - lra.
  - reflexivity.
Defined.

(** ** The days of a forecast *)

Section Days.
Local Open Scope Z_scope.












End Days.

(** ** The naive forecast over any history *)

Section FlatLine.
Variable construct :
  string -> modeler -> model_config -> option artifact -> result krns_model.
Local Open Scope Z_scope.


End FlatLine.


(** ** The network backend ([krns_tensorflow.py]) *)

Section Network.
Variable float32 : R -> R.
Local Open Scope Z_scope.



Lemma short_window {A} (n : Z) (l : list A) :
  0 <= n -> (n = 0 \/ Z.of_nat (length l) < n) -> l <> [] ->
  Z.of_nat (length (Pd.iloc_from (- n) l)) <> n.
Proof.
  intros H0 Hn Hl. unfold Pd.iloc_from, Pd.slice_bound.
  assert (length l <> 0)%nat by (by destruct l).
  destruct (- n <? 0) eqn:E.
  - apply Z.ltb_lt in E. rewrite length_drop. lia.
  - apply Z.ltb_ge in E. rewrite length_drop. lia.
Qed.

Lemma latest_day (l : list obs) :
  l <> [] ->
  exists D, Pandas.max_date (map date l) = Some D
            /\ (exists r, r ∈ l /\ date r = D)
            /\ forall r, r ∈ l -> date r <= D.
Proof.
  intros Hl. destruct l as [|r l]; [done|]. simpl.
  eexists. split; [reflexivity|].
  destruct (fold_max_bounds (date r) (map date l)) as ([Hd|Hm] & Hle & Hub).
  - split.
    + exists r. split; [apply list_elem_of_here|done].
    + intros x [->|Hx]%elem_of_cons; [lia|].
      apply Hub. by apply list_elem_of_fmap_2.
  - split.
    + apply list_elem_of_fmap in Hm as (x & Hx & Hin).
      exists x. split; [by apply list_elem_of_further|done].
    + intros x [->|Hx]%elem_of_cons; [lia|].
      apply Hub. by apply list_elem_of_fmap_2.
Qed.



(** Property X12.  [KRNSTensorflow.predict] returns [None] and
logs the failure, without raising, when the window is empty or longer
than the history before [fcst_first_date]: with no history the date
arithmetic fails, and otherwise the last values cannot be reshaped
into the window. *)
Theorem network_needs_history (b : Tensorflow.t) (n_days first : Z)
    (future : bool) (s : state) :
  0 <= Tensorflow.n_inputs b ->
  Tensorflow.n_inputs b = 0
  \/ Z.of_nat (length (observed_before first (data (Tensorflow.modeler_copy b))))
     < Tensorflow.n_inputs b ->
  exists e,
    Tensorflow.predict float32 b n_days first future s
    = (Ok None, with_log s [predict_failed e]).
Proof.
  intros H0 Hshort.
  set (history := observed_before first (data (Tensorflow.modeler_copy b))) in *.
  unfold Tensorflow.predict, try_except.
  fold (observed_before first (data (Tensorflow.modeler_copy b))). fold history.
  destruct (decide (history = [])) as [->|Hh].
  { simpl. eexists. reflexivity. }
  destruct (latest_day history Hh) as (D & Hmax & _).
  rewrite Hmax. erewrite bind_ok by reflexivity.
  unfold Tensorflow.reshape.
  assert (Hshape : (Tensorflow.n_inputs b =? -1) = false) by (apply Z.eqb_neq; lia).
  rewrite Hshape.
  assert (Hsize : (0 <=? Tensorflow.n_inputs b)
                  && (Z.of_nat (length (Pd.iloc_from (- Tensorflow.n_inputs b)
                                          (map float32 (map metric history))))
                      =? Tensorflow.n_inputs b) = false).
  { apply andb_false_iff. right. apply Z.eqb_neq.
    apply short_window; [done| |].
    - rewrite !length_map. done.
    - intros Hnil. apply Hh. by destruct history. }
  rewrite Hsize. erewrite bind_raise by reflexivity.
  eexists. reflexivity.
Qed.
End Network.


Lemma network_needs_history_witness :
  exists e,
    Tensorflow.predict (fun x => x) Sample3.window_of_nine 3 5 true (new_state ∅)
    = (Ok None, with_log (new_state ∅) [predict_failed e]).
Proof.
  apply (network_needs_history (fun x => x) Sample3.window_of_nine 3 5 true
           (new_state ∅)).
  - simpl. lia.
  - right. simpl. lia.
Defined.

(** ** Deployments that cannot go through *)

Section DeployEdges.
Variable construct :
  string -> modeler -> model_config -> option artifact -> result krns_model.
Variable today : Z.
Variable m : modeler.

Lemma loc_missing w t :
  Forall (fun r => model_name r <> w) t -> Pandas.loc w t = Raise (KeyError w).
Proof.
  induction 1 as [|r t Hr _ IH]; simpl; [done|].
  apply String.eqb_neq in Hr. by rewrite Hr.
Qed.

(** Property X13.  [deploy] without a winner, or with a winner
that is no row of the performance table: the lookup raises
[KeyError], the failure is logged under the winner's name and [deploy]
returns; the registry is not called and nothing else changes. *)
Theorem deploy_without_winner (s : state) :
  winning_model_name s = None
  \/ (exists w, winning_model_name s = Some w
                /\ Forall (fun r => model_name r <> w) (df_performances s)) ->
  Modeler.deploy construct today m s
  = (Ok tt,
     with_log s
       [deployment_failed (winning_model_name s)
          (KeyError (Modeler.str_of_name (winning_model_name s)))]).
Proof.
  intros Hw. unfold Modeler.deploy, try_except.
  erewrite bind_ok by reflexivity.
  destruct Hw as [Hnone|(w & Hsome & Hrows)].
  - rewrite Hnone. erewrite bind_raise by reflexivity.
    erewrite bind_ok by reflexivity. by rewrite Hnone.
  - rewrite Hsome. erewrite bind_raise.
    2:{ unfold lift. by rewrite (loc_missing w _ Hrows). }
    erewrite bind_ok by reflexivity. by rewrite Hsome.
Qed.

(** Property X14.  [deploy] of a winner whose row has no
configuration, as the row written by [prod_model_eval]: the run is
registered first (under the uri of the row's run id, [None] for that
row), then the membership test on the missing configuration raises.
[deploy] logs the failure and returns; whether or not the registry
accepted the registration, every version is in the stage it was in,
and the new one is in no stage. *)
Theorem deploy_unconfigured_winner (s : state) (w : string) (winner : perf_row) :
  winning_model_name s = Some w ->
  Pandas.loc w (df_performances s) = Ok winner ->
  row_config winner = None ->
  let uri := "runs:/" ++ Modeler.str_of_name (run_id winner) ++ "/model" in
  exists s' e,
    Modeler.deploy construct today m s = (Ok tt, s')
    /\ s' = match register_model_fault (ml_flower m) (registry s) uri with
            | Some e' => with_log s [deployment_failed (Some w) e']
            | None =>
                with_log
                  (Gate.with_registry s (Registry.register (registry s)).2)
                  [deployment_failed (Some w) e]
            end
    /\ forall u, Registry.stage_of (registry s') u
                 = Registry.stage_of (registry s) u.
Proof.
  intros Hw Hrow Hconfig uri.
  eexists. exists no_config_error. split; [|split; [reflexivity|]].
  - unfold Modeler.deploy, try_except.
    erewrite bind_ok by reflexivity. rewrite Hw.
    erewrite bind_ok by (unfold lift; by rewrite Hrow).
    unfold Modeler.register_model_call. fold uri.
    destruct (register_model_fault (ml_flower m) (registry s) uri) as [e|] eqn:Hf.
    + erewrite bind_raise.
      2:{ erewrite bind_ok by reflexivity. by rewrite Hf. }
      erewrite bind_ok by reflexivity. by rewrite Hw.
    + erewrite bind_ok.
      2:{ erewrite bind_ok by reflexivity. rewrite Hf.
          unfold Registry.register. by erewrite bind_ok by reflexivity. }
      rewrite Hconfig. erewrite bind_raise by reflexivity.
      py_unfold. unfold deployment_failed, no_config_error, Gate.with_registry, with_log. simpl. by rewrite Hw.
  - intros u.
    destruct (register_model_fault (ml_flower m) (registry s) uri); [done|].
    simpl registry. apply stage_of_register.
Qed.
End DeployEdges.

Lemma deploy_without_winner_witness :
  Modeler.deploy Example.backends 0 Example.deployer (new_state ∅)
  = (Ok tt,
     with_log (new_state ∅) [deployment_failed None (KeyError "None")]).
Proof.
  apply (deploy_without_winner Example.backends 0 Example.deployer (new_state ∅)).
  left. reflexivity.
Defined.

Lemma deploy_unconfigured_winner_witness :
  exists s',
    Modeler.deploy Example.backends 0 Example.deployer Sample4.baseline_won
    = (Ok tt, s')
    /\ Registry.stage_of (registry s') 1 = Production
    /\ Registry.stage_of (registry s') 2 = Unregistered.
Proof.
  destruct (deploy_unconfigured_winner Example.backends 0 Example.deployer
              Sample4.baseline_won "prod_model"
              (baseline_row Example.three_days [1%R])
              eq_refl eq_refl eq_refl) as (s' & e & Hrun & _ & Hstage).
  exists s'. split; [exact Hrun|]. split.
  - rewrite Hstage. reflexivity.
  - rewrite Hstage. reflexivity.
Defined.

(** ** What a prediction writes *)

Section PredictionWrites.
Variable construct :
  string -> modeler -> model_config -> option artifact -> result krns_model.

(** The primary path leaves the state alone when it returns, and
    writes at most the failure of the model generation when it
    raises. *)
Lemma primary_forecast_cases m s :
  (exists p, Modeler.primary_forecast construct m s = (Ok p, s))
  \/ (exists e l, Modeler.primary_forecast construct m s
                  = (Raise e, with_log s l)
                  /\ (length l <= 1)%nat).
Proof.
  unfold Modeler.primary_forecast.
  erewrite bind_ok by reflexivity.
  destruct (load_model _ _ _) as [[model flavor]|e] eqn:Hload.
  2:{ right. exists e, []. rewrite with_log_nil. split; [|simpl; lia].
      by erewrite bind_raise by reflexivity. }
  erewrite bind_ok by reflexivity.
  pose proof (model_generation_backend construct m flavor [] (Some model) s) as Hgen.
  destruct (Gate.backend construct m flavor [] (Some model)) as [k|e].
  2:{ right. erewrite bind_ok by apply Hgen.
      erewrite bind_raise by reflexivity. eexists _, [_]. split; [done|simpl; lia]. }
  erewrite bind_ok by apply Hgen.
  destruct (predict k (fcst_horizon m) (Some (fcst_first_date m)) (future_only m))
    as [[p|]|e] eqn:Hpred.
  - left. exists p. by erewrite bind_ok by (unfold lift; by rewrite Hpred).
  - right. eexists _, []. rewrite with_log_nil. split; [|simpl; lia].
    by erewrite bind_ok by (unfold lift; by rewrite Hpred).
  - right. exists e, []. rewrite with_log_nil. split; [|simpl; lia].
    by erewrite bind_raise by (unfold lift; by rewrite Hpred).
Qed.

(** Property X15.  [prediction] changes nothing but the log.
When the primary path returns, nothing at all is written; when it
raises, at most the failure of the model generation was logged, and
the failure of the prediction is logged after it. *)
Theorem prediction_only_logs (m : modeler) (s : state) :
  (exists p, Modeler.primary_forecast construct m s = (Ok p, s)
             /\ Modeler.prediction construct m s = (Ok (Modeler.finish m p), s))
  \/ (exists e l r,
        Modeler.primary_forecast construct m s = (Raise e, with_log s l)
        /\ (length l <= 1)%nat
        /\ Modeler.prediction construct m s
           = (r, with_log s (l ++ [prediction_failed e]))).
Proof.
  destruct (primary_forecast_cases m s) as [(p & Hp)|(e & l & Hp & Hl)].
  - left. exists p. split; [done|].
    destruct (prediction_cases construct m s)
      as [(p' & s1 & Hp' & Hrun)|[(e & s1 & p' & Hp' & _)|(e & s1 & Hp' & _)]];
      rewrite Hp in Hp'; [|done..].
    by injection Hp' as <- <-.
  - right.
    destruct (prediction_cases construct m s)
      as [(p' & s1 & Hp' & Hrun)|[(e' & s1 & p' & Hp' & _ & _ & Hrun)
                                 |(e' & s1 & Hp' & _ & Hrun)]];
      rewrite Hp in Hp'; [done| |].
    + injection Hp' as <- <-. rewrite with_log_app in Hrun.
      by exists e, l, (Ok (Modeler.finish m p')).
    + injection Hp' as <- <-. rewrite with_log_app in Hrun.
      by exists e, l, (Raise no_history_error).
Qed.
End PredictionWrites.

(** ** The baseline row of the model in production *)

Section Baseline.
Variable construct :
  string -> modeler -> model_config -> option artifact -> result krns_model.
Variable np_Inf : R.
Variable m : modeler.

Lemma loc_set_other row t name :
  name <> model_name row ->
  Pandas.loc name (Pandas.loc_set row t) = Pandas.loc name t.
Proof.
  intros Hne. induction t as [|r t IH]; simpl.
  - apply String.eqb_neq in Hne. rewrite String.eqb_sym. by rewrite Hne.
  - destruct (String.eqb (model_name r) (model_name row)) eqn:E; simpl.
    + apply String.eqb_eq in E.
      assert (Hr : String.eqb (model_name r) name = false).
      { apply String.eqb_neq. congruence. }
      assert (Hrow : String.eqb (model_name row) name = false).
      { apply String.eqb_neq. congruence. }
      by rewrite Hr, Hrow.
    + by rewrite IH.
Qed.

Lemma loc_set_same row t :
  Pandas.loc (model_name row) (Pandas.loc_set row t) = Ok row.
Proof.
  induction t as [|r t IH]; simpl.
  - by rewrite String.eqb_refl.
  - destruct (String.eqb (model_name r) (model_name row)) eqn:E; simpl.
    + by rewrite String.eqb_refl.
    + by rewrite E.
Qed.

Lemma model_generation_logs s flavor config trained E :
  triple (logged s) (Modeler.model_generation construct m flavor config trained)
         (fun _ => logged s) E.
Proof.
  intros s' [l ->]. rewrite model_generation_backend.
  destruct (Gate.backend construct m flavor config trained).
  - by exists l.
  - eexists. by rewrite with_log_app.
Qed.

Lemma evaluate_model_logs s actual pred metrics E :
  triple (logged s) (Modeler.evaluate_model np_Inf actual pred metrics)
         (fun _ => logged s) E.
Proof.
  intros s' [l ->].
  destruct (evaluate_model_shape np_Inf actual pred metrics (with_log s l))
    as (r & l' & -> & _).
  eexists. by rewrite with_log_app.
Qed.

Ltac keep :=
  first [ apply triple_ret | apply triple_raise | apply triple_get
        | apply triple_lift ];
  intros; try assumption; try tauto.

Lemma prod_model_eval_runs (s : state) :
  triple (fun s0 => s0 = s) (Modeler.prod_model_eval construct np_Inf m)
         (fun _ => baseline_outcome m s) (fun _ _ => False).
Proof.
  unfold Modeler.prod_model_eval.
  apply triple_try with (R := fun _ => logged s).
  2:{ intros e s' [l ->]. simpl. exists (l ++ [prod_model_failed e])%list.
      left. exists e, l. split; [done|]. by rewrite with_log_app. }
  eapply triple_bind with (R := fun _ => logged s).
  { apply triple_get. intros ? ->. exists []. by rewrite with_log_nil. }
  intros s0.
  eapply triple_bind with (R := fun _ => logged s); [keep|].
  intros [model flavor].
  eapply triple_bind with (R := fun _ => logged s);
    [apply model_generation_logs|].
  intros krns_model.
  eapply triple_bind with (R := fun _ => logged s); [keep|]. intros s1.
  eapply triple_bind with (R := fun _ => logged s).
  { destruct (test_data s1); keep. }
  intros test.
  eapply triple_bind with (R := fun _ => logged s); [keep|]. intros first.
  eapply triple_bind with
    (R := fun _ s' => logged s s' /\ exists k, krns_model = Some k).
  { destruct krns_model as [k|]; [|keep].
    apply triple_lift; [|done]. intros; eauto. }
  intros pred.
  eapply triple_bind with
    (R := fun _ s' => logged s s' /\ exists k, krns_model = Some k).
  { destruct pred; keep. }
  intros pred_values.
  eapply triple_bind with
    (R := fun _ s' => logged s s' /\ exists k, krns_model = Some k).
  { intros s' [Hs' Hk]. pose proof (evaluate_model_logs s (map metric test)
      pred_values (fcst_competition_metrics m) (fun _ => logged s) s' Hs') as He.
    destruct (Modeler.evaluate_model _ _ _ _ _) as [[r|e] s2]; [done|done]. }
  intros prod_evals.
  eapply triple_bind with
    (R := fun _ s' => logged s s' /\ exists k, krns_model = Some k).
  { destruct prod_evals; keep. }
  intros values.
  destruct (length values =? length (fcst_competition_metrics m))%nat eqn:Hlen.
  2:{ keep. }
  apply Nat.eqb_eq in Hlen.
  intros s' [[l ->] [k ->]]. simpl. exists l. right. exists k, values. done.
Qed.

(** Property X16.  [prod_model_eval] never raises.  Either it
logs a warning as its last record and leaves the table as it was, or
it writes the row [prod_model]: no configuration, the production
backend, no run id, and one value per competition metric.  Every
other row of the table is as before. *)
Theorem prod_model_eval_baseline (s : state) :
  exists l s',
    Modeler.prod_model_eval construct np_Inf m s = (Ok tt, s')
    /\ ((exists e l0, l = (l0 ++ [prod_model_failed e])%list
                      /\ s' = with_log s l)
        \/ (exists k values,
              s' = with_performances (with_log s l)
                     (Pandas.loc_set (baseline_row k values) (df_performances s))
              /\ length values = length (fcst_competition_metrics m)
              /\ Pandas.loc "prod_model" (df_performances s')
                 = Ok (baseline_row k values)))
    /\ forall name, name <> "prod_model" ->
         Pandas.loc name (df_performances s')
         = Pandas.loc name (df_performances s).
Proof.
  pose proof (prod_model_eval_runs s s eq_refl) as H.
  destruct (Modeler.prod_model_eval construct np_Inf m s) as [[[]|e] s'] eqn:Hrun;
    [|done].
  destruct H as [l Hl]. exists l, s'. split; [done|].
  destruct Hl as [(e & l0 & -> & ->)|(k & values & -> & Hlen)].
  - split; [left; eauto|]. done.
  - split.
    + right. exists k, values. split; [done|]. split; [done|].
      simpl. apply (loc_set_same (baseline_row k values)).
    + intros name Hne. simpl. by apply loc_set_other.
Qed.
End Baseline.

(** ** A model trained without a failure *)

Section Trained.
Variable np_Inf : R.
Variable m : modeler.
Local Open Scope list_scope.

Lemma unsupported_log_nil metrics :
  Forall (fun x => Spec.supported x = true) metrics ->
  Spec.unsupported_log metrics = [].
Proof.
  induction 1 as [|k ms Hk _ IH]; simpl; [done|]. by rewrite Hk.
Qed.

Lemma expected_dict_distinct actual pred metrics : forall out,
  Forall (fun x => Spec.supported x = true) metrics ->
  NoDup (Dict.keys out ++ map Spec.normalise metrics) ->
  Spec.expected_dict actual pred metrics out
  = out ++ metric_entries actual pred metrics.
Proof.
  induction metrics as [|k ms IH]; intros out Hall Hnd; simpl.
  - by rewrite app_nil_r.
  - apply Forall_cons in Hall as [Hk Hall]. rewrite Hk.
    assert (Hfresh : Spec.normalise k ∉ Dict.keys out).
    { apply NoDup_app in Hnd as (_ & Hdisj & _). intros Hin.
      apply (Hdisj _ Hin). simpl. apply list_elem_of_here. }
    rewrite dict_set_fresh by done. rewrite IH; [|done|].
    + by rewrite <- app_assoc.
    + unfold Dict.keys. rewrite map_app. simpl. by rewrite <- app_assoc.
Qed.

Lemma evaluate_model_entries actual pred metrics s :
  length actual = length pred ->
  Forall (fun x => Spec.supported x = true) metrics ->
  NoDup (map Spec.normalise metrics) ->
  Modeler.evaluate_model np_Inf actual pred metrics s
  = (Ok (Some (metric_entries actual pred metrics)), s).
Proof.
  intros Hlen Hall Hnd. unfold Modeler.evaluate_model, Modeler.evaluate_body.
  apply try_ok.
  erewrite bind_ok by (by apply evaluate_loop_same_length).
  rewrite unsupported_log_nil, with_log_nil by done.
  by rewrite expected_dict_distinct.
Qed.

(** The loop that sends the metrics to the tracker. *)
Lemma metrics_logged id : forall (entries : Dict.t R) s,
  (forall h r x v, log_metric (ml_flower m) h r x v = Ok tt) ->
  for_each entries
    (fun '(k, val) =>
       s ← get_state;
       lift (log_metric (ml_flower m) (tracking s) id k val);;
       track (MetricLogged id k val)) s
  = (Ok tt,
     State (train_data s) (test_data s) (df_performances s)
           (winning_model_name s) (log s)
           (tracking s ++ map (fun e => MetricLogged id e.1 e.2) entries)
           (registry s)).
Proof.
  intros entries s Hlog. revert s.
  induction entries as [|[k v] entries IH]; intros s.
  - simpl. rewrite app_nil_r. by destruct s.
  - simpl for_each. erewrite bind_ok.
    2:{ erewrite bind_ok by reflexivity. rewrite Hlog.
        erewrite bind_ok by reflexivity. reflexivity. }
    rewrite IH. simpl. by rewrite <- app_assoc.
Qed.

(** Property X17.  A model trained without a failure.  When
the table has no score column yet, the run starts, the backend's steps return, its forecast has as many
rows as the test set, the competition metrics are supported and
distinct once normalised, the name is configured and the tracker
accepts the calls, the pipeline returns; the table has the row of the
model (its configuration, the backend, the run id, and the metric
values in the order of the competition metrics), the tracker has seen
the start of the run, one event per metric and the end of the run,
and nothing is logged. *)
Theorem train_pipeline_records (s : state) (name id : string)
    (k : krns_model) (test : list obs) (p : list fcst)
    (config : model_config) :
  unscored s ->
  start_run (ml_flower m) (tracking s) = Ok (Some id) ->
  preprocess k = Ok tt -> log_params k = Ok tt ->
  fit k = Ok tt -> log_model k = Ok tt ->
  test_data s = Some test ->
  predict k (n_test m) (Pandas.min_date (map date test)) true = Ok (Some p) ->
  length p = length test ->
  Forall (fun x => Spec.supported x = true) (fcst_competition_metrics m) ->
  NoDup (map Spec.normalise (fcst_competition_metrics m)) ->
  Dict.get name (models_config m) = Some config ->
  (forall h r x v, log_metric (ml_flower m) h r x v = Ok tt) ->
  (forall h, end_run (ml_flower m) h = Ok tt) ->
  let entries :=
    metric_entries (map metric test) (map f_value p)
      (fcst_competition_metrics m) in
  Modeler.train_pipeline np_Inf m name (Some k) s
  = (Ok tt,
     State (train_data s) (test_data s)
       (Pandas.loc_set
          (PerfRow name (Some config) (Some k) (Some id)
             (Dict.values entries) None)
          (df_performances s))
       (winning_model_name s) (log s)
       (tracking s ++ run_events id entries) (registry s))
  /\ length (Dict.values entries) = length (fcst_competition_metrics m).
Proof.
  intros _ Hstart Hpre Hparams Hfit Hmodel Htest Hpred Hlen Hall Hnd Hconfig
    Hlog Hend entries.
  assert (Hvalues : length (Dict.values entries)
                    = length (fcst_competition_metrics m)).
  { unfold entries, Dict.values, metric_entries. by rewrite !length_map. }
  split; [|exact Hvalues].
  unfold Modeler.train_pipeline.
  erewrite bind_ok by reflexivity. rewrite Hstart.
  erewrite bind_ok by reflexivity.
  erewrite bind_ok by reflexivity.
  erewrite bind_ok by reflexivity.
  rewrite Hpre, Hparams, Hfit, Hmodel.
  do 4 (erewrite bind_ok by reflexivity).
  erewrite bind_ok by reflexivity. simpl test_data. rewrite Htest.
  erewrite bind_ok by reflexivity. rewrite Hpred.
  erewrite bind_ok by reflexivity.
  erewrite bind_ok by reflexivity.
  erewrite bind_ok.
  2:{ apply evaluate_model_entries; [|done..]. by rewrite !length_map. }
  fold entries. rewrite Hconfig.
  erewrite bind_ok by reflexivity.
  erewrite bind_ok by reflexivity.
  rewrite Hvalues, Nat.eqb_refl.
  erewrite bind_ok by reflexivity.
  erewrite bind_ok by (by apply metrics_logged).
  unfold Modeler.end_run_call.
  erewrite bind_ok by reflexivity. rewrite Hend.
  erewrite bind_ok by reflexivity.
  unfold track, run_events. simpl. do 2 f_equal.
  by rewrite <- !app_assoc.
Qed.
End Trained.

Lemma train_pipeline_records_witness :
  exists s',
    Modeler.train_pipeline 0%R Example.orchestrator "pmdarima_1"
      (Some Example.three_days) Example.split_state = (Ok tt, s')
    /\ map model_name (df_performances s') = ["pmdarima_1"]
    /\ tracking s'
       = run_events "run"
           (metric_entries [7; 5; 6]%R [1; 1; 1]%R ["rmse"; "mape"]).
Proof.
  destruct (train_pipeline_records 0%R Example.orchestrator Example.split_state
              "pmdarima_1" "run" Example.three_days
              [Obs "k" 4 7; Obs "k" 3 5; Obs "k" 2 6]
              [Fcst 1 1; Fcst 2 1; Fcst 3 1] [])
    as [Hrun _]; try reflexivity.
  - constructor.
  - repeat constructor.
  - apply NoDup_cons. split; [|apply NoDup_singleton].
    intros H. apply list_elem_of_singleton in H. discriminate H.
  - eexists. split; [exact Hrun|]. split; reflexivity.
Defined.

(** ** A tracker that cannot end the run of a failed model *)

Section Aborted.
Variable construct :
  string -> modeler -> model_config -> option artifact -> result krns_model.
Variable np_Inf : R.
Variable m : modeler.

(** Property X18.  The [except] clause of one model
calls [end_run] without a guard: when the pipeline of a model fails
and the tracker then refuses to end the run, the exception of
[end_run] leaves the loop, and the models after it are not trained. *)
Theorem failed_end_run_aborts_batch (name : string)
    (model : option krns_model) (rest : Dict.t (option krns_model))
    (s s1 : state) (e1 e2 : exn) :
  Modeler.train_pipeline np_Inf m name model s = (Raise e1, s1) ->
  end_run (ml_flower m) (tracking s1) = Raise e2 ->
  Modeler.train_one np_Inf m name model s
  = (Raise e2, with_log s1 [training_failed name e1])
  /\ Modeler.training_loop np_Inf m ((name, model) :: rest) s
     = (Raise e2, with_log s1 [training_failed name e1]).
Proof.
  intros Hpipe Hend.
  assert (Hone : Modeler.train_one np_Inf m name model s
                 = (Raise e2, with_log s1 [training_failed name e1])).
  { unfold Modeler.train_one. erewrite try_raise by apply Hpipe.
    erewrite bind_ok by reflexivity.
    unfold Modeler.end_run_call.
    erewrite bind_ok by reflexivity. simpl tracking. rewrite Hend.
    by erewrite bind_raise by reflexivity. }
  split; [exact Hone|].
  unfold Modeler.training_loop. simpl for_each.
  by erewrite bind_raise by apply Hone.
Qed.
End Aborted.

Lemma failed_end_run_aborts_batch_witness :
  Modeler.training_loop 0%R Sample5.stuck_orchestrator
    [("pmdarima_1", Some Example.three_days); ("prophet_1", Some Example.three_days)]
    (new_state ∅)
  = (Raise (Exception_ "no active run"),
     with_log (new_state ∅)
       [training_failed "pmdarima_1" (Exception_ "no run")]).
Proof.
  apply (failed_end_run_aborts_batch 0%R Sample5.stuck_orchestrator "pmdarima_1"
           (Some Example.three_days) [("prophet_1", Some Example.three_days)]
           (new_state ∅) (new_state ∅)); reflexivity.
Defined.

(** ** The shape of the performance table *)

Section Shape.
Variable construct :
  string -> modeler -> model_config -> option artifact -> result krns_model.
Variable np_Inf : R.
Variable m : modeler.

Lemma loc_set_well_formed labels row t :
  Table.well_formed labels t -> length (cells row) = length labels ->
  Table.well_formed labels (Pandas.loc_set row t).
Proof.
  intros Ht Hrow. induction Ht as [|r t Hr Ht IH]; simpl.
  - by repeat constructor.
  - destruct (String.eqb (model_name r) (model_name row)); by constructor.
Qed.

Lemma triple_for_fold {A B} (I : state -> Prop) (l : list A)
    (body : B -> A -> py B) E :
  (forall b x, triple I (body b x) (fun _ => I) E) ->
  forall b, triple I (for_fold l body b) (fun _ => I) E.
Proof.
  intros Hb. induction l as [|x l IH]; intros b; simpl.
  - by apply triple_ret.
  - eapply triple_bind; [apply Hb|]. intros ?. apply IH.
Qed.

Ltac keep :=
  first [ apply triple_ret | apply triple_raise | apply triple_get
        | apply triple_lift | apply triple_update ];
  intros; try assumption; try tauto.

Lemma logger_shaped lv txt e E :
  triple (shaped m) (logger lv txt e) (fun _ => shaped m) E.
Proof. intros s Hs. exact Hs. Qed.

Lemma track_shaped ev E :
  triple (shaped m) (track ev) (fun _ => shaped m) E.
Proof. intros s Hs. exact Hs. Qed.

Lemma evaluate_model_shaped actual pred metrics E :
  triple (shaped m) (Modeler.evaluate_model np_Inf actual pred metrics)
         (fun _ => shaped m) E.
Proof.
  intros s Hs.
  destruct (evaluate_model_shape np_Inf actual pred metrics s)
    as (r & l & -> & _).
  exact Hs.
Qed.

Lemma model_generation_shaped flavor config trained E :
  triple (shaped m) (Modeler.model_generation construct m flavor config trained)
         (fun _ => shaped m) E.
Proof.
  intros s Hs. rewrite model_generation_backend.
  destruct (Gate.backend construct m flavor config trained); exact Hs.
Qed.

Lemma end_run_call_shaped :
  triple (shaped m) (Modeler.end_run_call m) (fun _ => shaped m)
         (fun _ => shaped m).
Proof.
  unfold Modeler.end_run_call.
  eapply triple_bind with (R := fun _ => shaped m); [keep|]. intros s0.
  eapply triple_bind with (R := fun _ => shaped m); [keep|]. intros ?.
  apply track_shaped.
Qed.

Lemma train_pipeline_shaped name model :
  triple (shaped m) (Modeler.train_pipeline np_Inf m name model)
         (fun _ => shaped m) (fun _ => shaped m).
Proof.
  unfold Modeler.train_pipeline.
  eapply triple_bind with (R := fun _ => shaped m); [keep|]. intros s0.
  eapply triple_bind with (R := fun _ => shaped m); [keep|]. intros run.
  eapply triple_bind with (R := fun _ => shaped m).
  { destruct run; [|keep].
    eapply triple_bind with (R := fun _ => shaped m); [|intros; keep].
    apply track_shaped. }
  intros id.
  eapply triple_bind with (R := fun _ => shaped m).
  { destruct model; keep. }
  intros mdl.
  do 4 (eapply triple_bind with (R := fun _ => shaped m); [keep|]; intros ?).
  eapply triple_bind with (R := fun _ => shaped m); [keep|]. intros s1.
  eapply triple_bind with (R := fun _ => shaped m).
  { destruct (test_data s1); keep. }
  intros test.
  eapply triple_bind with (R := fun _ => shaped m); [keep|]. intros pred.
  eapply triple_bind with (R := fun _ => shaped m).
  { destruct pred; keep. }
  intros pred_values.
  eapply triple_bind with (R := fun _ => shaped m);
    [apply evaluate_model_shaped|].
  intros train_evals.
  eapply triple_bind with (R := fun _ => shaped m).
  { destruct (Dict.get name (models_config m)); keep. }
  intros config.
  eapply triple_bind with (R := fun _ => shaped m).
  { destruct train_evals; keep. }
  intros values.
  eapply triple_bind with (R := fun _ => shaped m).
  { destruct (length values =? length (fcst_competition_metrics m))%nat eqn:E;
      [|keep].
    apply Nat.eqb_eq in E.
    eapply triple_bind with (R := fun s2 s => shaped m s /\ s2 = s).
    { apply triple_get. intros. done. }
    intros s2 s [Hs <-]. simpl. unfold shaped. simpl.
    by apply loc_set_well_formed. }
  intros ?.
  eapply triple_bind with (R := fun _ => shaped m).
  { apply triple_for_each. intros [k v].
    eapply triple_bind with (R := fun _ => shaped m); [keep|]. intros ?.
    eapply triple_bind with (R := fun _ => shaped m); [keep|]. intros ?.
    apply track_shaped. }
  intros ?. apply end_run_call_shaped.
Qed.

Lemma training_loop_shaped models :
  triple (shaped m) (Modeler.training_loop np_Inf m models)
         (fun _ => shaped m) (fun _ => shaped m).
Proof.
  unfold Modeler.training_loop. apply triple_for_each. intros [name model].
  unfold Modeler.train_one.
  apply triple_try with (R := fun _ => shaped m);
    [apply train_pipeline_shaped|].
  intros e.
  eapply triple_bind with (R := fun _ => shaped m); [apply logger_shaped|].
  intros ?. apply end_run_call_shaped.
Qed.

Lemma train_test_split_shaped :
  triple (shaped m) (Modeler.train_test_split m) (fun _ => shaped m)
         (fun _ => shaped m).
Proof.
  unfold Modeler.train_test_split.
  apply triple_try with (R := fun _ => shaped m).
  2:{ intros e. apply logger_shaped. }
  destruct (_ <? _)%Z.
  - eapply triple_bind with (R := fun _ => shaped m); [apply logger_shaped|].
    intros ?. keep.
  - intros s Hs. exact Hs.
Qed.

Lemma create_all_models_shaped config :
  triple (shaped m) (Modeler.create_all_models construct m config)
         (fun _ => shaped m) (fun _ => shaped m).
Proof.
  unfold Modeler.create_all_models.
  apply triple_try with (R := fun _ => shaped m).
  2:{ intros e. eapply triple_bind with (R := fun _ => shaped m);
        [apply logger_shaped|]. intros ?. keep. }
  eapply triple_bind with (R := fun _ => shaped m); [|intros; keep].
  apply triple_for_fold. intros models [name cfg].
  eapply triple_bind with (R := fun _ => shaped m);
    [apply model_generation_shaped|].
  intros ?. keep.
Qed.

Lemma training_shaped :
  triple (shaped m) (Modeler.training construct np_Inf m)
         (fun _ => shaped m) (fun _ _ => False).
Proof.
  unfold Modeler.training.
  apply triple_try with (R := fun _ => shaped m).
  2:{ intros e. apply logger_shaped. }
  eapply triple_bind with (R := fun _ => shaped m); [keep|]. intros ?.
  eapply triple_bind with (R := fun _ => shaped m);
    [apply train_test_split_shaped|].
  intros ?.
  eapply triple_bind with (R := fun _ => shaped m);
    [apply create_all_models_shaped|].
  intros models.
  eapply triple_bind with (R := fun _ => shaped m).
  { destruct models; keep. }
  intros items. apply training_loop_shaped.
Qed.

Lemma prod_model_eval_shaped :
  triple (shaped m) (Modeler.prod_model_eval construct np_Inf m)
         (fun _ => shaped m) (fun _ _ => False).
Proof.
  intros s Hs. pose proof (prod_model_eval_runs construct np_Inf m s s eq_refl) as H.
  destruct (Modeler.prod_model_eval construct np_Inf m s) as [[[]|e] s'];
    [|done].
  destruct H as [l [(e & l0 & -> & ->)|(k & values & -> & Hlen)]]; [done|].
  unfold shaped. simpl. by apply loc_set_well_formed.
Qed.

(** Property X19.  [training] and [prod_model_eval] keep the
shape of the performance table: when every row has one cell per
competition metric before, so has every row after, whatever the
collaborators do; both return without raising. *)
Theorem table_keeps_its_shape (s : state) :
  shaped m s ->
  exists s1 s2,
    Modeler.training construct np_Inf m s = (Ok tt, s1)
    /\ shaped m s1
    /\ Modeler.prod_model_eval construct np_Inf m s1 = (Ok tt, s2)
    /\ shaped m s2.
Proof.
  intros Hs. pose proof (training_shaped s Hs) as H1.
  destruct (Modeler.training construct np_Inf m s) as [[[]|e] s1] eqn:E1;
    [|done].
  pose proof (prod_model_eval_shaped s1 H1) as H2.
  destruct (Modeler.prod_model_eval construct np_Inf m s1) as [[[]|e] s2] eqn:E2;
    [|done].
  exists s1, s2. split; [reflexivity|]. split; [exact H1|].
  split; [exact E2|exact H2].
Qed.
End Shape.

Lemma table_keeps_its_shape_witness :
  shaped Example.orchestrator (new_state ∅)
  /\ exists s1 s2,
       Modeler.training Example.backends 0%R Example.orchestrator (new_state ∅)
       = (Ok tt, s1)
       /\ Modeler.prod_model_eval Example.backends 0%R Example.orchestrator s1
          = (Ok tt, s2)
       /\ shaped Example.orchestrator s2.
Proof.
  assert (H : shaped Example.orchestrator (new_state ∅)) by constructor.
  split; [exact H|].
  destruct (table_keeps_its_shape Example.backends 0%R Example.orchestrator
              (new_state ∅) H) as (s1 & s2 & H1 & _ & H2 & H3).
  by exists s1, s2.
Defined.

(** ** The two evaluators *)

Section TwoEvaluators.
Variable np_Inf : R.
Local Open Scope R_scope.


End TwoEvaluators.


(** ** The attributes read off the data *)

Section Constructor.
Local Open Scope R_scope.

Lemma fold_rmax_bounds x l :
  let mx := fold_right Rmax x l in
  (mx = x \/ mx ∈ l) /\ x <= mx /\ forall y, y ∈ l -> y <= mx.
Proof.
  induction l as [|y l IH]; simpl.
  - split; [by left|]. split; [lra|]. intros z Hz. by apply elem_of_nil in Hz.
  - destruct IH as (Hwhere & Hle & Hall).
    split; [|split].
    + destruct (Rle_dec y (fold_right Rmax x l)).
      * rewrite Rmax_right by done.
        destruct Hwhere as [Hx|Hin]; [by left|right].
        by apply list_elem_of_further.
      * rewrite Rmax_left by lra. right. apply list_elem_of_here.
    + pose proof (Rmax_r y (fold_right Rmax x l)). lra.
    + intros z [->|Hz]%elem_of_cons.
      * apply Rmax_l.
      * apply Hall in Hz. pose proof (Rmax_r y (fold_right Rmax x l)). lra.
Qed.

(** Property X21.  [Modeler.__init__] on data with at least one
row: [key_code] is the key of the first row, and [max_value] is the
greatest metric value of the data, an upper bound that some row
attains. *)
Theorem init_reads_the_data (flower : MLFlower) (d : list obs)
    (config : Dict.t model_config) (current first ntest nunit horizon : Z)
    (metrics : list string) (weights : list R) (fonly : bool) :
  d <> [] ->
  exists mo r0,
    Modeler.init flower d config current first ntest nunit horizon metrics
      weights fonly = Ok mo
    /\ data mo = d
    /\ head d = Some r0 /\ key_code mo = key r0
    /\ (forall r, r ∈ d -> metric r <= max_value mo)
    /\ (exists r, r ∈ d /\ metric r = max_value mo).
Proof.
  intros Hd. destruct d as [|r0 d]; [done|].
  eexists _, r0. split; [reflexivity|]. simpl.
  split; [done|]. split; [done|]. split; [done|].
  destruct (fold_rmax_bounds (metric r0) (map metric d)) as (Hwhere & Hle & Hall).
  split.
  - intros r [->|Hr]%elem_of_cons; [done|].
    apply Hall. by apply list_elem_of_fmap_2.
  - destruct Hwhere as [Hx|Hin].
    + exists r0. split; [apply list_elem_of_here|done].
    + apply list_elem_of_fmap in Hin as (r & Hr & Hin).
      exists r. split; [by apply list_elem_of_further|done].
Qed.
End Constructor.

Lemma init_reads_the_data_witness :
  exists mo,
    Modeler.init Example.flower Example.series [] 4 5 1 3 5 ["rmse"] [1%R] true
    = Ok mo
    /\ key_code mo = "k".
Proof.
  destruct (init_reads_the_data Example.flower Example.series [] 4 5 1 3 5
              ["rmse"] [1%R] true) as (mo & r0 & Hinit & _ & Hhead & Hkey & _).
  - discriminate.
  - exists mo. split; [exact Hinit|].
    rewrite Hkey. injection Hhead as <-. reflexivity.
Defined.

(** ** A forecast of a single value *)

Section Stretched.
Variable np_Inf : R.
Local Open Scope R_scope.

Lemma zip_with_replicate (f : R -> R -> R) xs p :
  zip_with f xs (replicate (length xs) p) = map (fun x => f x p) xs.
Proof. induction xs as [|x xs IH]; simpl; [done|]. by rewrite IH. Qed.

Lemma sub_single actual p :
  Np.sub actual [p] = Np.sub actual (replicate (length actual) p).
Proof.
  unfold Np.sub, Np.broadcast. rewrite length_replicate.
  rewrite (Nat.eqb_refl (length actual)), zip_with_replicate. simpl length.
  destruct (length actual =? 1)%nat eqn:E; [|reflexivity].
  apply Nat.eqb_eq in E. destruct actual as [|a [|b actual]]; done.
Qed.

Lemma evaluate_step_single actual p out metric :
  Modeler.evaluate_step np_Inf actual [p] out metric
  = Modeler.evaluate_step np_Inf actual (replicate (length actual) p) out metric.
Proof. unfold Modeler.evaluate_step. by rewrite sub_single. Qed.

(** Property X22.  A forecast of a single value is
not rejected by [evaluate_model]: the value is stretched over the
actual values, and the result and the log are those of a forecast
that repeats the value once per actual value. *)
Theorem single_prediction_is_stretched (actual : list R) (p : R)
    (metrics : list string) (s : state) :
  Modeler.evaluate_model np_Inf actual [p] metrics s
  = Modeler.evaluate_model np_Inf actual (replicate (length actual) p) metrics s
  /\ exists out,
       Modeler.evaluate_model np_Inf actual [p] metrics s
       = (Ok (Some out), with_log s (Spec.unsupported_log metrics)).
Proof.
  assert (H : forall out s0,
    for_fold metrics (Modeler.evaluate_step np_Inf actual [p]) out s0
    = for_fold metrics
        (Modeler.evaluate_step np_Inf actual (replicate (length actual) p))
        out s0).
  { induction metrics as [|k ms IH]; intros out s0; [done|].
    rewrite !for_fold_cons, evaluate_step_single.
    unfold mbind, py_bind.
    destruct (Modeler.evaluate_step np_Inf actual _ out k s0) as [[out'|e] s1];
      [by rewrite IH|done]. }
  assert (Heq : Modeler.evaluate_model np_Inf actual [p] metrics s
    = Modeler.evaluate_model np_Inf actual (replicate (length actual) p)
        metrics s).
  { unfold Modeler.evaluate_model, Modeler.evaluate_body, try_except.
    unfold mbind at 1 3, py_bind at 1 3. by rewrite H. }
  split; [exact Heq|]. rewrite Heq.
  exists (Spec.expected_dict actual (replicate (length actual) p) metrics []).
  unfold Modeler.evaluate_model, Modeler.evaluate_body.
  apply try_ok.
  erewrite bind_ok; [done|].
  apply evaluate_loop_same_length. by rewrite length_replicate.
Qed.
End Stretched.

(** ** The naive forecast and the network backend *)

Section SameDays.
Variable construct :
  string -> modeler -> model_config -> option artifact -> result krns_model.
Variable float32 : R -> R.
Local Open Scope Z_scope.



(** Property X24.  Every row that [prediction] returns, on
either path, carries [fcst_first_date] as reference date,
[current_date] as creation date and [key_code] as key, and the dates
of the rows are those of the forecast they were made from. *)
Theorem prediction_stamps_rows (m : modeler) (s : state)
    (rows : list prediction_row) (s' : state) :
  Modeler.prediction construct m s = (Ok rows, s') ->
  Forall (fun r => p_reference r = fcst_first_date m
                   /\ p_creation r = current_date m
                   /\ p_key r = key_code m) rows
  /\ exists p, rows = Modeler.finish m p
               /\ map p_date rows = map f_date p
               /\ (Modeler.primary_forecast construct m s = (Ok p, s')
                   \/ exists e s1,
                        Modeler.primary_forecast construct m s = (Raise e, s1)
                        /\ Modeler.fallback m s' = (Ok p, s')).
Proof.
  intros Hrun.
  assert (Hfinish : forall p,
    Forall (fun r => p_reference r = fcst_first_date m
                     /\ p_creation r = current_date m
                     /\ p_key r = key_code m) (Modeler.finish m p)
    /\ map p_date (Modeler.finish m p) = map f_date p).
  { intros p. unfold Modeler.finish. split.
    - apply Forall_map, Forall_forall. intros x _. done.
    - rewrite map_map. done. }
  destruct (prediction_cases construct m s)
    as [(p & s1 & Hp & Hrun')|[(e & s1 & p & Hp & _ & Hf & Hrun')
                              |(e & s1 & _ & _ & Hrun')]];
    rewrite Hrun in Hrun'; [| |done].
  - injection Hrun' as -> ->. destruct (Hfinish p) as [H1 H2].
    split; [exact H1|]. exists p. split; [done|]. split; [exact H2|]. by left.
  - injection Hrun' as -> ->. destruct (Hfinish p) as [H1 H2].
    split; [exact H1|]. exists p. split; [done|]. split; [exact H2|].
    right. eauto.
Qed.
End SameDays.


Lemma prediction_stamps_rows_witness :
  exists rows s',
    Modeler.prediction Example.no_backend Example.positive (new_state ∅)
    = (Ok rows, s')
    /\ Forall (fun r => p_reference r = 13%Z /\ p_creation r = 12%Z
                        /\ p_key r = "k") rows.
Proof.
  destruct (Modeler.prediction Example.no_backend Example.positive (new_state ∅))
    as [[rows|e] s'] eqn:Hrun; [|discriminate Hrun].
  exists rows, s'. split; [reflexivity|].
  exact (proj1 (prediction_stamps_rows Example.no_backend Example.positive
                  (new_state ∅) rows s' Hrun)).
Defined.
